(** * examples/1_linear_regression.py: Bayesian linear regression of wheat
    yield on soil rating.

    The script is a straight-line pipeline: a version assertion, seeding,
    data loading, four numpyro model functions, a sampling driver looping
    over two prior widths, and the computation of the data drawn in figures
    2 and 3.  This development embeds those parts as Rocq functions and
    proves the properties the specification states about them.

    Numbers.  Floating-point arrays are embedded over the exact rationals
    [Q]; every arithmetic law below is a law of exact arithmetic.

    Library calls.  The script's own statements are translated line by line.
    What it calls in jax and numpyro is embedded as follows: the threefry
    key derivation ([PRNGKey], [random.split]) and the effect handlers
    ([seed], [substitute], [trace]), [Predictive] and the [MCMC] driver are
    written out; drawing from a distribution and the NUTS transition are the
    fields of the class [Engine]. *)

From Stdlib Require Import ZArith QArith Qabs Qfield Lqa List String Bool Lia.
From stdpp Require Import base option list strings gmap fin_maps.

Open Scope string_scope.

(* ===================================================================== *)
(** ** Pseudo-random keys: [jax.random] with the threefry2x32 generator  *)
(* ===================================================================== *)

Module Threefry.

Local Open Scope Z_scope.

(** A key is a pair of unsigned 32-bit words. *)
Definition Key : Type := (Z * Z)%type.

Definition wrap32 (x : Z) : Z := x mod 2 ^ 32.

Definition add32 (x y : Z) : Z := wrap32 (x + y).

Definition rotate_left (x d : Z) : Z :=
  Z.lor (wrap32 (Z.shiftl x d)) (Z.shiftr x (32 - d)).

Definition apply_round (v : Z * Z) (rot : Z) : Z * Z :=
  let v0 := add32 (fst v) (snd v) in
  let v1 := rotate_left (snd v) rot in
  (v0, Z.lxor v0 v1).

Definition rotations0 : list Z := [13; 15; 26; 6].
Definition rotations1 : list Z := [17; 29; 16; 24].

Definition rounds (rots : list Z) (x : Z * Z) : Z * Z :=
  fold_left apply_round rots x.

Definition inject (x : Z * Z) (ka kb i : Z) : Z * Z :=
  (add32 (fst x) ka, add32 (add32 (snd x) kb) i).

(** [threefry2x32] on one pair of counter words: twenty rounds, the key
    schedule injected every four. *)
Definition threefry2x32 (key : Key) (x : Z * Z) : Z * Z :=
  let ks0 := fst key in
  let ks1 := snd key in
  let ks2 := Z.lxor (Z.lxor ks0 ks1) 0x1BD11BDA in
  let x := (add32 (fst x) ks0, add32 (snd x) ks1) in
  let x := inject (rounds rotations0 x) ks1 ks2 1 in
  let x := inject (rounds rotations1 x) ks2 ks0 2 in
  let x := inject (rounds rotations0 x) ks0 ks1 3 in
  let x := inject (rounds rotations1 x) ks1 ks2 4 in
  inject (rounds rotations0 x) ks2 ks0 5.

(** [random.PRNGKey(seed)] for a seed that fits 32 bits. *)
Definition PRNGKey (seed : Z) : Key := (wrap32 (Z.shiftr seed 32), wrap32 seed).

(** [threefry_2x32(key, iota(2*num))]: the counters are cut in two halves,
    hashed pairwise, and the two output halves concatenated. *)
Definition threefry_iota (key : Key) (num : nat) : list Z :=
  let out :=
    map (fun i => threefry2x32 key (Z.of_nat i, Z.of_nat (num + i))) (seq 0 num) in
  map fst out ++ map snd out.

Fixpoint pairs (l : list Z) : list Key :=
  match l with
  | a :: b :: l' => (a, b) :: pairs l'
  | _ => []
  end.

(** [random.split(key, num)]: reshape the [2*num] words to [(num, 2)]. *)
Definition split (key : Key) (num : nat) : list Key :=
  pairs (threefry_iota key num).

(** [k1, k2 = random.split(key)]. *)
Definition split2 (key : Key) : Key * Key :=
  match split key 2 with
  | [k1; k2] => (k1, k2)
  | _ => (key, key)
  end.

End Threefry.

(* ===================================================================== *)
(** ** Exceptions                                                        *)
(* ===================================================================== *)

(** The exceptions a run can end with: those the script's own statements and
    the embedded library code raise, and [Foreign], which stands for any
    exception raised inside a collaborator the script calls (the backend
    query, the file system, the data loader, the figure writer). *)
Inductive Exn :=
| AssertionError
| TypeError
| ValueError
| IndexError
| KeyError (key : string)
| NameError (name : string)
| Foreign (what : string).

Inductive result (A : Type) :=
| Ok (a : A)
| Raise (e : Exn).
Arguments Ok {A} a.
Arguments Raise {A} e.

#[global] Instance result_ret : MRet result := fun A a => Ok a.
#[global] Instance result_bind : MBind result := fun A B f m =>
  match m with
  | Ok a => f a
  | Raise e => Raise e
  end.

Definition from_option {A} (e : Exn) (o : option A) : result A :=
  match o with
  | Some a => Ok a
  | None => Raise e
  end.

(** [[f(x) for x in l]] for an [f] that may raise: the first exception wins. *)
Fixpoint mapR {A B} (f : A -> result B) (l : list A) : result (list B) :=
  match l with
  | [] => Ok []
  | x :: l' => y ← f x; ys ← mapR f l'; Ok (y :: ys)
  end.

(** A [for] loop threading a state: the first exception ends the loop. *)
Fixpoint foldR {A S} (f : S -> A -> result S) (l : list A) (s : S) : result S :=
  match l with
  | [] => Ok s
  | x :: l' => s' ← f s x; foldR f l' s'
  end.

(* ===================================================================== *)
(** ** Arrays of rank at most two, with numpy broadcasting               *)
(* ===================================================================== *)

Inductive tensor :=
| Scalar (x : Q)
| Vector (xs : list Q)
| Matrix (rows : list (list Q)).

#[global] Instance tensor_inhabited : Inhabited tensor := populate (Scalar 0).

Definition rank (t : tensor) : nat :=
  match t with
  | Scalar _ => 0
  | Vector _ => 1
  | Matrix _ => 2
  end.

(** Every array seen as rows: a scalar is [1 x 1], a vector [1 x n]. *)
Definition to_rows (t : tensor) : list (list Q) :=
  match t with
  | Scalar x => [[x]]
  | Vector xs => [xs]
  | Matrix rows => rows
  end.

Definition ncols (rows : list (list Q)) : nat :=
  match rows with
  | [] => 0
  | r :: _ => length r
  end.

Definition of_rows (rk : nat) (rows : list (list Q)) : tensor :=
  match rk with
  | O => Scalar (hd 0%Q (hd [] rows))
  | S O => Vector (hd [] rows)
  | _ => Matrix rows
  end.

(** numpy's rule for one axis: equal extents, or one of them is 1. *)
Definition broadcast_dim (a b : nat) : option nat :=
  if Nat.eqb a b then Some a
  else if Nat.eqb a 1 then Some b
  else if Nat.eqb b 1 then Some a
  else None.

Definition stretch {A} (n : nat) (l : list A) : list A :=
  match l with
  | [x] => repeat x n
  | _ => l
  end.

(** An array has rows of one length; a ragged nesting is not an array. *)
Definition rectangular (rows : list (list Q)) : bool :=
  forallb (fun r => Nat.eqb (length r) (ncols rows)) rows.

(** [a op b] elementwise with broadcasting; [None] where numpy raises
    "operands could not be broadcast together" (or an operand is ragged). *)
Definition broadcast2 (op : Q -> Q -> Q) (a b : tensor) : option tensor :=
  let ra := to_rows a in
  let rb := to_rows b in
  if rectangular ra && rectangular rb then
    match broadcast_dim (length ra) (length rb), broadcast_dim (ncols ra) (ncols rb) with
    | Some r, Some c =>
        let ra' := map (stretch c) (stretch r ra) in
        let rb' := map (stretch c) (stretch r rb) in
        Some (of_rows (Nat.max (rank a) (rank b)) (zip_with (zip_with op) ra' rb'))
    | _, _ => None
    end
  else None.

Definition tmul : tensor -> tensor -> option tensor := broadcast2 Qmult.

Definition dot (u v : list Q) : Q := fold_right Qplus 0%Q (zip_with Qmult u v).

Fixpoint transpose (n : nat) (rows : list (list Q)) : list (list Q) :=
  match n with
  | O => []
  | S n' => map (hd 0%Q) rows :: transpose n' (map (@tl Q) rows)
  end.

(** [a @ b]; [None] where numpy raises (a 0-d operand, or inner extents
    that differ). *)
Definition matmul (a b : tensor) : option tensor :=
  match a, b with
  | Vector u, Vector v =>
      if Nat.eqb (length u) (length v) then Some (Scalar (dot u v)) else None
  | Matrix rows, Vector v =>
      if forallb (fun r => Nat.eqb (length r) (length v)) rows
      then Some (Vector (map (fun r => dot r v) rows)) else None
  | Vector u, Matrix rows =>
      if Nat.eqb (length u) (length rows)
      then Some (Vector (map (dot u) (transpose (ncols rows) rows))) else None
  | Matrix rows, Matrix rows' =>
      if forallb (fun r => Nat.eqb (length r) (length rows')) rows && rectangular rows'
      then Some (Matrix (map (fun r => map (dot r) (transpose (ncols rows') rows')) rows))
      else None
  | _, _ => None
  end.

(** [t.reshape(-1, 1)]: all entries in one column. *)
Definition reshape_column (t : tensor) : tensor :=
  Matrix (map (fun x => [x]) (concat (to_rows t))).

Definition tmap (f : Q -> Q) (t : tensor) : tensor :=
  match t with
  | Scalar x => Scalar (f x)
  | Vector xs => Vector (map f xs)
  | Matrix rows => Matrix (map (map f) rows)
  end.

(** [t.flatten()]. *)
Definition flatten (t : tensor) : list Q := concat (to_rows t).

(* ===================================================================== *)
(** ** numpyro: distributions, sample statements, model functions        *)
(* ===================================================================== *)

Abbreviation Key := Threefry.Key.

(** The distribution objects the script constructs from [numpyro.distributions]. *)
Inductive Dist :=
| Normal (loc scale : tensor)
| Exponential (rate : tensor)
| StudentT (df loc scale : tensor)
| LeftTruncatedDistribution (base_dist : Dist) (low : tensor)
| Expand (base_dist : Dist) (batch_shape : list nat).

(** A model function body is a sequence of [numpyro.sample(name, fn, obs=obs)]
    statements, each binding the value the statement returns; it may raise. *)
Inductive Model :=
| Done
| Fail (e : Exn)
| Sample (name : string) (fn : Dist) (obs : option tensor) (k : tensor -> Model).

(** A Python function object taking keyword arguments: its [__name__] and
    what calling it with [**kwargs] does.  The name stays with the object
    when another variable is bound to it. *)
Record PyFunc := {
  fn_name : string;
  fn_call : gmap string tensor -> result Model
}.

(** Keyword binding: a name outside the signature is a [TypeError], and so
    is a missing parameter that has no default. *)
Definition check_keywords (params : list string) (kwargs : gmap string tensor) : result unit :=
  if decide (dom kwargs ⊆ list_to_set params) then Ok tt else Raise TypeError.

Definition required (kwargs : gmap string tensor) (name : string) : result tensor :=
  from_option TypeError (kwargs !! name).

(** A parameter declared [name=None]: [None] when the call omits it. *)
Definition optional (kwargs : gmap string tensor) (name : string) : option tensor :=
  kwargs !! name.

(** One entry of the trace of a model run. *)
Record Site := {
  site_name : string;
  site_fn : Dist;
  site_value : tensor;
  site_is_observed : bool
}.

Definition positive (t : tensor) : Prop := Forall (fun x => 0 < x)%Q (flatten t).

(** [constraints.greater_than(low)], elementwise with [low] broadcast. *)
Definition greater_than (low value : tensor) : Prop :=
  match broadcast2 Qminus value low with
  | Some diff => positive diff
  | None => False
  end.

(** [arg_constraints]: the parameters for which a distribution is defined. *)
Fixpoint valid_args (d : Dist) : Prop :=
  match d with
  | Normal _ scale => positive scale
  | Exponential rate => positive rate
  | StudentT df _ scale => positive df /\ positive scale
  | LeftTruncatedDistribution base low =>
      valid_args base /\ rectangular (to_rows low) = true
  | Expand base _ => valid_args base
  end.

(** [support]: where the values of a distribution lie. *)
Fixpoint in_support (d : Dist) (value : tensor) : Prop :=
  match d with
  | Normal _ _ => True
  | Exponential _ => positive value
  | StudentT _ _ _ => True
  | LeftTruncatedDistribution _ low => greater_than low value
  | Expand base _ => in_support base value
  end.

(** Distributions whose parameters are all 0-dimensional: their batch shape
    is [()], so a draw is a 0-dimensional array. *)
Fixpoint scalar_params (d : Dist) : bool :=
  match d with
  | Normal (Scalar _) (Scalar _) => true
  | Exponential (Scalar _) => true
  | StudentT (Scalar _) (Scalar _) (Scalar _) => true
  | LeftTruncatedDistribution base (Scalar _) => scalar_params base
  | Expand base [] => scalar_params base
  | _ => false
  end.

(** What the script leaves to the inference library: drawing a value from a
    distribution given a key, and one NUTS transition given the model's
    trace as a function of the latent values.  A draw from a distribution
    with valid parameters lies in its support, and has the distribution's
    batch shape (stated here for the 0-dimensional case); a transition
    returns a value for each latent site it was given (the loop carrying the
    state keeps its tree structure). *)
Class Engine := {
  dist_sample : Dist -> Key -> tensor;
  dist_sample_support :
    forall d k, valid_args d -> in_support d (dist_sample d k);
  dist_sample_scalar :
    forall d k, scalar_params d = true -> rank (dist_sample d k) = 0%nat;
  adapt_state : Type;
  adapt_init : adapt_state;
  init_value : Dist -> Key -> tensor;
  nuts_move :
    (gmap string tensor -> result (list Site)) -> bool -> adapt_state ->
    Key -> Key -> gmap string tensor -> gmap string tensor * adapt_state;
  nuts_move_dom :
    forall pot warm a km kt z, dom (nuts_move pot warm a km kt z).1 = dom z
}.

Section Handlers.

Context `{Engine}.

(** [trace(seed(substitute(model, data), rng_key)).get_trace] for the body
    [m] that calling the model produced; [rng_key = None] is the stack without
    the [seed] handler.  The innermost handler acts first: [substitute]
    sets the value of a site named in [data]; a site that still has no
    value and is not observed splits the seed key and draws with the
    subkey, and without a seed raises. *)
Fixpoint get_trace (rng_key : option Key) (data : gmap string tensor) (m : Model)
  : result (list Site) :=
  match m with
  | Done => Ok []
  | Fail e => Raise e
  | Sample name fn obs k =>
      let is_observed := bool_decide (is_Some obs) in
      let value := match data !! name with Some v => Some v | None => obs end in
      match value with
      | Some v =>
          rest ← get_trace rng_key data (k v);
          Ok (Build_Site name fn v is_observed :: rest)
      | None =>
          match rng_key with
          | Some key =>
              let '(key', rng_key_sample) := Threefry.split2 key in
              let v := dist_sample fn rng_key_sample in
              rest ← get_trace (Some key') data (k v);
              Ok (Build_Site name fn v is_observed :: rest)
          | None => Raise ValueError
          end
      end
  end.

(** The values of a trace by site name. *)
Definition trace_values (tr : list Site) : gmap string tensor :=
  list_to_map (map (fun s => (site_name s, site_value s)) tr).

(** Stacking dictionaries of one structure along a new leading axis. *)
Definition stack (zs : list (gmap string tensor)) : result (gmap string (list tensor)) :=
  match zs with
  | [] => Ok ∅
  | z0 :: _ =>
      if forallb (fun z => bool_decide (dom z = dom z0)) zs
      then Ok (map_imap (fun name _ => Some (omap (fun z => z !! name) zs)) z0)
      else Raise TypeError
  end.

(** [Predictive(model, num_samples=n)]. *)
Record Predictive := {
  pred_model : PyFunc;
  pred_num_samples : nat
}.

(** [predictive(rng_key, **kwargs)] without posterior samples: one key per
    draw, the model traced under each, every sample site returned. *)
Definition Predictive_call (p : Predictive) (rng_key : Key) (kwargs : gmap string tensor)
  : result (gmap string (list tensor)) :=
  let n := pred_num_samples p in
  let keys := if (1 <? n)%nat then Threefry.split rng_key n else [rng_key] in
  traces ← mapR (fun k => m ← fn_call (pred_model p) kwargs;
                          get_trace (Some k) ∅ m) (firstn n keys);
  stack (map trace_values traces).

(** [NUTS(model)] and [MCMC(kernel, num_samples=, num_warmup=, num_chains=)]. *)
Record NUTS := {
  nuts_model : PyFunc
}.

Record MCMC := {
  sampler : NUTS;
  num_samples : nat;
  num_warmup : nat;
  num_chains : nat
}.

Record HMCState := {
  hmc_i : nat;
  hmc_z : gmap string tensor;
  hmc_adapt : adapt_state;
  hmc_rng_key : Key
}.

(** The model with the latent values [z] substituted, traced without a
    seed: what the kernel differentiates. *)
Definition potential (k : NUTS) (kwargs : gmap string tensor) (z : gmap string tensor)
  : result (list Site) :=
  m ← fn_call (nuts_model k) kwargs; get_trace None z m.

Definition latent_sites (tr : list Site) : list Site :=
  filter (fun s => site_is_observed s = false) tr.

(** [kernel.init]: one seeded run of the model finds the latent sites, each
    of which gets an initial value. *)
Definition nuts_init (k : NUTS) (rng_key : Key) (kwargs : gmap string tensor)
  : result HMCState :=
  let '(rng_key, rng_key_init_model) := Threefry.split2 rng_key in
  m ← fn_call (nuts_model k) kwargs;
  tr ← get_trace (Some rng_key_init_model) ∅ m;
  let z0 := list_to_map
              (map (fun s => (site_name s, init_value (site_fn s) rng_key_init_model))
                   (latent_sites tr)) in
  Ok {| hmc_i := 0; hmc_z := z0; hmc_adapt := adapt_init;
        hmc_rng_key := hd rng_key (Threefry.split rng_key 3) |}.

(** [kernel.sample]: one transition; the first [num_warmup] adapt. *)
Definition nuts_sample (k : NUTS) (warmup : nat) (kwargs : gmap string tensor)
    (st : HMCState) : HMCState :=
  match Threefry.split (hmc_rng_key st) 3 with
  | [rng_key; rng_key_momentum; rng_key_transition] =>
      let '(z, a) := nuts_move (potential k kwargs) (hmc_i st <? warmup)%nat
                       (hmc_adapt st) rng_key_momentum rng_key_transition (hmc_z st) in
      {| hmc_i := S (hmc_i st); hmc_z := z; hmc_adapt := a; hmc_rng_key := rng_key |}
  | _ => st
  end.

(** The values after each of [n] successive applications of [body]. *)
Fixpoint iterates {S} (n : nat) (body : S -> S) (s : S) : list S :=
  match n with
  | O => []
  | S n' => let s' := body s in s' :: iterates n' body s'
  end.

(** [fori_collect(lower, upper, body, init)]: run [upper] iterations, keep
    the values of iterations [lower .. upper-1]. *)
Definition fori_collect {S} (lower upper : nat) (body : S -> S) (init : S) : list S :=
  drop lower (iterates upper body init).

Definition single_chain_mcmc (mc : MCMC) (kwargs : gmap string tensor) (rng_key : Key)
  : result (list (gmap string tensor)) :=
  init_state ← nuts_init (sampler mc) rng_key kwargs;
  Ok (map hmc_z
        (fori_collect (num_warmup mc) (num_warmup mc + num_samples mc)
           (nuts_sample (sampler mc) (num_warmup mc) kwargs) init_state)).

(** [mcmc.run(rng_key, **kwargs)]: the collected states, chain by chain. *)
Definition MCMC_run (mc : MCMC) (rng_key : Key) (kwargs : gmap string tensor)
  : result (list (list (gmap string tensor))) :=
  let keys := if (1 <? num_chains mc)%nat
              then Threefry.split rng_key (num_chains mc) else [rng_key] in
  mapR (single_chain_mcmc mc kwargs) keys.

(** [mcmc.get_samples()]: the chains flattened into one leading axis. *)
Definition get_samples (states : list (list (gmap string tensor)))
  : result (gmap string (list tensor)) :=
  stack (concat states).

End Handlers.

(* ===================================================================== *)
(** ** The script: data, scaling record, model functions (lines 46-93)   *)
(* ===================================================================== *)

(** The columns of [dfL_train] the script reads. *)
Record Row := {
  crop : string;
  bodenzahl_scaled : Q;
  yield_scaled : Q
}.

(** What [getData()] returns, as far as the script uses it: the training
    table and the dictionary [scale_train]. *)
Record Data := {
  dfL_train : list Row;
  scale_train : gmap string Q
}.

(** The four entries of [scale_train] the script reads (line 58-59). *)
Record Scale := {
  bodenzahl_mean : Q;
  bodenzahl_std : Q;
  Winterweizen_yield_mean : Q;
  Winterweizen_yield_std : Q
}.

Definition lookup_key {V} (d : gmap string V) (key : string) : result V :=
  from_option (KeyError key) (d !! key).

Definition read_scale (scale_train : gmap string Q) : result Scale :=
  bm ← lookup_key scale_train "bodenzahl_mean";
  bs ← lookup_key scale_train "bodenzahl_std";
  ym ← lookup_key scale_train "Winterweizen_yield_mean";
  ys ← lookup_key scale_train "Winterweizen_yield_std";
  Ok (Build_Scale bm bs ym ys).

(** [dfL_train.loc[dfL_train['crop']=='Winterweizen', column].values]. *)
Definition wheat_column (column : Row -> Q) (df : list Row) : list Q :=
  map column (filter (fun r => crop r = "Winterweizen") df).

(** Lines 65-68. *)
Definition model (Soil : tensor) (Yield : option tensor) : Model :=
  Sample "beta" (Normal (Scalar 0) (Scalar 1)) None (fun beta =>
  Sample "sigma" (Exponential (Scalar 1)) None (fun sigma =>
  match tmul Soil beta with
  | Some mu => Sample "Yield" (Normal mu sigma) Yield (fun _ => Done)
  | None => Fail ValueError
  end)).

(** Lines 72-75; [X.shape[1]] needs a two-dimensional [X]. *)
Definition model_matrix (X : tensor) (Y : option tensor) : Model :=
  match X with
  | Matrix rows =>
      Sample "beta" (Expand (Normal (Scalar 0) (Scalar 1)) [ncols rows]) None (fun beta =>
      Sample "sigma" (Exponential (Scalar 4)) None (fun sigma =>
      match matmul X beta with
      | Some mu => Sample "Y" (Normal mu sigma) Y (fun _ => Done)
      | None => Fail ValueError
      end))
  | _ => Fail IndexError
  end.

(** Lines 78-81. *)
Definition model_sigma_b (Soil sigma_b : tensor) (Yield : option tensor) : Model :=
  Sample "beta" (Normal (Scalar 0) sigma_b) None (fun beta =>
  Sample "sigma" (Exponential (Scalar 1)) None (fun sigma =>
  match tmul Soil beta with
  | Some mu => Sample "Yield" (Normal mu sigma) Yield (fun _ => Done)
  | None => Fail ValueError
  end)).

(** Line 84. *)
Definition lowtrunc_scale (sc : Scale) : Q :=
  ((0 - Winterweizen_yield_mean sc) / Winterweizen_yield_std sc)%Q.

(** Lines 85-91, with the global [lowtrunc_scale] as a parameter. *)
Definition model_trunc (lowtrunc : Q) (Soil sigma_b : tensor) (Yield : option tensor) : Model :=
  Sample "beta" (Normal (Scalar 0) sigma_b) None (fun beta =>
  Sample "sigma" (Exponential (Scalar 1)) None (fun sigma =>
  let df := Scalar 5 in
  match tmul Soil beta with
  | Some mu =>
      Sample "Yield"
        (LeftTruncatedDistribution (StudentT df mu sigma) (Scalar lowtrunc))
        Yield (fun _ => Done)
  | None => Fail ValueError
  end)).

(** The function objects the four [def] statements create. *)
Definition def_model : PyFunc := {|
  fn_name := "model";
  fn_call kwargs :=
    _ ← check_keywords ["Soil"; "Yield"] kwargs;
    Soil ← required kwargs "Soil";
    Ok (model Soil (optional kwargs "Yield"))
|}.

Definition def_model_matrix : PyFunc := {|
  fn_name := "model_matrix";
  fn_call kwargs :=
    _ ← check_keywords ["X"; "Y"] kwargs;
    X ← required kwargs "X";
    Ok (model_matrix X (optional kwargs "Y"))
|}.

Definition def_model_sigma_b : PyFunc := {|
  fn_name := "model_sigma_b";
  fn_call kwargs :=
    _ ← check_keywords ["Soil"; "sigma_b"; "Yield"] kwargs;
    Soil ← required kwargs "Soil";
    sigma_b ← required kwargs "sigma_b";
    Ok (model_sigma_b Soil sigma_b (optional kwargs "Yield"))
|}.

Definition def_model_trunc (lowtrunc : Q) : PyFunc := {|
  fn_name := "model_trunc";
  fn_call kwargs :=
    _ ← check_keywords ["Soil"; "sigma_b"; "Yield"] kwargs;
    Soil ← required kwargs "Soil";
    sigma_b ← required kwargs "sigma_b";
    Ok (model_trunc lowtrunc Soil sigma_b (optional kwargs "Yield"))
|}.

(** The module namespace, as far as function names go.  A [def] binds its
    name to the new function object; line 100 binds [model] again. *)
Definition bind_name (name : string) (f : PyFunc) (globals : gmap string PyFunc)
  : gmap string PyFunc := <[name := f]> globals.

Definition read_name (globals : gmap string PyFunc) (name : string) : result PyFunc :=
  from_option (NameError name) (globals !! name).

(** Lines 65-93 for given function objects. *)
Definition after_defs (f_model f_model_matrix f_model_sigma_b f_model_trunc : PyFunc)
  : gmap string PyFunc :=
  bind_name "model_trunc" f_model_trunc
    (bind_name "model_sigma_b" f_model_sigma_b
       (bind_name "model_matrix" f_model_matrix
          (bind_name "model" f_model ∅))).

(** Line 100: [model = model_sigma_b]. *)
Definition rebind_model (globals : gmap string PyFunc) : result (gmap string PyFunc) :=
  f ← read_name globals "model_sigma_b";
  Ok (bind_name "model" f globals).

(* ===================================================================== *)
(** ** The sampling driver (lines 103-138)                               *)
(* ===================================================================== *)

(** One entry of [lstRes]. *)
Record Res := {
  post_samples : gmap string (list tensor);
  prior_samples : gmap string (list tensor);
  sigma_b : Z
}.

Definition nPriorSamples : nat := 1000.

Section Driver.

Context `{Engine}.

(** The stochastic library calls a run makes, in order, each with the
    object called and the key handed to it. *)
Inductive LibCall :=
| CallPredictive (p : Predictive) (rng_key : Key) (kwargs : gmap string tensor)
| CallMCMCRun (mc : MCMC) (rng_key : Key) (kwargs : gmap string tensor).

Definition call_key (c : LibCall) : Key :=
  match c with
  | CallPredictive _ k _ => k
  | CallMCMCRun _ k _ => k
  end.

(** The model function a call runs. *)
Definition call_model (c : LibCall) : PyFunc :=
  match c with
  | CallPredictive p _ _ => pred_model p
  | CallMCMCRun mc _ _ => nuts_model (sampler mc)
  end.

(** The MCMC runs, and the prior predictive calls, among a list of calls. *)
Definition mcmc_runs (cs : list LibCall) : list (MCMC * Key * gmap string tensor) :=
  omap (fun c => match c with
                 | CallMCMCRun mc k kwargs => Some (mc, k, kwargs)
                 | CallPredictive _ _ _ => None
                 end) cs.

Definition predictive_calls (cs : list LibCall)
  : list (Predictive * Key * gmap string tensor) :=
  omap (fun c => match c with
                 | CallPredictive p k kwargs => Some (p, k, kwargs)
                 | CallMCMCRun _ _ _ => None
                 end) cs.

Record DriverState := {
  rng_key : Key;
  lstRes : list Res;
  calls : list LibCall
}.

(** The body of the loop at line 106 for one [sigma_b]. *)
Definition driver_body (globals : gmap string PyFunc) (Soil Yield : tensor)
    (st : DriverState) (sigma_b : Z) : result DriverState :=
  let sigma_b_arg := Scalar (inject_Z sigma_b) in
  (* Sample from prior *)
  let '(rng_key, rng_key_) := Threefry.split2 (rng_key st) in
  model ← read_name globals "model";
  let prior_predictive := {| pred_model := model; pred_num_samples := nPriorSamples |} in
  let prior_kwargs : gmap string tensor :=
    <["sigma_b" := sigma_b_arg]> (<["Soil" := Soil]> ∅) in
  prior_samples ← Predictive_call prior_predictive rng_key_ prior_kwargs;
  let call1 := CallPredictive prior_predictive rng_key_ prior_kwargs in
  (* Estimate model using numpyro MCMC *)
  let '(rng_key, rng_key_) := Threefry.split2 rng_key in
  model ← read_name globals "model";
  let kernel := {| nuts_model := model |} in
  let mcmc := {| sampler := kernel; num_samples := 800; num_warmup := 1000;
                 num_chains := 2 |} in
  let mcmc_kwargs : gmap string tensor :=
    <["Yield" := Yield]> (<["sigma_b" := sigma_b_arg]> (<["Soil" := Soil]> ∅)) in
  states ← MCMC_run mcmc rng_key_ mcmc_kwargs;
  let call2 := CallMCMCRun mcmc rng_key_ mcmc_kwargs in
  (* Get posterior samples *)
  post_samples ← get_samples states;
  Ok {| rng_key := rng_key;
        lstRes := lstRes st ++ [Build_Res post_samples prior_samples sigma_b];
        calls := calls st ++ [call1; call2] |}.

Definition prior_widths : list Z := [1; 5]%Z.

(** Lines 103-138. *)
Definition driver (globals : gmap string PyFunc) (rng_key : Key) (Soil Yield : tensor)
  : result DriverState :=
  foldR (driver_body globals Soil Yield) prior_widths
    {| rng_key := rng_key; lstRes := []; calls := [] |}.

End Driver.

(* ===================================================================== *)
(** ** Figures 2 and 3 (lines 157-246)                                   *)
(* ===================================================================== *)

(** [np.linspace(start, stop, num)] with the end point included. *)
Definition linspace (start stop : Q) (num : nat) : list Q :=
  let div := (num - 1)%nat in
  let delta := (stop - start)%Q in
  let y := map (fun i => inject_Z (Z.of_nat i)) (seq 0 num) in
  let y :=
    if (0 <? div)%nat then
      let step := (delta / inject_Z (Z.of_nat div))%Q in
      if Qeq_bool step 0
      then map (fun v => v / inject_Z (Z.of_nat div) * delta)%Q y
      else map (fun v => v * step)%Q y
    else map (fun v => v * delta)%Q y in
  let y := map (fun v => v + start)%Q y in
  if (1 <? num)%nat then <[(num - 1)%nat := stop]> y else y.

(** [value * std + mean]: from standardized to natural units. *)
Definition destandardize (std mean : Q) (value : Q) : Q := (value * std + mean)%Q.

(** Modelled from the spec: the standardization behind the scaling record,
    [standardize(x) = (x - mean) / std].  The code that standardizes the
    columns belongs to [util.load_yield_data], which the script only
    imports. *)
Definition standardize (std mean : Q) (x : Q) : Q := ((x - mean) / std)%Q.

Definition soil_natural (sc : Scale) : Q -> Q :=
  destandardize (bodenzahl_std sc) (bodenzahl_mean sc).

Definition yield_natural (sc : Scale) : Q -> Q :=
  destandardize (Winterweizen_yield_std sc) (Winterweizen_yield_mean sc).

(** One [ax.plot(x, y, color='k', alpha=0.2)]. *)
Record Line := {
  line_x : list Q;
  line_y : tensor
}.

(** What one subplot is given to draw. *)
Record Axes := {
  hist : list (list Q);
  plot : list Line;
  rugplot : list (list Q);
  xlim : option (Q * Q);
  ylim : option (Q * Q)
}.

Definition mean (xs : list Q) : Q :=
  (fold_right Qplus 0 xs / inject_Z (Z.of_nat (length xs)))%Q.

(** Lines 177-180 and 224-227: the design matrix of the grid. *)
Definition x_range_scaled : list Q := linspace (-5) 5 100.

Definition x_plot (Soil : list Q) : list (list Q) :=
  let x_mean_scaled := mean Soil in
  let x_plot := repeat [x_mean_scaled] 100 in
  zip_with (fun row x => <[0%nat := x]> row) x_plot x_range_scaled.

Definition x_range (sc : Scale) : list Q := map (soil_natural sc) x_range_scaled.

(** The sample indices of the loops at lines 182 and 230: [range(1,300)]. *)
Definition fan_indices : list nat := seq 1 299.

(** Lines 182-187 and 230-233 for the array [beta] of a sample collection. *)
Definition regression_line (sc : Scale) (Soil : list Q) (beta : list tensor) (i : nat)
  : result Line :=
  beta_i ← from_option IndexError (beta !! i);
  y_hat_scaled ← from_option ValueError (matmul (Matrix (x_plot Soil)) (reshape_column beta_i));
  let y_hat := tmap (yield_natural sc) y_hat_scaled in
  Ok {| line_x := x_range sc; line_y := tmap (fun y => y / 10)%Q y_hat |}.

Definition regression_lines (sc : Scale) (Soil : list Q) (beta : list tensor)
  : result (list Line) :=
  mapR (regression_line sc Soil beta) fan_indices.

(** The four subplots of one column. *)
Record Column := {
  fig2_top : Axes;
  fig2_bottom : Axes;
  fig3_top : Axes;
  fig3_bottom : Axes
}.

(** The body of the loop at line 157.  The rationals have no infinite
    values, so the [isinf] mask of line 163 keeps every entry. *)
Definition plot_column (sc : Scale) (Soil : list Q) (res : Res) : result Column :=
  let prior_samples := prior_samples res in
  let post_samples := post_samples res in
  let sigma_b := sigma_b res in
  (* Plot prior samples *)
  prior_Yield ← lookup_key prior_samples "Yield";
  let yields := map (fun y => yield_natural sc y / 10)%Q (concat (map flatten prior_Yield)) in
  (* Plot regression lines *)
  prior_beta ← lookup_key prior_samples "beta";
  prior_lines ← regression_lines sc Soil prior_beta;
  let rug := map (soil_natural sc) Soil in
  (* Plot posterior samples *)
  prior_beta' ← lookup_key prior_samples "beta";
  post_beta ← lookup_key post_samples "beta";
  (* Plot regression lines *)
  post_beta' ← lookup_key post_samples "beta";
  post_lines ← regression_lines sc Soil post_beta';
  Ok {| fig2_top := {| hist := [yields]; plot := []; rugplot := [];
                       xlim := None; ylim := None |};
        fig2_bottom := {| hist := []; plot := prior_lines; rugplot := [rug];
                          xlim := Some (30, 70)%Q;
                          ylim := if Z.eqb sigma_b 1 then Some (0, 15)%Q
                                  else Some (-20, 40)%Q |};
        fig3_top := {| hist := [concat (map flatten prior_beta');
                                concat (map flatten post_beta)];
                       plot := []; rugplot := [];
                       xlim := Some (-1, 1)%Q; ylim := None |};
        fig3_bottom := {| hist := []; plot := post_lines; rugplot := [rug];
                          xlim := Some (30, 70)%Q; ylim := None |} |}.

(* ===================================================================== *)
(** ** The whole script                                                  *)
(* ===================================================================== *)

(** The outcome of a call into a collaborator. *)
Inductive External (A : Type) :=
| Returns (a : A)
| Throws (what : string).
Arguments Returns {A} a.
Arguments Throws {A} what.

Definition external {A} (x : External A) : result A :=
  match x with
  | Returns a => Ok a
  | Throws what => Raise (Foreign what)
  end.

(** What a run depends on from outside the script.  [getData] is the
    repository's data loader, of which the script sees the returned table
    and scaling dictionary only. *)
Record Env := {
  gpu_devices : External nat;          (* len(jax.devices(backend='gpu')) *)
  chdir : string -> External unit;     (* os.chdir *)
  numpyro_version : string;            (* numpyro.__version__ *)
  getData : External Data;             (* util.load_yield_data.getData() *)
  savefig : string -> External unit    (* Figure.savefig *)
}.

(** [s.startswith(prefix)]. *)
Definition startswith (s prefix : string) : bool := String.prefix prefix s.

Definition wd : string := "/workspaces/pp_agecon_erae".

(** Line 34. *)
Definition assert_version (env : Env) : result unit :=
  if startswith (numpyro_version env) "0.13.0" then Ok tt else Raise AssertionError.

(** Lines 22-43: platform, working directory, version assertion, seed.
    Line 43 also seeds numpy's global generator, which no later statement
    reads. *)
Definition setup (env : Env) : result (string * Key) :=
  n ← external (gpu_devices env);
  let platform := if (0 <? n)%nat then "gpu" else "cpu" in
  _ ← external (chdir env wd);
  _ ← assert_version env;
  let rng_key := Threefry.PRNGKey 1 in
  Ok (platform, rng_key).

(** Lines 46-59: the wheat rows' soil rating and yield, the scaling record. *)
Definition load (env : Env) : result (list Q * list Q * Scale) :=
  data ← external (getData env);
  let Soil := wheat_column bodenzahl_scaled (dfL_train data) in
  let Yield := wheat_column yield_scaled (dfL_train data) in
  sc ← read_scale (scale_train data);
  Ok (Soil, Yield, sc).

Record Output := {
  platform : string;
  results : list Res;
  library_calls : list LibCall;
  columns : list Column;
  files : list string
}.

Section Main.

Context `{Engine}.

(** Lines 65-138 for given function objects: definitions, line 100, driver. *)
Definition sampling (f_model f_model_matrix f_model_sigma_b : PyFunc)
    (f_model_trunc : Q -> PyFunc) (rng_key : Key) (Soil Yield : list Q) (sc : Scale)
  : result DriverState :=
  let globals := after_defs f_model f_model_matrix f_model_sigma_b
                   (f_model_trunc (lowtrunc_scale sc)) in
  globals ← rebind_model globals;
  driver globals rng_key (Vector Soil) (Vector Yield).

(** Lines 157-246. *)
Definition plotting (sc : Scale) (Soil : list Q) (lstRes : list Res)
  : result (list Column) :=
  mapR (plot_column sc Soil) lstRes.

(** Lines 248-251. *)
Definition saving (env : Env) : result (list string) :=
  _ ← external (savefig env "figures/linReg_figure2.png");
  _ ← external (savefig env "figures/linReg_figure3.png");
  Ok ["figures/linReg_figure2.png"; "figures/linReg_figure3.png"].

Definition script (f_model f_model_matrix f_model_sigma_b : PyFunc)
    (f_model_trunc : Q -> PyFunc) (env : Env) : result Output :=
  '(platform, rng_key) ← setup env;
  '(Soil, Yield, sc) ← load env;
  st ← sampling f_model f_model_matrix f_model_sigma_b f_model_trunc rng_key Soil Yield sc;
  cols ← plotting sc Soil (lstRes st);
  saved ← saving env;
  Ok {| platform := platform; results := lstRes st; library_calls := calls st;
        columns := cols; files := saved |}.

(** The script as written. *)
Definition main (env : Env) : result Output :=
  script def_model def_model_matrix def_model_sigma_b def_model_trunc env.

End Main.

(* ===================================================================== *)
(** ** A reference engine and a small data set, for evaluating the script *)
(* ===================================================================== *)

#[global] Instance Qlt_decision (x y : Q) : Decision (x < y)%Q.
Proof. destruct (Qlt_le_dec x y); [left | right]; [assumption | apply Qle_not_lt; assumption]. Defined.

#[global] Instance positive_decision t : Decision (positive t).
Proof. unfold positive. apply _. Defined.

#[global] Instance greater_than_decision low value : Decision (greater_than low value).
Proof. unfold greater_than. destruct (broadcast2 Qminus value low); apply _. Defined.

#[global] Instance in_support_decision d value : Decision (in_support d value).
Proof. induction d; simpl; apply _. Defined.

Module Reference.

(** A number in (0,1) read off a key. *)
Definition uniform (k : Key) : Q := ((fst k mod 1000 + 1) # 1001)%Z.

(** A point of the support of each distribution. *)
Fixpoint anchor (d : Dist) : tensor :=
  match d with
  | Normal loc _ => loc
  | Exponential rate => tmap (fun _ => 1%Q) rate
  | StudentT _ loc _ => loc
  | LeftTruncatedDistribution _ low => tmap (fun l => l + 1)%Q low
  | Expand base _ => anchor base
  end.

(** A draw: location plus scale times a centred uniform number, reflected
    above the truncation point; [anchor] where that leaves the support. *)
Fixpoint draw (d : Dist) (k : Key) : tensor :=
  let u := uniform k in
  match d with
  | Normal loc scale | StudentT _ loc scale =>
      default loc (broadcast2 (fun l s => Qred (l + s * (2 * u - 1)))%Q loc scale)
  | Exponential rate => tmap (fun r => Qred (2 * u / r))%Q rate
  | LeftTruncatedDistribution base low =>
      let x := draw base k in
      default x (broadcast2 (fun x l => Qred (l + Qabs (x - l) + u))%Q x low)
  | Expand base shape =>
      match shape, draw base k with
      | [n], Scalar x => Vector (repeat x n)
      | _, x => x
      end
  end.

Definition sample (d : Dist) (k : Key) : tensor :=
  if decide (in_support d (draw d k)) then draw d k else anchor d.

(** A transition that redraws every coordinate in (0,1) when the model
    can be traced at the current point, and stays otherwise. *)
Definition move (pot : gmap string tensor -> result (list Site)) (warm : bool)
    (a : nat) (km kt : Key) (z : gmap string tensor) : gmap string tensor * nat :=
  match pot z with
  | Ok _ => ((fun _ => Scalar (uniform kt)) <$> z, S a)
  | Raise _ => (z, a)
  end.

End Reference.

(* ===================================================================== *)
(** ** Arrays: broadcasting lemmas                                        *)
(* ===================================================================== *)

Lemma broadcast_dim_refl n : broadcast_dim n n = Some n.
Proof. unfold broadcast_dim. by rewrite Nat.eqb_refl. Qed.

Lemma zip_with_repeat_r {A B C} (f : A -> B -> C) (l : list A) (b : B) :
  zip_with f l (repeat b (length l)) = map (fun x => f x b) l.
Proof. induction l; simpl; [done | by f_equal]. Qed.

Lemma broadcast_dim_1_r n : broadcast_dim n 1 = Some n.
Proof.
  unfold broadcast_dim. by destruct (Nat.eqb n 1).
Qed.

Lemma stretch_length {A} (l : list A) : stretch (length l) l = l.
Proof. by destruct l as [|x [|y l]]. Qed.

Lemma stretch_fmap {A B} (g : A -> B) n (l : list A) :
  stretch n (map g l) = map g (stretch n l).
Proof.
  destruct l as [|x [|y l]]; simpl; try done.
  induction n; simpl; [done | by f_equal].
Qed.

Lemma flatten_tmap f t : flatten (tmap f t) = map f (flatten t).
Proof.
  destruct t as [x | xs | rows]; unfold flatten; simpl.
  - done.
  - by rewrite !app_nil_r.
  - induction rows as [|r rows IH]; simpl; [done |].
    by rewrite map_app, IH.
Qed.

Lemma rectangular_fmap f rows : rectangular (map (map f) rows) = rectangular rows.
Proof.
  unfold rectangular.
  assert (ncols (map (map f) rows) = ncols rows) as ->.
  { destruct rows; simpl; [done | by rewrite length_map]. }
  generalize (ncols rows). intros c.
  induction rows as [|r rows IH]; simpl; [done |]. by rewrite length_map, IH.
Qed.

Lemma rectangular_to_rows_tmap f t :
  rectangular (to_rows (tmap f t)) = rectangular (to_rows t).
Proof.
  destruct t as [x | xs | rows]; simpl.
  - done.
  - unfold rectangular. simpl. by rewrite length_map.
  - apply rectangular_fmap.
Qed.

(** The rows of a rectangular array are not changed by stretching them to
    their own length. *)
Lemma stretch_rectangular rows :
  rectangular rows = true -> map (stretch (ncols rows)) rows = rows.
Proof.
  unfold rectangular. generalize (ncols rows). intros c Hrows.
  induction rows as [|r rows IH]; simpl in *; [done |].
  apply andb_true_iff in Hrows as [Hr Hrows]. apply Nat.eqb_eq in Hr as <-.
  by rewrite stretch_length, IH.
Qed.

Lemma zip_rows_repeat (op : Q -> Q -> Q) (rows : list (list Q)) (l : Q) c :
  Forall (fun r => length r = c) rows ->
  zip_with (zip_with op) rows (repeat (repeat l c) (length rows))
  = map (map (fun x => op x l)) rows.
Proof.
  induction 1 as [|r rows <- _ IH]; simpl; [done |].
  by rewrite zip_with_repeat_r, IH.
Qed.

Lemma rectangular_Forall rows :
  rectangular rows = true -> Forall (fun r => length r = ncols rows) rows.
Proof.
  unfold rectangular. rewrite forallb_forall, Forall_forall.
  intros Hrows r Hr. apply Nat.eqb_eq, Hrows. by apply list_elem_of_In.
Qed.

(** Broadcasting a 0-dimensional array against any array: the operation is
    applied to every entry. *)
Lemma broadcast2_scalar_r op t l r :
  broadcast2 op t (Scalar l) = Some r -> flatten r = map (fun x => op x l) (flatten t).
Proof.
  unfold broadcast2. cbv zeta.
  change (rectangular (to_rows (Scalar l))) with true. rewrite andb_true_r.
  destruct (rectangular (to_rows t)) eqn:Hrect; [| done].
  change (length (to_rows (Scalar l))) with 1%nat.
  change (ncols (to_rows (Scalar l))) with 1%nat.
  rewrite !broadcast_dim_1_r. intros <-%(inj Some).
  destruct t as [x | xs | rows]; cbn [to_rows rank Nat.max of_rows length ncols].
  - done.
  - cbn. unfold flatten. simpl. by rewrite !app_nil_r, stretch_length, zip_with_repeat_r.
  - cbn [to_rows] in Hrect. unfold flatten. cbn [to_rows].
    rewrite stretch_length, (stretch_rectangular _ Hrect).
    assert (stretch (length rows) [[l]] = repeat [l] (length rows)) as -> by done.
    assert (map (stretch (ncols rows)) (repeat [l] (length rows))
            = repeat (repeat l (ncols rows)) (length rows)) as ->.
    { generalize (length rows). intros n. induction n; simpl; [done | by f_equal]. }
    rewrite zip_rows_repeat by by apply rectangular_Forall.
    clear Hrect. induction rows as [|r' rows IH]; simpl; [done |].
    by rewrite map_app, IH.
Qed.

Lemma broadcast2_tmap_self op f t :
  rectangular (to_rows t) = true ->
  exists r, broadcast2 op (tmap f t) t = Some r /\
            flatten r = map (fun x => op (f x) x) (flatten t).
Proof.
  intros Hrect. unfold broadcast2.
  rewrite rectangular_to_rows_tmap, Hrect. cbn [andb].
  destruct t as [x | xs | rows]; cbn [tmap to_rows length ncols rank Nat.max].
  - eexists. split; [done |]. done.
  - rewrite length_map, !broadcast_dim_refl. cbn.
    eexists. split; [done |]. unfold flatten. simpl. rewrite !app_nil_r.
    rewrite <- (length_map f xs) at 1. rewrite stretch_length.
    rewrite stretch_length.
    clear Hrect. induction xs; simpl; [done | by f_equal].
  - rewrite length_map, broadcast_dim_refl.
    assert (ncols (map (map f) rows) = ncols rows) as Hc.
    { destruct rows; simpl; [done | by rewrite length_map]. }
    rewrite Hc, broadcast_dim_refl. eexists. split; [done |].
    unfold flatten. cbn [of_rows to_rows].
    rewrite <- (length_map (map f) rows) at 1. rewrite !stretch_length.
    rewrite <- Hc at 1.
    rewrite stretch_rectangular by (by rewrite rectangular_fmap).
    cbn [to_rows] in Hrect. rewrite (stretch_rectangular _ Hrect).
    clear. induction rows as [|r rows IH]; simpl; [done |].
    rewrite map_app, <- IH. f_equal.
    induction r; simpl; [done | by f_equal].
Qed.

Lemma anchor_in_support d : valid_args d -> in_support d (Reference.anchor d).
Proof.
  induction d as [loc scale | rate | df loc scale | base IH low | base IH shape];
    simpl; intros Hd; auto.
  - unfold positive. rewrite flatten_tmap. apply Forall_map, Forall_forall. done.
  - unfold greater_than.
    destruct (broadcast2_tmap_self Qminus (fun l => l + 1)%Q low) as (r & -> & Hr);
      [apply Hd |].
    unfold positive. rewrite Hr. apply Forall_map, Forall_forall. intros x _.
    unfold Qminus. ring_simplify. done.
Qed.

Lemma sample_in_support d k : valid_args d -> in_support d (Reference.sample d k).
Proof.
  intros Hd. unfold Reference.sample. case_decide; [done | by apply anchor_in_support].
Qed.

Lemma move_dom pot warm a km kt z : dom (Reference.move pot warm a km kt z).1 = dom z.
Proof. unfold Reference.move. destruct (pot z); simpl; [apply dom_fmap_L | done]. Qed.

Lemma anchor_scalar d : scalar_params d = true -> rank (Reference.anchor d) = 0%nat.
Proof.
  induction d as [loc scale | rate | df loc scale | base IH low | base IH shape]; simpl.
  - by destruct loc, scale.
  - by destruct rate.
  - by destruct df, loc, scale.
  - by destruct low.
  - destruct shape; [apply IH | done].
Qed.

Lemma draw_scalar d k : scalar_params d = true -> rank (Reference.draw d k) = 0%nat.
Proof.
  induction d as [loc scale | rate | df loc scale | base IH low | base IH shape]; simpl.
  - by destruct loc, scale.
  - by destruct rate.
  - by destruct df, loc, scale.
  - destruct low as [l | |]; try done. intros Hb. specialize (IH Hb).
    by destruct (Reference.draw base k).
  - destruct shape; [| done]. intros Hb. specialize (IH Hb).
    by destruct (Reference.draw base k).
Qed.

Lemma sample_scalar d k : scalar_params d = true -> rank (Reference.sample d k) = 0%nat.
Proof.
  intros Hd. unfold Reference.sample.
  case_decide; [by apply draw_scalar | by apply anchor_scalar].
Qed.

Definition reference_engine : Engine := {|
  dist_sample := Reference.sample;
  dist_sample_support := sample_in_support;
  dist_sample_scalar := sample_scalar;
  adapt_state := nat;
  adapt_init := 0%nat;
  init_value d _ := Reference.anchor d;
  nuts_move := Reference.move;
  nuts_move_dom := move_dom
|}.

Definition toy_env : Env := {|
  gpu_devices := Returns 0%nat;
  chdir _ := Returns tt;
  numpyro_version := "0.13.0";
  getData := Returns {|
    dfL_train := [ Build_Row "Winterweizen" (1 # 2) (3 # 4);
                   Build_Row "Mais" (1 # 3) (1 # 5);
                   Build_Row "Winterweizen" (-1 # 2) (-1 # 4) ];
    scale_train := list_to_map [("bodenzahl_mean", 50%Q); ("bodenzahl_std", 10%Q);
                                ("Winterweizen_yield_mean", 70%Q);
                                ("Winterweizen_yield_std", 12%Q)] |};
  savefig _ := Returns tt
|}.

(* ===================================================================== *)
(** ** Keys                                                               *)
(* ===================================================================== *)

Lemma pairs_length (l : list Z) n : length l = (2 * n)%nat -> length (Threefry.pairs l) = n.
Proof.
  revert l. induction n as [|n IH]; intros [|a [|b l]] Hl; simpl in *; try lia.
  f_equal. apply IH. lia.
Qed.

(** [random.split(key, num)] returns [num] keys. *)
Lemma split_length key num : length (Threefry.split key num) = num.
Proof.
  unfold Threefry.split, Threefry.threefry_iota. apply pairs_length.
  rewrite length_app, !length_map, length_seq. lia.
Qed.

(** The key derivation is only ever evaluated on concrete keys. *)
#[global] Opaque Threefry.split Threefry.split2.

(* ===================================================================== *)
(** ** Results: the error monad                                           *)
(* ===================================================================== *)

Lemma Ok_inj {A} (a b : A) : Ok a = Ok b -> a = b.
Proof. by intros [=]. Qed.

Lemma bind_Ok {A B} (m : result A) (f : A -> result B) b :
  m ≫= f = Ok b <-> exists a, m = Ok a /\ f a = Ok b.
Proof.
  destruct m as [a | e]; simpl; split.
  - intros Hf. by exists a.
  - by intros (a' & [= <-] & Hf).
  - done.
  - by intros (a' & [=] & _).
Qed.

Lemma mapR_ext_in {A B} (f g : A -> result B) (l : list A) :
  (forall x, x ∈ l -> f x = g x) -> mapR f l = mapR g l.
Proof.
  induction l as [|x l IH]; intros Hfg; simpl; [done |].
  rewrite (Hfg x) by left. rewrite IH; [done |].
  intros y Hy. apply Hfg. by right.
Qed.

Lemma mapR_length {A B} (f : A -> result B) (l : list A) ys :
  mapR f l = Ok ys -> length ys = length l.
Proof.
  revert ys. induction l as [|x l IH]; intros ys; simpl.
  - by intros [= <-].
  - destruct (f x) as [y | e]; simpl; [| done].
    destruct (mapR f l) as [ys' | e]; simpl; [| done].
    intros [= <-]. simpl. f_equal. by apply IH.
Qed.

Lemma mapR_Ok {A B} (f : A -> result B) (g : A -> B) (l : list A) :
  (forall x, x ∈ l -> f x = Ok (g x)) -> mapR f l = Ok (map g l).
Proof.
  induction l as [|x l IH]; intros Hf; simpl; [done |].
  rewrite (Hf x) by left. simpl. rewrite IH; [done |].
  intros y Hy. apply Hf. by right.
Qed.

(* ===================================================================== *)
(** ** The grid and the regression-line fan                               *)
(* ===================================================================== *)

#[global] Instance Qeq_decision (x y : Q) : Decision (x == y)%Q := Qeq_dec x y.

#[global] Instance Qle_decision (x y : Q) : Decision (x <= y)%Q.
Proof. destruct (Qlt_le_dec y x); [right | left]; [by apply Qlt_not_le | done]. Defined.

Lemma x_range_scaled_length : length x_range_scaled = 100%nat.
Proof. reflexivity. Qed.

(** The grid is [-5 + i * 10/99] for [i = 0 .. 99]. *)
Lemma x_range_scaled_points :
  Forall2 Qeq x_range_scaled
    (map (fun i => -5 + inject_Z (Z.of_nat i) * (10 # 99))%Q (seq 0 100)).
Proof. apply (bool_decide_unpack _). by vm_compute. Qed.

Lemma x_range_scaled_span :
  (hd 0 x_range_scaled == -5)%Q /\ (last x_range_scaled = Some 5%Q) /\
  Forall (fun x => -5 <= x /\ x <= 5)%Q x_range_scaled.
Proof.
  split; [reflexivity |]. split; [reflexivity |].
  apply (bool_decide_unpack _). by vm_compute.
Qed.

(** Line 180 overwrites the only column of [x_plot]: it is the grid. *)
Lemma x_plot_grid Soil : x_plot Soil = map (fun x => [x]) x_range_scaled.
Proof. reflexivity. Qed.

Lemma matmul_column (l : list Q) (b : Q) :
  matmul (Matrix (map (fun x => [x]) l)) (Matrix [[b]])
  = Some (Matrix (map (fun x => [dot [x] [b]]) l)).
Proof.
  simpl.
  assert (forallb (fun r : list Q => Nat.eqb (length r) 1) (map (fun x => [x]) l) = true)
    as ->.
  { apply forallb_forall. intros r Hr. apply in_map_iff in Hr as (x & <- & _). done. }
  by rewrite map_map.
Qed.

(** One line of the fan for a 0-dimensional sample [b]: the grid against
    [x * b], both de-standardized, the yield divided by 10. *)
Lemma regression_line_scalar sc Soil beta i b :
  beta !! i = Some (Scalar b) ->
  regression_line sc Soil beta i
  = Ok {| line_x := map (soil_natural sc) x_range_scaled;
          line_y := Matrix (map (fun x => [(yield_natural sc (dot [x] [b]) / 10)%Q])
                              x_range_scaled) |}.
Proof.
  intros Hb. unfold regression_line. rewrite Hb.
  cbn -[x_plot matmul x_range_scaled reshape_column].
  rewrite x_plot_grid. change (reshape_column (Scalar b)) with (Matrix [[b]]).
  rewrite matmul_column. cbn -[x_range_scaled dot]. unfold x_range.
  by rewrite !map_map.
Qed.

Lemma dot_singleton x b : (dot [x] [b] == x * b)%Q.
Proof. unfold dot. simpl. ring. Qed.

Lemma regression_line_tail sc Soil b beta i :
  regression_line sc Soil (b :: beta) (S i)
  = (beta_i ← from_option IndexError (beta !! i);
     y_hat_scaled ← from_option ValueError
                      (matmul (Matrix (x_plot Soil)) (reshape_column beta_i));
     Ok {| line_x := x_range sc;
           line_y := tmap (fun y => y / 10)%Q (tmap (yield_natural sc) y_hat_scaled) |}).
Proof. reflexivity. Qed.

Lemma fan_indices_positive i : i ∈ fan_indices -> exists j, i = S j.
Proof.
  unfold fan_indices. rewrite list_elem_of_In, in_seq. intros [Hi _].
  destruct i; [lia | by eexists].
Qed.

(** C1.  The loops at lines 182 and 230 run over [range(1,300)]: the fan is
    computed from the samples at indices 1 to 299.  It never reads the
    sample at index 0 (replacing it changes nothing), and it has 299 lines,
    not 300. *)
Theorem fan_skips_first_sample sc Soil (b b' : tensor) (beta : list tensor) :
  fan_indices = seq 1 299 /\
  (0%nat ∉ fan_indices) /\
  regression_lines sc Soil (b :: beta) = regression_lines sc Soil (b' :: beta) /\
  match regression_lines sc Soil (b :: beta) with
  | Ok lines => length lines = 299%nat
  | Raise _ => True
  end.
Proof.
  split; [done |]. split.
  { intros H0. apply fan_indices_positive in H0 as (j & [=]). }
  split.
  - unfold regression_lines. apply mapR_ext_in. intros i Hi.
    apply fan_indices_positive in Hi as (j & ->).
    by rewrite !regression_line_tail.
  - destruct (regression_lines sc Soil (b :: beta)) as [lines | e] eqn:Hl; [| done].
    by apply mapR_length in Hl.
Qed.

(** A line is flat when its first two ordinates agree. *)
Definition flat (l : Line) : bool :=
  match line_y l with
  | Matrix ([y0] :: [y1] :: _) => Qeq_bool y0 y1
  | _ => true
  end.

(** The fan of the 300 draws [0, 1, ..., 299] of [beta]: 299 lines, and the
    flat line of the first draw is not among them. *)
Example fan_of_300_samples :
  match regression_lines (Build_Scale 50 10 70 12) [1 # 2; -1 # 2]%Q
          (map (fun i => Scalar (inject_Z (Z.of_nat i))) (seq 0 300)) with
  | Ok lines => length lines = 299%nat /\ existsb flat lines = false
  | Raise _ => False
  end.
Proof. vm_compute. by split. Qed.

(* ===================================================================== *)
(** ** Standardized and natural units                                     *)
(* ===================================================================== *)

Lemma destandardize_standardize std mean x :
  ~ (std == 0)%Q -> (destandardize std mean (standardize std mean x) == x)%Q.
Proof. intros Hstd. unfold destandardize, standardize. by field. Qed.

Lemma standardize_destandardize std mean v :
  ~ (std == 0)%Q -> (standardize std mean (destandardize std mean v) == v)%Q.
Proof. intros Hstd. unfold destandardize, standardize. by field. Qed.

Lemma Forall2_Qeq_fmap_inverse (f g : Q -> Q) (l : list Q) :
  (forall v, g (f v) == v)%Q -> Forall2 Qeq (map g (map f l)) l.
Proof. intros Hgf. induction l; simpl; constructor; auto. Qed.

Lemma flatten_tmap_tmap f g t : flatten (tmap g (tmap f t)) = map g (map f (flatten t)).
Proof. by rewrite !flatten_tmap. Qed.

(** Undoing line 185 and the division by 10 of a plotted ordinate. *)
Definition yield_scaled_of_plotted (sc : Scale) (y : Q) : Q :=
  standardize (Winterweizen_yield_std sc) (Winterweizen_yield_mean sc) (y * 10)%Q.

Lemma regression_line_units sc Soil beta i l :
  ~ (bodenzahl_std sc == 0)%Q -> ~ (Winterweizen_yield_std sc == 0)%Q ->
  regression_line sc Soil beta i = Ok l ->
  Forall2 Qeq (map (standardize (bodenzahl_std sc) (bodenzahl_mean sc)) (line_x l))
    x_range_scaled /\
  exists beta_i y_hat_scaled,
    beta !! i = Some beta_i /\
    matmul (Matrix (x_plot Soil)) (reshape_column beta_i) = Some y_hat_scaled /\
    Forall2 Qeq (map (yield_scaled_of_plotted sc) (flatten (line_y l)))
      (flatten y_hat_scaled).
Proof.
  intros Hbs Hys. unfold regression_line.
  destruct (beta !! i) as [beta_i |]; [| done].
  cbn -[x_plot matmul x_range_scaled reshape_column].
  destruct (matmul _ _) as [y_hat_scaled |] eqn:Hy; [| done].
  cbn -[x_range_scaled]. intros [= <-]. cbn -[x_range_scaled]. split.
  - unfold x_range. apply Forall2_Qeq_fmap_inverse. intros v.
    unfold soil_natural. by apply standardize_destandardize.
  - exists beta_i, y_hat_scaled. split; [done |]. split; [done |].
    rewrite flatten_tmap_tmap.
    generalize (flatten y_hat_scaled). intros ys.
    induction ys as [|y ys IH]; simpl; constructor; [| done].
    unfold yield_scaled_of_plotted, yield_natural, standardize, destandardize.
    by field.
Qed.

(** C9.  De-standardization inverts standardization for both scaling pairs
    (in exact arithmetic, for a standard deviation that is not zero), and
    what the script plots in natural units is its standardized data sent
    through that de-standardization: standardizing the rug marks gives back
    [Soil], standardizing a line's abscissas gives back the grid, and
    standardizing ten times its ordinates gives back [x_plot @ beta_i]. *)
Theorem destandardize_round_trip sc (Soil : list Q) (beta : list tensor) (i : nat) (x : Q) :
  ~ (bodenzahl_std sc == 0)%Q -> ~ (Winterweizen_yield_std sc == 0)%Q ->
  (soil_natural sc (standardize (bodenzahl_std sc) (bodenzahl_mean sc) x) == x)%Q /\
  (yield_natural sc
     (standardize (Winterweizen_yield_std sc) (Winterweizen_yield_mean sc) x) == x)%Q /\
  Forall2 Qeq (map (standardize (bodenzahl_std sc) (bodenzahl_mean sc))
                 (map (soil_natural sc) Soil)) Soil /\
  match regression_line sc Soil beta i with
  | Ok l =>
      Forall2 Qeq (map (standardize (bodenzahl_std sc) (bodenzahl_mean sc)) (line_x l))
        x_range_scaled /\
      exists beta_i y_hat_scaled,
        beta !! i = Some beta_i /\
        matmul (Matrix (x_plot Soil)) (reshape_column beta_i) = Some y_hat_scaled /\
        Forall2 Qeq (map (yield_scaled_of_plotted sc) (flatten (line_y l)))
          (flatten y_hat_scaled)
  | Raise _ => beta !! i = None \/ exists beta_i, beta !! i = Some beta_i /\
                 matmul (Matrix (x_plot Soil)) (reshape_column beta_i) = None
  end.
Proof.
  intros Hbs Hys.
  split; [by apply destandardize_standardize |].
  split; [by apply destandardize_standardize |].
  split.
  { apply Forall2_Qeq_fmap_inverse. intros v. by apply standardize_destandardize. }
  destruct (regression_line sc Soil beta i) as [l | e] eqn:Hl.
  - by apply regression_line_units.
  - unfold regression_line in Hl.
    destruct (beta !! i) as [beta_i |]; [| by left].
    right. exists beta_i. split; [done |].
    revert Hl. cbn -[x_plot matmul reshape_column].
    by destruct (matmul _ _).
Qed.

Lemma destandardize_round_trip_witness :
  let sc := Build_Scale 50 10 70 12 in
  (soil_natural sc (standardize 10 50 62) == 62)%Q /\
  (yield_natural sc (standardize 12 70 62) == 62)%Q /\
  Forall2 Qeq (map (standardize 10 50) (map (soil_natural sc) [1 # 2; -1 # 2]%Q))
    [1 # 2; -1 # 2]%Q /\
  match regression_line sc [1 # 2; -1 # 2]%Q [Scalar 0; Scalar (1 # 3)] 1 with
  | Ok l =>
      Forall2 Qeq (map (standardize 10 50) (line_x l)) x_range_scaled /\
      exists beta_i y_hat_scaled,
        [Scalar 0; Scalar (1 # 3)] !! 1%nat = Some beta_i /\
        matmul (Matrix (x_plot [1 # 2; -1 # 2]%Q)) (reshape_column beta_i)
        = Some y_hat_scaled /\
        Forall2 Qeq (map (yield_scaled_of_plotted sc) (flatten (line_y l)))
          (flatten y_hat_scaled)
  | Raise _ => [Scalar 0; Scalar (1 # 3)] !! 1%nat = None \/
               exists beta_i, [Scalar 0; Scalar (1 # 3)] !! 1%nat = Some beta_i /\
                 matmul (Matrix (x_plot [1 # 2; -1 # 2]%Q)) (reshape_column beta_i) = None
  end.
Proof.
  apply (destandardize_round_trip (Build_Scale 50 10 70 12) [1 # 2; -1 # 2]%Q
           [Scalar 0; Scalar (1 # 3)] 1 62); by vm_compute.
Defined.

(* ===================================================================== *)
(** ** Traces of the model functions                                      *)
(* ===================================================================== *)

(** [Soil * beta] for a one-dimensional [Soil] and a 0-dimensional [beta]. *)
Lemma tmul_vector_scalar (xs : list Q) (b : Q) :
  tmul (Vector xs) (Scalar b) = Some (Vector (map (fun x => x * b)%Q xs)).
Proof.
  unfold tmul, broadcast2. simpl. rewrite broadcast_dim_1_r. simpl.
  assert (rectangular [xs] = true) as ->.
  { unfold rectangular. simpl. by rewrite Nat.eqb_refl. }
  by rewrite stretch_length, zip_with_repeat_r.
Qed.

Lemma rank_0_scalar t : rank t = 0%nat -> exists x, t = Scalar x.
Proof. destruct t; [by eexists | done | done]. Qed.

(** The shape the bodies of [model], [model_sigma_b] and [model_trunc]
    share: a prior on [beta], a prior on [sigma], a likelihood of
    [Soil * beta] and [sigma] at the response site. *)
Definition linear_model (prior : Dist) (rate : Q) (likelihood : tensor -> tensor -> Dist)
    (Soil : tensor) (Yield : option tensor) : Model :=
  Sample "beta" prior None (fun beta =>
  Sample "sigma" (Exponential (Scalar rate)) None (fun sigma =>
  match tmul Soil beta with
  | Some mu => Sample "Yield" (likelihood mu sigma) Yield (fun _ => Done)
  | None => Fail ValueError
  end)).

Lemma model_linear Soil Yield :
  model Soil Yield = linear_model (Normal (Scalar 0) (Scalar 1)) 1 Normal Soil Yield.
Proof. reflexivity. Qed.

Lemma model_sigma_b_linear Soil sigma_b Yield :
  model_sigma_b Soil sigma_b Yield
  = linear_model (Normal (Scalar 0) sigma_b) 1 Normal Soil Yield.
Proof. reflexivity. Qed.

Lemma model_trunc_linear lowtrunc Soil sigma_b Yield :
  model_trunc lowtrunc Soil sigma_b Yield
  = linear_model (Normal (Scalar 0) sigma_b) 1
      (fun mu sigma => LeftTruncatedDistribution (StudentT (Scalar 5) mu sigma)
                         (Scalar lowtrunc)) Soil Yield.
Proof. reflexivity. Qed.

Section Traces.

Context `{Engine}.

(** The seeded trace of a [linear_model], written out: the keys split off
    the seed one after the other, the draws, and the response site. *)
Definition linear_trace (key : Key) (prior : Dist) (rate : Q)
    (likelihood : tensor -> tensor -> Dist) (Soil : tensor) (Yield : option tensor)
  : result (list Site) :=
  let '(key1, sub1) := Threefry.split2 key in
  let beta := dist_sample prior sub1 in
  let '(key2, sub2) := Threefry.split2 key1 in
  let sigma := dist_sample (Exponential (Scalar rate)) sub2 in
  mu ← from_option ValueError (tmul Soil beta);
  let fn := likelihood mu sigma in
  let value := match Yield with
               | Some y => y
               | None => dist_sample fn (Threefry.split2 key2).2
               end in
  Ok [ Build_Site "beta" prior beta false;
       Build_Site "sigma" (Exponential (Scalar rate)) sigma false;
       Build_Site "Yield" fn value (bool_decide (is_Some Yield)) ].

Lemma get_trace_linear_model key prior rate likelihood Soil Yield :
  get_trace (Some key) ∅ (linear_model prior rate likelihood Soil Yield)
  = linear_trace key prior rate likelihood Soil Yield.
Proof.
  unfold linear_model, linear_trace. cbn -[Threefry.split2 tmul].
  destruct (Threefry.split2 key) as [key1 sub1]. cbn -[Threefry.split2 tmul].
  destruct (Threefry.split2 key1) as [key2 sub2]. cbn -[Threefry.split2 tmul].
  destruct (tmul Soil (dist_sample prior sub1)) as [mu |]; [| done].
  cbn -[Threefry.split2 tmul].
  destruct Yield as [y |]; cbn -[Threefry.split2 tmul]; [done |].
  by destruct (Threefry.split2 key2) as [key3 sub3].
Qed.

(** [t.item()]: the entry of a 0-dimensional array. *)
Definition item (t : tensor) : Q := hd 0%Q (flatten t).

Definition linear_sites (key : Key) (prior : Dist) (rate : Q)
    (likelihood : tensor -> tensor -> Dist) (Soil : list Q) (Yield : option tensor)
  : list Site :=
  let '(key1, sub1) := Threefry.split2 key in
  let beta := dist_sample prior sub1 in
  let '(key2, sub2) := Threefry.split2 key1 in
  let sigma := dist_sample (Exponential (Scalar rate)) sub2 in
  let fn := likelihood (Vector (map (fun x => x * item beta)%Q Soil)) sigma in
  let value := match Yield with
               | Some y => y
               | None => dist_sample fn (Threefry.split2 key2).2
               end in
  [ Build_Site "beta" prior beta false;
    Build_Site "sigma" (Exponential (Scalar rate)) sigma false;
    Build_Site "Yield" fn value (bool_decide (is_Some Yield)) ].

(** With a prior on [beta] whose parameters are 0-dimensional and a
    one-dimensional [Soil], the product broadcasts and the model runs to
    its end. *)
Lemma linear_trace_vector key prior rate likelihood (Soil : list Q) Yield :
  scalar_params prior = true ->
  linear_trace key prior rate likelihood (Vector Soil) Yield
  = Ok (linear_sites key prior rate likelihood Soil Yield).
Proof.
  intros Hprior. unfold linear_trace, linear_sites.
  destruct (Threefry.split2 key) as [key1 sub1].
  destruct (Threefry.split2 key1) as [key2 sub2].
  destruct (rank_0_scalar _ (dist_sample_scalar prior sub1 Hprior)) as [b ->].
  by rewrite tmul_vector_scalar.
Qed.

(** How a trace ends in the response site [resp] given the response
    argument [Yield]: the sites before it are drawn and not observed; the
    response site is observed and holds [Yield] when that is given, and is
    drawn from its distribution when it is [None]. *)
Definition ends_in_response (resp : string) (Yield : option tensor) (tr : list Site)
  : Prop :=
  exists (latent : list Site) (s : Site),
    tr = (latent ++ [s])%list /\ site_name s = resp /\
    Forall (fun s' => site_is_observed s' = false /\ site_name s' <> resp) latent /\
    match Yield with
    | None => site_is_observed s = false /\
              exists k, site_value s = dist_sample (site_fn s) k
    | Some y => site_is_observed s = true /\ site_value s = y
    end.

(** One [numpyro.sample] statement of a traced run: the site it records and
    where its value comes from. *)
Lemma get_trace_Sample rng_key data name fn obs k tr :
  get_trace rng_key data (Sample name fn obs k) = Ok tr ->
  exists v rng_key' rest,
    tr = Build_Site name fn v (bool_decide (is_Some obs)) :: rest /\
    get_trace rng_key' data (k v) = Ok rest /\
    (data !! name = None ->
     match obs with
     | Some y => v = y
     | None => exists key, v = dist_sample fn key
     end).
Proof.
  cbn [get_trace]. destruct (data !! name) as [d |] eqn:Hdata.
  { intros (rest & Hrest & <-%Ok_inj)%bind_Ok. by exists d, rng_key, rest. }
  destruct obs as [y |].
  { intros (rest & Hrest & <-%Ok_inj)%bind_Ok. by exists y, rng_key, rest. }
  destruct rng_key as [key |]; [| done].
  destruct (Threefry.split2 key) as [key' rng_key_sample].
  intros (rest & Hrest & <-%Ok_inj)%bind_Ok.
  exists (dist_sample fn rng_key_sample), (Some key'), rest.
  split; [done |]. split; [done |]. intros _. by eexists.
Qed.

Lemma ends_in_response_intro resp Yield (b s y : Site) :
  site_is_observed b = false -> site_name b <> resp ->
  site_is_observed s = false -> site_name s <> resp ->
  site_name y = resp ->
  site_is_observed y = bool_decide (is_Some Yield) ->
  match Yield with
  | Some obs => site_value y = obs
  | None => exists key, site_value y = dist_sample (site_fn y) key
  end ->
  ends_in_response resp Yield [b; s; y].
Proof.
  intros Hb Hb' Hs Hs' Hy Hobs Hvalue. exists [b; s], y.
  split; [done |]. split; [done |]. split; [by repeat constructor |].
  destruct Yield as [obs |]; by rewrite Hobs.
Qed.

(** The response site of a [linear_model], under any seed and any
    substitution of latent values that leaves the response alone. *)
Lemma linear_model_response rng_key data prior rate likelihood Soil Yield tr :
  data !! "Yield" = None ->
  get_trace rng_key data (linear_model prior rate likelihood Soil Yield) = Ok tr ->
  ends_in_response "Yield" Yield tr.
Proof.
  intros Hdata Htr. unfold linear_model in Htr.
  apply get_trace_Sample in Htr as (beta & rng_key1 & rest1 & -> & Htr & _).
  apply get_trace_Sample in Htr as (sigma & rng_key2 & rest2 & -> & Htr & _).
  destruct (tmul Soil beta) as [mu |]; [| done].
  apply get_trace_Sample in Htr as (value & rng_key3 & rest3 & -> & Htr & Hvalue).
  cbn [get_trace] in Htr. apply Ok_inj in Htr as <-.
  apply ends_in_response_intro; try done. by apply Hvalue.
Qed.

Lemma model_matrix_response rng_key data X Y tr :
  data !! "Y" = None ->
  get_trace rng_key data (model_matrix X Y) = Ok tr ->
  ends_in_response "Y" Y tr.
Proof.
  intros Hdata Htr. destruct X as [x | xs | rows]; [done | done |].
  unfold model_matrix in Htr.
  apply get_trace_Sample in Htr as (beta & rng_key1 & rest1 & -> & Htr & _).
  apply get_trace_Sample in Htr as (sigma & rng_key2 & rest2 & -> & Htr & _).
  destruct (matmul (Matrix rows) beta) as [mu |]; [| done].
  apply get_trace_Sample in Htr as (value & rng_key3 & rest3 & -> & Htr & Hvalue).
  cbn [get_trace] in Htr. apply Ok_inj in Htr as <-.
  apply ends_in_response_intro; try done. by apply Hvalue.
Qed.

End Traces.

(** Calling the four function objects: what the keyword arguments bind. *)
Lemma fn_call_def_model kwargs m :
  fn_call def_model kwargs = Ok m ->
  exists Soil, kwargs !! "Soil" = Some Soil /\ m = model Soil (kwargs !! "Yield").
Proof.
  cbn [fn_call def_model def_model_matrix def_model_sigma_b def_model_trunc].
  destruct (check_keywords _ kwargs); [| done].
  cbn [mbind result_bind]. unfold required.
  destruct (kwargs !! "Soil") as [Soil |]; [| done]. cbn [from_option mbind result_bind]. intros <-%Ok_inj. by eexists.
Qed.

Lemma fn_call_def_model_matrix kwargs m :
  fn_call def_model_matrix kwargs = Ok m ->
  exists X, kwargs !! "X" = Some X /\ m = model_matrix X (kwargs !! "Y").
Proof.
  cbn [fn_call def_model def_model_matrix def_model_sigma_b def_model_trunc].
  destruct (check_keywords _ kwargs); [| done].
  cbn [mbind result_bind]. unfold required.
  destruct (kwargs !! "X") as [X |]; [| done]. cbn [from_option mbind result_bind]. intros <-%Ok_inj. by eexists.
Qed.

Lemma fn_call_def_model_sigma_b kwargs m :
  fn_call def_model_sigma_b kwargs = Ok m ->
  exists Soil sigma_b,
    kwargs !! "Soil" = Some Soil /\ kwargs !! "sigma_b" = Some sigma_b /\
    m = model_sigma_b Soil sigma_b (kwargs !! "Yield").
Proof.
  cbn [fn_call def_model def_model_matrix def_model_sigma_b def_model_trunc].
  destruct (check_keywords _ kwargs); [| done].
  cbn [mbind result_bind]. unfold required.
  destruct (kwargs !! "Soil") as [Soil |]; [| done]. cbn [from_option mbind result_bind].
  destruct (kwargs !! "sigma_b") as [sigma_b |]; [| done]. cbn [from_option mbind result_bind].
  intros [= <-]. by do 2 eexists.
Qed.

Lemma fn_call_def_model_trunc lowtrunc kwargs m :
  fn_call (def_model_trunc lowtrunc) kwargs = Ok m ->
  exists Soil sigma_b,
    kwargs !! "Soil" = Some Soil /\ kwargs !! "sigma_b" = Some sigma_b /\
    m = model_trunc lowtrunc Soil sigma_b (kwargs !! "Yield").
Proof.
  cbn [fn_call def_model def_model_matrix def_model_sigma_b def_model_trunc].
  destruct (check_keywords _ kwargs); [| done].
  cbn [mbind result_bind]. unfold required.
  destruct (kwargs !! "Soil") as [Soil |]; [| done]. cbn [from_option mbind result_bind].
  destruct (kwargs !! "sigma_b") as [sigma_b |]; [| done]. cbn [from_option mbind result_bind].
  intros [= <-]. by do 2 eexists.
Qed.

(* ===================================================================== *)
(** ** The model functions: response argument, joint distribution,        *)
(** ** truncation                                                          *)
(* ===================================================================== *)

(** The four model functions, each with the name of its response site. *)
Definition model_variants (lowtrunc : Q) : list (PyFunc * string) :=
  [ (def_model, "Yield"); (def_model_matrix, "Y");
    (def_model_sigma_b, "Yield"); (def_model_trunc lowtrunc, "Yield") ].

Section Models.

Context `{Engine}.

(** C4.  For each of the four model functions: called without the
    response keyword, the response parameter is [None], and a run of the
    model draws the response site from its distribution (a prior predictive
    sample); called with it, the same site is observed and holds the given
    value.  The sites before it are never observed.  This holds under the
    seeded handlers of [Predictive] and under the substitution of latent
    values an MCMC kernel makes. *)
Theorem response_argument_contract lowtrunc f resp kwargs m rng_key data tr :
  (f, resp) ∈ model_variants lowtrunc ->
  fn_call f kwargs = Ok m ->
  data !! resp = None ->
  get_trace rng_key data m = Ok tr ->
  ends_in_response resp (kwargs !! resp) tr.
Proof.
  unfold model_variants. rewrite !elem_of_cons, elem_of_nil.
  intros [Hf | [Hf | [Hf | [Hf | []]]]] Hm Hdata Htr;
    apply pair_equal_spec in Hf as [-> ->].
  - apply fn_call_def_model in Hm as (Soil & _ & ->).
    rewrite model_linear in Htr. by eapply linear_model_response.
  - apply fn_call_def_model_matrix in Hm as (X & _ & ->).
    by eapply model_matrix_response.
  - apply fn_call_def_model_sigma_b in Hm as (Soil & sigma_b & _ & _ & ->).
    rewrite model_sigma_b_linear in Htr. by eapply linear_model_response.
  - apply fn_call_def_model_trunc in Hm as (Soil & sigma_b & _ & _ & ->).
    rewrite model_trunc_linear in Htr. by eapply linear_model_response.
Qed.

Lemma linear_model_trace key prior rate likelihood (Soil : list Q) Yield :
  scalar_params prior = true ->
  exists (b : Q) (sigma value : tensor) (sub sub' : Key),
    get_trace (Some key) ∅ (linear_model prior rate likelihood (Vector Soil) Yield)
    = Ok [ Build_Site "beta" prior (Scalar b) false;
           Build_Site "sigma" (Exponential (Scalar rate)) sigma false;
           Build_Site "Yield"
             (likelihood (Vector (map (fun x => x * b)%Q Soil)) sigma) value
             (bool_decide (is_Some Yield)) ] /\
    sigma = dist_sample (Exponential (Scalar rate)) sub /\
    value = match Yield with
            | Some y => y
            | None => dist_sample
                        (likelihood (Vector (map (fun x => x * b)%Q Soil)) sigma) sub'
            end.
Proof.
  intros Hprior. rewrite get_trace_linear_model, linear_trace_vector by done.
  unfold linear_sites.
  destruct (Threefry.split2 key) as [key1 sub1].
  destruct (Threefry.split2 key1) as [key2 sub2].
  destruct (rank_0_scalar _ (dist_sample_scalar prior sub1 Hprior)) as [b Hb].
  rewrite Hb. exists b. do 2 eexists. exists sub2, (Threefry.split2 key2).2.
  split; [reflexivity |]. split; [done |]. by destruct Yield.
Qed.

(** C5.  A run of [model] on a one-dimensional [Soil] visits exactly the
    sites [beta ~ Normal(0,1)], [sigma ~ Exponential(1)] and
    [Yield ~ Normal(Soil * beta, sigma)], in this order; [model_sigma_b]
    visits the same sites with [beta ~ Normal(0, sigma_b)], and with
    [sigma_b = 1] it is [model]. *)
Theorem model_joint_distribution key (Soil : list Q) (sigma_b : Q) Yield :
  model (Vector Soil) Yield = model_sigma_b (Vector Soil) (Scalar 1) Yield /\
  (exists (b : Q) (sigma value : tensor),
     get_trace (Some key) ∅ (model (Vector Soil) Yield)
     = Ok [ Build_Site "beta" (Normal (Scalar 0) (Scalar 1)) (Scalar b) false;
            Build_Site "sigma" (Exponential (Scalar 1)) sigma false;
            Build_Site "Yield" (Normal (Vector (map (fun x => x * b)%Q Soil)) sigma)
              value (bool_decide (is_Some Yield)) ]) /\
  (exists (b : Q) (sigma value : tensor),
     get_trace (Some key) ∅ (model_sigma_b (Vector Soil) (Scalar sigma_b) Yield)
     = Ok [ Build_Site "beta" (Normal (Scalar 0) (Scalar sigma_b)) (Scalar b) false;
            Build_Site "sigma" (Exponential (Scalar 1)) sigma false;
            Build_Site "Yield" (Normal (Vector (map (fun x => x * b)%Q Soil)) sigma)
              value (bool_decide (is_Some Yield)) ]).
Proof.
  split; [reflexivity |]. split.
  - rewrite model_linear.
    destruct (linear_model_trace key (Normal (Scalar 0) (Scalar 1)) 1 Normal Soil Yield)
      as (b & sigma & value & _ & _ & Htr & _); [done |].
    by exists b, sigma, value.
  - rewrite model_sigma_b_linear.
    destruct (linear_model_trace key (Normal (Scalar 0) (Scalar sigma_b)) 1 Normal
                Soil Yield) as (b & sigma & value & _ & _ & Htr & _); [done |].
    by exists b, sigma, value.
Qed.

End Models.

Section Truncation.

Context `{Engine}.

Lemma greater_than_scalar low value :
  greater_than (Scalar low) value -> Forall (fun y => low < y)%Q (flatten value).
Proof.
  unfold greater_than.
  destruct (broadcast2 Qminus value (Scalar low)) as [diff |] eqn:Hdiff; [| done].
  unfold positive. rewrite (broadcast2_scalar_r _ _ _ _ Hdiff), Forall_map.
  intros Hpos. eapply Forall_impl; [exact Hpos |].
  intros y Hy. by apply Qlt_minus_iff.
Qed.

(** The truncation point is the standardized zero yield, and lying above
    it is having a yield of at least zero in natural units. *)
Lemma lowtrunc_scale_zero sc :
  (0 < Winterweizen_yield_std sc)%Q ->
  (yield_natural sc (lowtrunc_scale sc) == 0)%Q /\
  (forall y, lowtrunc_scale sc <= y <-> 0 <= yield_natural sc y)%Q.
Proof.
  intros Hstd.
  assert (~ Winterweizen_yield_std sc == 0)%Q as Hne.
  { intros Heq. rewrite Heq in Hstd. by apply Qlt_irrefl in Hstd. }
  assert (yield_natural sc (lowtrunc_scale sc) == 0)%Q as Hzero.
  { unfold yield_natural, lowtrunc_scale, destandardize. by field. }
  split; [done |]. intros y.
  assert (yield_natural sc y
          == (y - lowtrunc_scale sc) * Winterweizen_yield_std sc)%Q as ->.
  { unfold yield_natural, lowtrunc_scale, destandardize. by field. }
  generalize (lowtrunc_scale sc) (Winterweizen_yield_std sc) Hstd.
  clear. intros low std Hstd. split; intros Hy.
  - apply Qmult_le_0_compat; [lra | by apply Qlt_le_weak].
  - apply Qnot_lt_le. intros Hlt.
    assert (0 < (low - y) * std)%Q as Hpos by (apply Qmult_lt_0_compat; lra).
    lra.
Qed.


End Truncation.

(* ===================================================================== *)
(** ** Sample collections: stacking, [Predictive], [MCMC]                 *)
(* ===================================================================== *)

Lemma omap_lookup_length (zs : list (gmap string tensor)) (name : string) :
  Forall (fun z => name ∈ dom z) zs ->
  length (omap (fun z : gmap string tensor => z !! name) zs) = length zs.
Proof.
  induction 1 as [|z zs Hz _ IH]; simpl; [done |].
  apply elem_of_dom in Hz as [v ->]. simpl. by f_equal.
Qed.

(** Stacking a non-empty list of dictionaries with the keys [D]: a
    dictionary with the keys [D], each array as long as the list. *)
Lemma stack_spec (zs : list (gmap string tensor)) (D : gset string) :
  Forall (fun z => dom z = D) zs -> zs <> [] ->
  exists m, stack zs = Ok m /\ dom m = D /\
    forall name, name ∈ D ->
      exists arr, m !! name = Some arr /\ length arr = length zs.
Proof.
  intros Hzs Hne. destruct zs as [|z0 zs']; [done |]. clear Hne.
  unfold stack.
  assert (forallb (fun z : gmap string tensor => bool_decide (dom z = dom z0))
            (z0 :: zs') = true) as ->.
  { apply forallb_forall. intros z Hz. apply bool_decide_eq_true.
    apply list_elem_of_In in Hz.
    rewrite Forall_forall in Hzs.
    rewrite (Hzs z Hz). symmetry. apply Hzs. by left. }
  eexists. split; [done |].
  assert (dom z0 = D) as Hz0 by (by inversion Hzs).
  split.
  - apply set_eq. intros name. rewrite <- Hz0, !elem_of_dom, map_lookup_imap.
    destruct (z0 !! name) as [v |]; simpl.
    + split; intros _; by eexists.
    + split; intros [? [=]].
  - intros name Hname. rewrite map_lookup_imap.
    rewrite <- Hz0 in Hname. apply elem_of_dom in Hname as [v Hv]. rewrite Hv.
    exists (omap (fun z : gmap string tensor => z !! name) (z0 :: zs')).
    split; [done |]. apply omap_lookup_length.
    eapply Forall_impl; [exact Hzs |]. intros z ->.
    rewrite <- Hz0. apply elem_of_dom. by eexists.
Qed.

Lemma iterates_length {S} n (body : S -> S) s : length (iterates n body s) = n.
Proof. revert s. induction n; intros s; simpl; [done | by f_equal]. Qed.

Lemma iterates_Forall {S} (P : S -> Prop) n (body : S -> S) s :
  (forall s, P s -> P (body s)) -> P s -> Forall P (iterates n body s).
Proof.
  intros Hbody. revert s. induction n; intros s Hs; simpl; constructor; auto.
Qed.

Lemma fori_collect_length {S} lower n (body : S -> S) s :
  length (fori_collect lower (lower + n) body s) = n.
Proof. unfold fori_collect. rewrite length_drop, iterates_length. lia. Qed.

Lemma fori_collect_Forall {S} (P : S -> Prop) lower upper (body : S -> S) s :
  (forall s, P s -> P (body s)) -> P s -> Forall P (fori_collect lower upper body s).
Proof. intros Hbody Hs. unfold fori_collect. by apply Forall_drop, iterates_Forall. Qed.

Lemma check_keywords_intro params kwargs :
  dom kwargs ⊆ list_to_set (C := gset string) params ->
  check_keywords params kwargs = Ok tt.
Proof. intros Hdom. unfold check_keywords. by case_decide. Qed.

Section Collections.

Context `{Engine}.

(** The keyword arguments the driver passes for [Soil] and [sigma_b], and,
    to [mcmc.run], [Yield]. *)
Definition prior_kwargs (Soil : list Q) (sigma_b : Z) : gmap string tensor :=
  <["sigma_b" := Scalar (inject_Z sigma_b)]> (<["Soil" := Vector Soil]> ∅).

Definition mcmc_kwargs (Soil Yield : list Q) (sigma_b : Z) : gmap string tensor :=
  <["Yield" := Vector Yield]> (prior_kwargs Soil sigma_b).

Ltac lookup_kwargs :=
  repeat first [ rewrite lookup_insert_eq
               | rewrite lookup_insert_ne by done
               | rewrite lookup_empty ].

Lemma fn_call_prior_kwargs Soil sigma_b :
  fn_call def_model_sigma_b (prior_kwargs Soil sigma_b)
  = Ok (model_sigma_b (Vector Soil) (Scalar (inject_Z sigma_b)) None).
Proof.
  cbn [fn_call def_model_sigma_b]. rewrite check_keywords_intro.
  - unfold required, optional, prior_kwargs. by lookup_kwargs.
  - unfold prior_kwargs. rewrite !dom_insert_L, dom_empty_L.
    apply (bool_decide_unpack _). by vm_compute.
Qed.

Lemma fn_call_mcmc_kwargs Soil Yield sigma_b :
  fn_call def_model_sigma_b (mcmc_kwargs Soil Yield sigma_b)
  = Ok (model_sigma_b (Vector Soil) (Scalar (inject_Z sigma_b)) (Some (Vector Yield))).
Proof.
  cbn [fn_call def_model_sigma_b]. rewrite check_keywords_intro.
  - unfold required, optional, mcmc_kwargs, prior_kwargs. by lookup_kwargs.
  - unfold mcmc_kwargs, prior_kwargs. rewrite !dom_insert_L, dom_empty_L.
    apply (bool_decide_unpack _). by vm_compute.
Qed.

Lemma get_trace_model_sigma_b key Soil sigma_b Yield :
  get_trace (Some key) ∅ (model_sigma_b (Vector Soil) (Scalar sigma_b) Yield)
  = Ok (linear_sites key (Normal (Scalar 0) (Scalar sigma_b)) 1 Normal Soil Yield).
Proof.
  by rewrite model_sigma_b_linear, get_trace_linear_model, linear_trace_vector.
Qed.

Definition all_sites : gset string := list_to_set ["beta"; "sigma"; "Yield"].
Definition parameter_sites : gset string := list_to_set ["beta"; "sigma"].

Lemma dom_trace_values_linear_sites key prior rate likelihood Soil Yield :
  dom (trace_values (linear_sites key prior rate likelihood Soil Yield)) = all_sites.
Proof.
  unfold linear_sites.
  destruct (Threefry.split2 key) as [key1 sub1].
  destruct (Threefry.split2 key1) as [key2 sub2].
  unfold trace_values, all_sites. cbn [map site_name site_value list_to_map foldr].
  rewrite !dom_insert_L, dom_empty_L.
  apply (bool_decide_unpack _). by vm_compute.
Qed.

(** [Predictive(model_sigma_b, num_samples=n)] on [Soil] and [sigma_b]
    returns [n] draws of each of the three sites. *)
Lemma Predictive_call_model_sigma_b n key Soil sigma_b :
  (0 < n)%nat ->
  exists prior,
    Predictive_call {| pred_model := def_model_sigma_b; pred_num_samples := n |}
      key (prior_kwargs Soil sigma_b) = Ok prior /\
    dom prior = all_sites /\
    forall name, name ∈ all_sites ->
      exists arr, prior !! name = Some arr /\ length arr = n.
Proof.
  intros Hn. unfold Predictive_call. cbn [pred_model pred_num_samples].
  set (keys := firstn n _).
  assert (length keys = n) as Hkeys.
  { unfold keys. destruct (Nat.ltb_spec 1 n).
    - rewrite length_firstn, split_length. lia.
    - assert (n = 1%nat) as -> by lia. done. }
  rewrite (mapR_Ok _ (fun k => linear_sites k (Normal (Scalar 0)
                                 (Scalar (inject_Z sigma_b))) 1 Normal Soil None)).
  2:{ intros k _. rewrite fn_call_prior_kwargs. cbn [mbind result_bind].
      apply get_trace_model_sigma_b. }
  cbn [mbind result_bind].
  destruct (stack_spec (map trace_values
              (map (fun k => linear_sites k (Normal (Scalar 0)
                      (Scalar (inject_Z sigma_b))) 1 Normal Soil None) keys)) all_sites)
    as (prior & Hprior & Hdom & Hlookup).
  - rewrite !Forall_map. apply Forall_forall. intros k _.
    apply dom_trace_values_linear_sites.
  - destruct keys; [simpl in Hkeys; lia | done].
  - exists prior. split; [done |]. split; [done |].
    intros name Hname. destruct (Hlookup name Hname) as (arr & Harr & Hlen).
    exists arr. split; [done |]. by rewrite Hlen, !length_map.
Qed.

Lemma nuts_init_model_sigma_b key Soil Yield sigma_b :
  exists st,
    nuts_init {| nuts_model := def_model_sigma_b |} key (mcmc_kwargs Soil Yield sigma_b)
    = Ok st /\ dom (hmc_z st) = parameter_sites.
Proof.
  unfold nuts_init. cbn [nuts_model].
  destruct (Threefry.split2 key) as [key' key_init].
  rewrite fn_call_mcmc_kwargs. cbn [mbind result_bind].
  rewrite get_trace_model_sigma_b. cbn [mbind result_bind].
  eexists. split; [reflexivity |]. cbn [hmc_z].
  unfold linear_sites.
  destruct (Threefry.split2 key_init) as [key1 sub1].
  destruct (Threefry.split2 key1) as [key2 sub2].
  unfold latent_sites, parameter_sites. rewrite !filter_cons, filter_nil.
  cbn [site_is_observed]. repeat case_decide; done.
Qed.

(** A transition keeps the latent sites. *)
Lemma nuts_sample_dom k warmup kwargs st :
  dom (hmc_z (nuts_sample k warmup kwargs st)) = dom (hmc_z st).
Proof.
  unfold nuts_sample.
  destruct (Threefry.split (hmc_rng_key st) 3) as [|a [|b [|c [|d l]]]]; try done.
  destruct (nuts_move _ _ _ _ _ _) as [z a'] eqn:Hmove. cbn [hmc_z].
  rewrite <- (nuts_move_dom (potential k kwargs) (hmc_i st <? warmup)%nat
                (hmc_adapt st) b c (hmc_z st)).
  by rewrite Hmove.
Qed.

(** One chain of [model_sigma_b]: [num_samples] states, each with a value
    for [beta] and for [sigma]. *)
Lemma single_chain_mcmc_model_sigma_b ns nw nc key Soil Yield sigma_b :
  exists chain,
    single_chain_mcmc
      {| sampler := {| nuts_model := def_model_sigma_b |};
         num_samples := ns; num_warmup := nw; num_chains := nc |}
      (mcmc_kwargs Soil Yield sigma_b) key = Ok chain /\
    length chain = ns /\
    Forall (fun z => dom z = parameter_sites) chain.
Proof.
  unfold single_chain_mcmc. cbn [sampler num_samples num_warmup].
  destruct (nuts_init_model_sigma_b key Soil Yield sigma_b) as (st & -> & Hst).
  cbn [mbind result_bind]. eexists. split; [reflexivity |]. split.
  - by rewrite length_map, fori_collect_length.
  - rewrite Forall_map.
    apply (fori_collect_Forall (fun st => dom (hmc_z st) = parameter_sites));
      [| done].
    intros st' Hst'. by rewrite nuts_sample_dom.
Qed.

Lemma mapR_Forall {A B} (P : B -> Prop) (f : A -> result B) (l : list A) :
  (forall x, exists y, f x = Ok y /\ P y) ->
  exists ys, mapR f l = Ok ys /\ length ys = length l /\ Forall P ys.
Proof.
  intros Hf. induction l as [|x l (ys & Hys & Hlen & HP)]; simpl.
  - by exists [].
  - destruct (Hf x) as (y & -> & Hy). rewrite Hys. cbn [mbind result_bind].
    exists (y :: ys). split; [done |]. split; [by simpl; f_equal | by constructor].
Qed.

Lemma concat_length_uniform {A} (ls : list (list A)) n :
  Forall (fun l => length l = n) ls -> length (concat ls) = (length ls * n)%nat.
Proof.
  induction 1 as [|l ls Hl _ IH]; simpl; [done |]. by rewrite length_app, Hl, IH.
Qed.

(** [MCMC(NUTS(model_sigma_b), num_samples=ns, num_warmup=nw, num_chains=nc)]
    run and read with [get_samples]: [nc * ns] draws of [beta] and of
    [sigma], and of nothing else. *)
Lemma MCMC_get_samples_model_sigma_b ns nw nc key Soil Yield sigma_b :
  (1 < nc)%nat -> (0 < ns)%nat ->
  exists states post,
    MCMC_run
      {| sampler := {| nuts_model := def_model_sigma_b |};
         num_samples := ns; num_warmup := nw; num_chains := nc |}
      key (mcmc_kwargs Soil Yield sigma_b) = Ok states /\
    get_samples states = Ok post /\
    dom post = parameter_sites /\
    forall name, name ∈ parameter_sites ->
      exists arr, post !! name = Some arr /\ length arr = (nc * ns)%nat.
Proof.
  intros Hnc Hns. unfold MCMC_run. cbn [num_chains].
  apply Nat.ltb_lt in Hnc as Hnc'. rewrite Hnc'.
  destruct (mapR_Forall
              (fun chain => length chain = ns /\
                            Forall (fun z => dom z = parameter_sites) chain)
              (single_chain_mcmc
                 {| sampler := {| nuts_model := def_model_sigma_b |};
                    num_samples := ns; num_warmup := nw; num_chains := nc |}
                 (mcmc_kwargs Soil Yield sigma_b))
              (Threefry.split key nc)) as (states & Hstates & Hlen & Hchains).
  { intros k. apply single_chain_mcmc_model_sigma_b. }
  rewrite split_length in Hlen.
  exists states. unfold get_samples.
  assert (length (concat states) = (nc * ns)%nat) as Hconcat.
  { rewrite <- Hlen. apply concat_length_uniform.
    eapply Forall_impl; [exact Hchains |]. by intros chain [? _]. }
  destruct (stack_spec (concat states) parameter_sites) as (post & Hpost & Hdom & Hlook).
  - apply Forall_concat. eapply Forall_impl; [exact Hchains |]. by intros chain [_ ?].
  - intros Hnil. rewrite Hnil in Hconcat. simpl in Hconcat. nia.
  - exists post. split; [done |]. split; [done |]. split; [done |].
    intros name Hname. destruct (Hlook name Hname) as (arr & Harr & Harrlen).
    exists arr. split; [done |]. by rewrite Harrlen.
Qed.

End Collections.

(* ===================================================================== *)
(** ** The driver                                                         *)
(* ===================================================================== *)

(** The objects the loop body constructs at lines 111 and 119-120. *)
Definition the_predictive : Predictive :=
  {| pred_model := def_model_sigma_b; pred_num_samples := nPriorSamples |}.

Definition the_mcmc : MCMC :=
  {| sampler := {| nuts_model := def_model_sigma_b |};
     num_samples := 800; num_warmup := 1000; num_chains := 2 |}.

(** The key carried in [rng_key] after [n] splits, and the key [rng_key_]
    the [n]-th split (counting from 0) hands to a library call. *)
Definition carried_key (key : Key) (n : nat) : Key :=
  Nat.iter n (fun k => (Threefry.split2 k).1) key.

Definition handed_key (key : Key) (n : nat) : Key :=
  (Threefry.split2 (carried_key key n)).2.

(** A prior sample collection: 1000 draws of each of the three sites. *)
Definition prior_collection (prior : gmap string (list tensor)) : Prop :=
  dom prior = all_sites /\
  forall name, name ∈ all_sites ->
    exists arr, prior !! name = Some arr /\ length arr = 1000%nat.

(** A posterior sample collection: 1600 draws of each of the two
    parameters. *)
Definition posterior_collection (post : gmap string (list tensor)) : Prop :=
  dom post = parameter_sites /\
  forall name, name ∈ parameter_sites ->
    exists arr, post !! name = Some arr /\ length arr = 1600%nat.

Section DriverSpec.

Context `{Engine}.

(** One pass of the loop body when [model] is bound to [model_sigma_b]. *)
Lemma driver_body_spec globals (Soil Yield : list Q) st sigma_b :
  globals !! "model" = Some def_model_sigma_b ->
  let key1 := (Threefry.split2 (rng_key st)).1 in
  let sub1 := (Threefry.split2 (rng_key st)).2 in
  let key2 := (Threefry.split2 key1).1 in
  let sub2 := (Threefry.split2 key1).2 in
  exists prior states post,
    Predictive_call the_predictive sub1 (prior_kwargs Soil sigma_b) = Ok prior /\
    MCMC_run the_mcmc sub2 (mcmc_kwargs Soil Yield sigma_b) = Ok states /\
    get_samples states = Ok post /\
    prior_collection prior /\ posterior_collection post /\
    driver_body globals (Vector Soil) (Vector Yield) st sigma_b
    = Ok {| rng_key := key2;
            lstRes := lstRes st ++ [Build_Res post prior sigma_b];
            calls := calls st ++
                     [ CallPredictive the_predictive sub1 (prior_kwargs Soil sigma_b);
                       CallMCMCRun the_mcmc sub2 (mcmc_kwargs Soil Yield sigma_b) ] |}.
Proof.
  intros Hmodel. cbv zeta. unfold driver_body.
  destruct (Threefry.split2 (rng_key st)) as [key1 sub1]. cbn [fst snd].
  destruct (Threefry.split2 key1) as [key2 sub2]. cbn [fst snd].
  unfold read_name. rewrite Hmodel. cbn [from_option mbind result_bind].
  destruct (Predictive_call_model_sigma_b 1000 sub1 Soil sigma_b)
    as (prior & Hprior & Hpdom & Hplook); [lia |].
  destruct (MCMC_get_samples_model_sigma_b 800 1000 2 sub2 Soil Yield sigma_b)
    as (states & post & Hstates & Hpost & Hqdom & Hqlook); [lia | lia |].
  change (Predictive_call the_predictive sub1 (prior_kwargs Soil sigma_b) = Ok prior)
    in Hprior.
  change (MCMC_run the_mcmc sub2 (mcmc_kwargs Soil Yield sigma_b) = Ok states)
    in Hstates.
  exists prior, states, post.
  change {| pred_model := def_model_sigma_b; pred_num_samples := nPriorSamples |}
    with the_predictive.
  change {| sampler := {| nuts_model := def_model_sigma_b |}; num_samples := 800;
            num_warmup := 1000; num_chains := 2 |} with the_mcmc.
  change (<["sigma_b" := Scalar (inject_Z sigma_b)]> (<["Soil" := Vector Soil]> ∅))
    with (prior_kwargs Soil sigma_b).
  change (<["Yield" := Vector Yield]> (prior_kwargs Soil sigma_b))
    with (mcmc_kwargs Soil Yield sigma_b).
  rewrite Hprior. cbn [mbind result_bind].
  rewrite Hstates. cbn [mbind result_bind].
  rewrite Hpost. cbn [mbind result_bind].
  repeat split; done.
Qed.

(** Line 100 after the four definitions: [model] now names the function
    object [model_sigma_b] names. *)
Lemma rebind_model_after_defs f_model f_model_matrix f_model_sigma_b f_model_trunc :
  exists globals,
    rebind_model (after_defs f_model f_model_matrix f_model_sigma_b f_model_trunc)
    = Ok globals /\
    globals !! "model" = Some f_model_sigma_b /\
    globals !! "model_sigma_b" = Some f_model_sigma_b /\
    globals !! "model_matrix" = Some f_model_matrix /\
    globals !! "model_trunc" = Some f_model_trunc.
Proof.
  unfold rebind_model, read_name, after_defs, bind_name.
  rewrite lookup_insert_ne by done. rewrite lookup_insert_eq.
  cbn [from_option mbind result_bind]. eexists. split; [reflexivity |].
  split; [by rewrite lookup_insert_eq |].
  split; [by rewrite !lookup_insert_ne, lookup_insert_eq by done |].
  split; [by rewrite !lookup_insert_ne, lookup_insert_eq by done |].
  by rewrite !lookup_insert_ne, lookup_insert_eq by done.
Qed.

(** The state the driver ends in, given the four sample collections. *)
Definition sampling_outcome (key : Key) (Soil Yield : list Q)
    (prior1 post1 prior5 post5 : gmap string (list tensor)) : DriverState :=
  {| rng_key := carried_key key 4;
     lstRes := [ Build_Res post1 prior1 1; Build_Res post5 prior5 5 ];
     calls :=
       [ CallPredictive the_predictive (handed_key key 0) (prior_kwargs Soil 1);
         CallMCMCRun the_mcmc (handed_key key 1) (mcmc_kwargs Soil Yield 1);
         CallPredictive the_predictive (handed_key key 2) (prior_kwargs Soil 5);
         CallMCMCRun the_mcmc (handed_key key 3) (mcmc_kwargs Soil Yield 5) ] |}.

(** Lines 65-138 run to the end, whatever the functions [model],
    [model_matrix] and [model_trunc] were defined to be: two passes, each
    a prior predictive call and an MCMC run of [model_sigma_b], each call
    with the key of the next split. *)
Lemma sampling_spec f_model f_model_matrix f_model_trunc key (Soil Yield : list Q) sc :
  exists prior1 states1 post1 prior5 states5 post5,
    Predictive_call the_predictive (handed_key key 0) (prior_kwargs Soil 1) = Ok prior1 /\
    MCMC_run the_mcmc (handed_key key 1) (mcmc_kwargs Soil Yield 1) = Ok states1 /\
    get_samples states1 = Ok post1 /\
    Predictive_call the_predictive (handed_key key 2) (prior_kwargs Soil 5) = Ok prior5 /\
    MCMC_run the_mcmc (handed_key key 3) (mcmc_kwargs Soil Yield 5) = Ok states5 /\
    get_samples states5 = Ok post5 /\
    prior_collection prior1 /\ posterior_collection post1 /\
    prior_collection prior5 /\ posterior_collection post5 /\
    sampling f_model f_model_matrix def_model_sigma_b f_model_trunc key Soil Yield sc
    = Ok (sampling_outcome key Soil Yield prior1 post1 prior5 post5).
Proof.
  unfold sampling.
  destruct (rebind_model_after_defs f_model f_model_matrix def_model_sigma_b
              (f_model_trunc (lowtrunc_scale sc)))
    as (globals & -> & Hmodel & _).
  cbn [mbind result_bind]. unfold driver, prior_widths. cbn [foldR].
  destruct (driver_body_spec globals Soil Yield
              {| rng_key := key; lstRes := []; calls := [] |} 1 Hmodel)
    as (prior1 & states1 & post1 & Hp1 & Hs1 & Hg1 & Hpc1 & Hqc1 & ->).
  cbn [mbind result_bind].
  match goal with |- context [driver_body _ _ _ ?st 5%Z] =>
    destruct (driver_body_spec globals Soil Yield st 5 Hmodel)
      as (prior5 & states5 & post5 & Hp5 & Hs5 & Hg5 & Hpc5 & Hqc5 & ->)
  end.
  cbn [mbind result_bind]. cbn [rng_key lstRes calls app] in *.
  exists prior1, states1, post1, prior5, states5, post5.
  repeat match goal with |- _ /\ _ => split; [assumption |] end.
  reflexivity.
Qed.

End DriverSpec.

Section DriverProperties.

Context `{Engine}.

(** C2.  For both prior widths the driver runs
    [MCMC(NUTS(model), num_samples=800, num_warmup=1000, num_chains=2)],
    and what [get_samples] returns after each run has, for [beta] and for
    [sigma] and for no other name, [2 * 800 = 1600] draws. *)
Theorem mcmc_runs_and_posterior_count key (Soil Yield : list Q) sc :
  exists st key1 key5 states1 states5 prior1 prior5 post1 post5,
    sampling def_model def_model_matrix def_model_sigma_b def_model_trunc
      key Soil Yield sc = Ok st /\
    lstRes st = [ Build_Res post1 prior1 1; Build_Res post5 prior5 5 ] /\
    mcmc_runs (calls st)
    = [ (the_mcmc, key1, mcmc_kwargs Soil Yield 1);
        (the_mcmc, key5, mcmc_kwargs Soil Yield 5) ] /\
    sampler the_mcmc = {| nuts_model := def_model_sigma_b |} /\
    num_chains the_mcmc = 2%nat /\ num_warmup the_mcmc = 1000%nat /\
    num_samples the_mcmc = 800%nat /\
    MCMC_run the_mcmc key1 (mcmc_kwargs Soil Yield 1) = Ok states1 /\
    get_samples states1 = Ok post1 /\
    MCMC_run the_mcmc key5 (mcmc_kwargs Soil Yield 5) = Ok states5 /\
    get_samples states5 = Ok post5 /\
    Forall (fun post =>
              dom post = parameter_sites /\
              forall name, name ∈ parameter_sites ->
                exists arr, post !! name = Some arr /\
                  length arr = (num_chains the_mcmc * num_samples the_mcmc)%nat /\
                  length arr = 1600%nat)
      [post1; post5].
Proof.
  destruct (sampling_spec def_model def_model_matrix def_model_trunc key Soil Yield sc)
    as (prior1 & states1 & post1 & prior5 & states5 & post5 &
        Hp1 & Hs1 & Hg1 & Hp5 & Hs5 & Hg5 & Hpc1 & Hqc1 & Hpc5 & Hqc5 & Hst).
  exists (sampling_outcome key Soil Yield prior1 post1 prior5 post5),
    (handed_key key 1), (handed_key key 3), states1, states5, prior1, prior5, post1, post5.
  repeat match goal with |- _ /\ _ => split; [done |] end.
  assert (forall post, posterior_collection post ->
            dom post = parameter_sites /\
            forall name, name ∈ parameter_sites ->
              exists arr, post !! name = Some arr /\
                length arr = (num_chains the_mcmc * num_samples the_mcmc)%nat /\
                length arr = 1600%nat) as Hcount.
  { intros post [Hdom Hlook]. split; [done |]. intros name Hname.
    destruct (Hlook name Hname) as (arr & Harr & Hlen). by exists arr. }
  repeat constructor; by apply Hcount.
Qed.

(** C3.  Both prior predictive calls are made without [Yield], ask for
    [nPriorSamples = 1000] draws and return 1000 draws of each site,
    [Yield] included; and the prior sample collections are the same
    whatever yield data the script was given. *)
Theorem prior_predictive_count_and_independence key (Soil Yield Yield' : list Q) sc :
  exists st st',
    sampling def_model def_model_matrix def_model_sigma_b def_model_trunc
      key Soil Yield sc = Ok st /\
    sampling def_model def_model_matrix def_model_sigma_b def_model_trunc
      key Soil Yield' sc = Ok st' /\
    length (lstRes st) = 2%nat /\
    Forall (fun res =>
              forall name, name ∈ ["beta"; "sigma"; "Yield"] ->
                exists arr, prior_samples res !! name = Some arr /\
                  length arr = nPriorSamples /\ length arr = 1000%nat)
      (lstRes st) /\
    length (predictive_calls (calls st)) = 2%nat /\
    Forall (fun '(p, _, kwargs) =>
              pred_num_samples p = nPriorSamples /\ kwargs !! "Yield" = None)
      (predictive_calls (calls st)) /\
    map prior_samples (lstRes st') = map prior_samples (lstRes st).
Proof.
  destruct (sampling_spec def_model def_model_matrix def_model_trunc key Soil Yield sc)
    as (prior1 & states1 & post1 & prior5 & states5 & post5 &
        Hp1 & _ & _ & Hp5 & _ & _ & Hpc1 & _ & Hpc5 & _ & Hst).
  destruct (sampling_spec def_model def_model_matrix def_model_trunc key Soil Yield' sc)
    as (prior1' & states1' & post1' & prior5' & states5' & post5' &
        Hp1' & _ & _ & Hp5' & _ & _ & _ & _ & _ & _ & Hst').
  rewrite Hp1 in Hp1'. apply Ok_inj in Hp1' as <-.
  rewrite Hp5 in Hp5'. apply Ok_inj in Hp5' as <-.
  do 2 eexists. split; [exact Hst |]. split; [exact Hst' |].
  split; [done |]. split; [| split; [done |]; split; [| done]].
  - assert (forall prior, prior_collection prior ->
              forall name, name ∈ ["beta"; "sigma"; "Yield"] ->
                exists arr, prior !! name = Some arr /\
                  length arr = nPriorSamples /\ length arr = 1000%nat) as Hcount.
    { intros prior [Hdom Hlook] name Hname.
      destruct (Hlook name) as (arr & Harr & Hlen).
      - unfold all_sites. by apply elem_of_list_to_set.
      - by exists arr. }
    repeat constructor; by apply Hcount.
  - repeat constructor; done.
Qed.

End DriverProperties.

Section Determinism.

Context `{Engine}.

(** Sampling gives the same state whatever the functions bound by the
    definitions of [model], [model_matrix] and [model_trunc] do. *)
Lemma sampling_parametric f_model f_model_matrix f_model_trunc
    f_model' f_model_matrix' f_model_trunc' key (Soil Yield : list Q) sc :
  sampling f_model f_model_matrix def_model_sigma_b f_model_trunc key Soil Yield sc
  = sampling f_model' f_model_matrix' def_model_sigma_b f_model_trunc' key Soil Yield sc.
Proof.
  destruct (sampling_spec f_model f_model_matrix f_model_trunc key Soil Yield sc)
    as (prior1 & states1 & post1 & prior5 & states5 & post5 &
        Hp1 & Hs1 & Hg1 & Hp5 & Hs5 & Hg5 & _ & _ & _ & _ & ->).
  destruct (sampling_spec f_model' f_model_matrix' f_model_trunc' key Soil Yield sc)
    as (prior1' & states1' & post1' & prior5' & states5' & post5' &
        Hp1' & Hs1' & Hg1' & Hp5' & Hs5' & Hg5' & _ & _ & _ & _ & ->).
  rewrite Hp1 in Hp1'. apply Ok_inj in Hp1' as <-.
  rewrite Hp5 in Hp5'. apply Ok_inj in Hp5' as <-.
  rewrite Hs1 in Hs1'. apply Ok_inj in Hs1' as <-.
  rewrite Hs5 in Hs5'. apply Ok_inj in Hs5' as <-.
  rewrite Hg1 in Hg1'. apply Ok_inj in Hg1' as <-.
  rewrite Hg5 in Hg5'. apply Ok_inj in Hg5' as <-.
  done.
Qed.

(** The keys of a run seeded with [PRNGKey(1)]: the four keys handed to
    the library calls and the five values [rng_key] takes. *)
Definition seed_key : Key := Threefry.PRNGKey 1.

Definition keys_in_use : list Key :=
  map (handed_key seed_key) (seq 0 4) ++ map (carried_key seed_key) (seq 0 5).

(** C8.  The seed is fixed at [PRNGKey(1)] and [rng_key] is split before
    each of the four stochastic calls (prior predictive, MCMC, prior
    predictive, MCMC): call number [n] gets the second half of the [n]-th
    split and [rng_key] continues with the first half.  These keys do not
    depend on the data, they are pairwise distinct and distinct from every
    value [rng_key] takes, and each prior sample collection is what
    [Predictive] returns for its key, [Soil] and [sigma_b] alone: two runs
    on the same [Soil] produce the same prior sample collections. *)
Theorem seeded_key_schedule env (Soil Yield Yield' : list Q) sc sc' :
  match setup env with
  | Ok (_, key) => key = seed_key
  | Raise _ => True
  end /\
  NoDup keys_in_use /\
  exists st prior1 prior5,
    sampling def_model def_model_matrix def_model_sigma_b def_model_trunc
      seed_key Soil Yield sc = Ok st /\
    map call_key (calls st) = map (handed_key seed_key) (seq 0 4) /\
    rng_key st = carried_key seed_key 4 /\
    map prior_samples (lstRes st) = [prior1; prior5] /\
    Predictive_call the_predictive (handed_key seed_key 0) (prior_kwargs Soil 1)
    = Ok prior1 /\
    Predictive_call the_predictive (handed_key seed_key 2) (prior_kwargs Soil 5)
    = Ok prior5 /\
    exists st',
      sampling def_model def_model_matrix def_model_sigma_b def_model_trunc
        seed_key Soil Yield' sc' = Ok st' /\
      map call_key (calls st') = map call_key (calls st) /\
      map prior_samples (lstRes st') = map prior_samples (lstRes st).
Proof.
  split.
  { unfold setup. destruct (external (gpu_devices env)); [| done].
    cbn [mbind result_bind]. destruct (external (chdir env wd)); [| done].
    cbn [mbind result_bind]. by destruct (assert_version env). }
  split.
  { apply (bool_decide_unpack _). by vm_compute. }
  destruct (sampling_spec def_model def_model_matrix def_model_trunc seed_key
              Soil Yield sc)
    as (prior1 & states1 & post1 & prior5 & states5 & post5 &
        Hp1 & _ & _ & Hp5 & _ & _ & _ & _ & _ & _ & Hst).
  destruct (sampling_spec def_model def_model_matrix def_model_trunc seed_key
              Soil Yield' sc')
    as (prior1' & states1' & post1' & prior5' & states5' & post5' &
        Hp1' & _ & _ & Hp5' & _ & _ & _ & _ & _ & _ & Hst').
  rewrite Hp1 in Hp1'. apply Ok_inj in Hp1' as <-.
  rewrite Hp5 in Hp5'. apply Ok_inj in Hp5' as <-.
  eexists _, prior1, prior5. split; [exact Hst |].
  do 5 (split; [done |]).
  eexists. split; [exact Hst' |]. by split.
Qed.

(** The key values of a run. *)
Example seeded_key_values :
  seed_key = (0, 1)%Z /\
  map (handed_key seed_key) (seq 0 4)
  = [ (3819641963, 2025898573); (3856573362, 1826437626);
      (4123707387, 2365452223); (985362518, 3468932079) ]%Z /\
  map (carried_key seed_key) (seq 0 5)
  = [ (0, 1); (2441914641, 1384938218); (2698884502, 3718367942);
      (1510309670, 1290648773); (2073440302, 1718438419) ]%Z.
Proof. by vm_compute. Qed.

End Determinism.

(* ===================================================================== *)
(** ** The whole script: which model runs, and how a run can halt         *)
(* ===================================================================== *)

Lemma bind_Raise {A B} (m : result A) (f : A -> result B) e :
  m ≫= f = Raise e -> m = Raise e \/ exists a, m = Ok a /\ f a = Raise e.
Proof.
  destruct m as [a | e']; simpl; intros Hf; [right; by exists a | left].
  by injection Hf as ->.
Qed.

Lemma mapR_Raise {A B} (f : A -> result B) (l : list A) e :
  mapR f l = Raise e -> exists x, x ∈ l /\ f x = Raise e.
Proof.
  induction l as [|x l IH]; simpl; [done |].
  intros [Hx | (y & _ & [Hl | (ys & _ & [=])]%bind_Raise)]%bind_Raise.
  - exists x. split; [by left | done].
  - destruct (IH Hl) as (x' & Hx' & Hfx'). exists x'. split; [by right | done].
Qed.

Lemma lookup_key_not_assert {V} (d : gmap string V) key :
  lookup_key d key <> Raise AssertionError.
Proof. unfold lookup_key. by destruct (d !! key). Qed.

Lemma external_not_assert {A} (x : External A) : external x <> Raise AssertionError.
Proof. by destruct x. Qed.

Lemma regression_lines_not_assert sc Soil beta :
  regression_lines sc Soil beta <> Raise AssertionError.
Proof.
  intros (i & _ & Hi)%mapR_Raise. unfold regression_line in Hi.
  destruct (beta !! i) as [beta_i |]; [| done].
  cbn -[x_plot matmul reshape_column] in Hi.
  by destruct (matmul _ _).
Qed.

(** Going through a chain of statements that ended in an exception: each
    statement is ruled out, or left as the one that raised. *)
Ltac raise_cases Hr :=
  lazymatch type of Hr with
  | _ ≫= _ = Raise _ =>
      apply bind_Raise in Hr as [Hr | (? & _ & Hr)];
      [ raise_cases Hr | cbv beta in Hr; raise_cases Hr ]
  | _ =>
      first [ discriminate Hr
            | by apply lookup_key_not_assert in Hr
            | by apply external_not_assert in Hr
            | by apply regression_lines_not_assert in Hr
            | idtac ]
  end.

(** No statement of the plotting loop raises an assertion error. *)
Lemma plot_column_not_assert sc Soil res : plot_column sc Soil res <> Raise AssertionError.
Proof. unfold plot_column. intros Hr. raise_cases Hr. Qed.

Lemma load_not_assert env : load env <> Raise AssertionError.
Proof. unfold load, read_scale. intros Hr. raise_cases Hr. Qed.

Lemma saving_not_assert env : saving env <> Raise AssertionError.
Proof. unfold saving. intros Hr. raise_cases Hr. Qed.

(** With the platform query and [os.chdir] returning, the statements before
    the seed halt the run exactly when the version test fails. *)
Lemma setup_assert env n :
  gpu_devices env = Returns n -> chdir env wd = Returns tt ->
  setup env =
    if startswith (numpyro_version env) "0.13.0"
    then Ok (if (0 <? n)%nat then "gpu" else "cpu", Threefry.PRNGKey 1)
    else Raise AssertionError.
Proof.
  intros Hgpu Hchdir. unfold setup, assert_version. rewrite Hgpu, Hchdir.
  cbn [external mbind result_bind].
  by destruct (startswith (numpyro_version env) "0.13.0").
Qed.

Section ScriptProperties.

Context `{Engine}.

Lemma plotting_not_assert sc Soil results :
  plotting sc Soil results <> Raise AssertionError.
Proof.
  unfold plotting. intros (res & _ & Hres)%mapR_Raise.
  by apply plot_column_not_assert in Hres.
Qed.

(** After a successful setup, nothing in the script raises an assertion
    error. *)
Lemma after_setup_not_assert env platform key :
  ('(Soil, Yield, sc) ← load env;
   st ← sampling def_model def_model_matrix def_model_sigma_b def_model_trunc
          key Soil Yield sc;
   cols ← plotting sc Soil (lstRes st);
   saved ← saving env;
   Ok {| platform := platform; results := lstRes st; library_calls := calls st;
         columns := cols; files := saved |})
  <> Raise AssertionError.
Proof.
  intros [Hr | ([[Soil Yield] sc] & _ & Hr)]%bind_Raise.
  { by apply load_not_assert in Hr. }
  destruct (sampling_spec def_model def_model_matrix def_model_trunc key Soil Yield sc)
    as (prior1 & states1 & post1 & prior5 & states5 & post5 & Hspec).
  do 10 destruct Hspec as [_ Hspec]. rewrite Hspec in Hr.
  cbn [mbind result_bind] in Hr.
  apply bind_Raise in Hr as [Hr | (cols & _ & Hr)].
  { by apply plotting_not_assert in Hr. }
  apply bind_Raise in Hr as [Hr | (saved & _ & Hr)]; [| done].
  by apply saving_not_assert in Hr.
Qed.



End ScriptProperties.

(* ===================================================================== *)
(** ** The script evaluated on the reference engine                       *)
(* ===================================================================== *)

Definition toy_scale : Scale := Build_Scale 50 10 70 12.
Definition toy_Soil : list Q := [1 # 2; -1 # 2]%Q.
Definition toy_Yield : list Q := [3 # 4; -1 # 4]%Q.
Definition toy_key : Key := Threefry.PRNGKey 0.

(** The reference values of the threefry2x32 hash, and the first split of
    [PRNGKey(0)] and of [PRNGKey(1)]. *)
Example threefry_known_answers :
  Threefry.threefry2x32 (0, 0)%Z (0, 0)%Z = (0x6b200159, 0x99ba4efe)%Z /\
  Threefry.threefry2x32 (0xffffffff, 0xffffffff)%Z (0xffffffff, 0xffffffff)%Z
  = (0x1cb996fc, 0xbb002be7)%Z /\
  Threefry.threefry2x32 (0x13198a2e, 0x03707344)%Z (0x243f6a88, 0x85a308d3)%Z
  = (0xc4923a9c, 0x483df7a0)%Z /\
  Threefry.split (Threefry.PRNGKey 0) 2
  = [ (4146024105, 967050713); (2718843009, 1272950319) ]%Z /\
  Threefry.split2 (Threefry.PRNGKey 1)
  = ((2441914641, 1384938218), (3819641963, 2025898573))%Z.
Proof. by vm_compute. Qed.

(** The version test is a prefix test. *)
Example startswith_examples :
  startswith "0.13.0" "0.13.0" = true /\ startswith "0.13.0.post1" "0.13.0" = true /\
  startswith "0.13.1" "0.13.0" = false /\ startswith "0.13" "0.13.0" = false.
Proof. by vm_compute. Qed.

(** Three prior predictive draws and a short MCMC run of [model_sigma_b]. *)
Example prior_predictive_three_draws :
  match Predictive_call (H := reference_engine)
          {| pred_model := def_model_sigma_b; pred_num_samples := 3 |}
          toy_key (prior_kwargs toy_Soil 5) with
  | Ok prior =>
      map (fun '(name, arr) => (name, map rank arr)) (map_to_list prior)
      ≡ₚ [ ("beta", [0; 0; 0]); ("sigma", [0; 0; 0]); ("Yield", [1; 1; 1]) ]%nat
  | Raise _ => False
  end.
Proof. vm_compute. apply (bool_decide_unpack _). by vm_compute. Qed.

Example short_mcmc_run :
  match states ← MCMC_run (H := reference_engine)
                   {| sampler := {| nuts_model := def_model_sigma_b |};
                      num_samples := 4; num_warmup := 3; num_chains := 2 |}
                   toy_key (mcmc_kwargs toy_Soil toy_Yield 5);
        get_samples states with
  | Ok post =>
      map (fun '(name, arr) => (name, length arr)) (map_to_list post)
      ≡ₚ [ ("beta", 8); ("sigma", 8) ]%nat
  | Raise _ => False
  end.
Proof. vm_compute. apply (bool_decide_unpack _). by vm_compute. Qed.

(** [model_matrix] called without [Y] on a 2 x 2 design matrix. *)
Definition toy_X : gmap string tensor := {[ "X" := Matrix [[1; 2]; [3; 4]]%Q ]}.

Definition toy_matrix_trace : list Site :=
  Eval vm_compute in
    match get_trace (H := reference_engine) (Some toy_key) ∅
            (model_matrix (Matrix [[1; 2]; [3; 4]]%Q) None) with
    | Ok tr => tr
    | Raise _ => []
    end.

Lemma response_argument_contract_witness :
  fn_call def_model_matrix toy_X = Ok (model_matrix (Matrix [[1; 2]; [3; 4]]%Q) None) /\
  length toy_matrix_trace = 3%nat /\
  ends_in_response (H := reference_engine) "Y" (toy_X !! "Y") toy_matrix_trace.
Proof.
  split; [by vm_compute |]. split; [reflexivity |].
  apply (response_argument_contract (H := reference_engine) 0 def_model_matrix "Y"
           toy_X (model_matrix (Matrix [[1; 2]; [3; 4]]%Q) None) (Some toy_key) ∅).
  - apply list_elem_of_further, list_elem_of_here.
  - by vm_compute.
  - reflexivity.
  - by vm_compute.
Defined.

(** The same contract where an MCMC kernel evaluates the model: latent
    values substituted, no seed, [Yield] given. *)
Example model_sigma_b_conditioned :
  get_trace (H := reference_engine) None
    {[ "beta" := Scalar (1 # 2); "sigma" := Scalar 2 ]}
    (model_sigma_b (Vector toy_Soil) (Scalar 5) (Some (Vector toy_Yield)))
  = Ok [ Build_Site "beta" (Normal (Scalar 0) (Scalar 5)) (Scalar (1 # 2)) false;
         Build_Site "sigma" (Exponential (Scalar 1)) (Scalar 2) false;
         Build_Site "Yield" (Normal (Vector [1 # 4; -1 # 4]%Q) (Scalar 2))
           (Vector toy_Yield) true ].
Proof. by vm_compute. Qed.

(** [model_sigma_b] called with and without [Yield]: the response site is
    observed and holds the data, or is drawn. *)
Example model_sigma_b_response_site :
  match get_trace (H := reference_engine) (Some toy_key) ∅
          (model_sigma_b (Vector toy_Soil) (Scalar 5) (Some (Vector toy_Yield))),
        get_trace (H := reference_engine) (Some toy_key) ∅
          (model_sigma_b (Vector toy_Soil) (Scalar 5) None) with
  | Ok [b; s; y], Ok [b'; s'; y'] =>
      b = b' /\ s = s' /\
      site_is_observed y = true /\ site_value y = Vector toy_Yield /\
      site_is_observed y' = false /\
      site_value y' = dist_sample (Engine := reference_engine) (site_fn y')
                        (Threefry.split2
                           (Threefry.split2 (Threefry.split2 toy_key).1).1).2
  | _, _ => False
  end.
Proof. by vm_compute. Qed.



Definition old_version_env : Env := {|
  gpu_devices := Returns 0%nat;
  chdir _ := Returns tt;
  numpyro_version := "0.12.1";
  getData := getData toy_env;
  savefig _ := Returns tt
|}.


(* ===================================================================== *)
(** ** Set-up and loading: how lines 22-59 can end *)
(* ===================================================================== *)

Lemma zip_fmap_same {A B C} (f : A -> B) (g : A -> C) (l : list A) :
  zip (map f l) (map g l) = map (fun x => (f x, g x)) l.
Proof. induction l; simpl; [done | by f_equal]. Qed.

(** X1.  Lines 54-55 select the winter-wheat rows of the training table
    once for the soil rating and once for the yield, with the same mask:
    [Soil] and [Yield] have the same length, and their entries at one index
    come from one row of the table, in the table's order; rows of other
    crops contribute nothing. *)
Theorem load_wheat_rows env (Soil Yield : list Q) sc :
  load env = Ok (Soil, Yield, sc) ->
  exists data,
    getData env = Returns data /\
    read_scale (scale_train data) = Ok sc /\
    length Soil = length Yield /\
    zip Soil Yield
    = map (fun r => (bodenzahl_scaled r, yield_scaled r))
        (filter (fun r => crop r = "Winterweizen") (dfL_train data)).
Proof.
  unfold load. destruct (getData env) as [data | what]; [| done].
  cbn [external mbind result_bind].
  destruct (read_scale (scale_train data)) as [sc' | e] eqn:Hsc; [| done].
  cbn [mbind result_bind]. intros [= <- <- <-].
  exists data. split; [done |]. split; [done |].
  unfold wheat_column. split; [by rewrite !length_map | apply zip_fmap_same].
Qed.

Definition scale_keys : list string :=
  [ "bodenzahl_mean"; "bodenzahl_std";
    "Winterweizen_yield_mean"; "Winterweizen_yield_std" ].

Definition scale_values (sc : Scale) : list Q :=
  [ bodenzahl_mean sc; bodenzahl_std sc;
    Winterweizen_yield_mean sc; Winterweizen_yield_std sc ].

Lemma read_scale_spec (d : gmap string Q) :
  match read_scale d with
  | Ok sc => map (fun k => d !! k) scale_keys = map Some (scale_values sc)
  | Raise e =>
      exists before k after,
        scale_keys = (before ++ k :: after)%list /\ e = KeyError k /\ d !! k = None /\
        Forall (fun k' => is_Some (d !! k')) before
  end.
Proof.
  unfold read_scale, lookup_key.
  destruct (d !! "bodenzahl_mean") as [bm |] eqn:Hbm; cbn [from_option mbind result_bind].
  2:{ exists [], "bodenzahl_mean", (tail scale_keys). by repeat split. }
  destruct (d !! "bodenzahl_std") as [bs |] eqn:Hbs; cbn [from_option mbind result_bind].
  2:{ exists ["bodenzahl_mean"], "bodenzahl_std", (tail (tail scale_keys)).
      repeat split; [done | by repeat constructor]. }
  destruct (d !! "Winterweizen_yield_mean") as [ym |] eqn:Hym;
    cbn [from_option mbind result_bind].
  2:{ exists ["bodenzahl_mean"; "bodenzahl_std"], "Winterweizen_yield_mean",
        ["Winterweizen_yield_std"].
      repeat split; [done | by repeat constructor]. }
  destruct (d !! "Winterweizen_yield_std") as [ys |] eqn:Hys;
    cbn [from_option mbind result_bind].
  2:{ exists ["bodenzahl_mean"; "bodenzahl_std"; "Winterweizen_yield_mean"],
        "Winterweizen_yield_std", [].
      repeat split; [done | by repeat constructor]. }
  cbn. by rewrite Hbm, Hbs, Hym, Hys.
Qed.

Lemma startswith_iff (s prefix : string) :
  startswith s prefix = true <-> exists suffix, s = prefix ++ suffix.
Proof.
  unfold startswith. revert s. induction prefix as [|a p IH]; intros s.
  - split; [intros _; by exists s | intros _; by destruct s].
  - destruct s as [|b s].
    + split; [done |]. intros [suffix Hs].
      change (String a p ++ suffix) with (String a (p ++ suffix)) in Hs. discriminate Hs.
    + change (String.prefix (String a p) (String b s))
        with (if Ascii.ascii_dec a b then String.prefix p s else false).
      destruct (Ascii.ascii_dec a b) as [-> | Hab].
      * rewrite IH. split; intros [suffix Hs]; exists suffix.
        -- by rewrite Hs.
        -- change (String b p ++ suffix) with (String b (p ++ suffix)) in Hs.
           by injection Hs.
      * split; [done |]. intros [suffix Hs].
        change (String a p ++ suffix) with (String a (p ++ suffix)) in Hs.
        injection Hs as Hb _. by destruct Hab.
Qed.

(** X2.  Lines 22-43 in the order they run.  The seed is returned only
    when the device query and [os.chdir] returned and the version starts
    with "0.13.0"; the platform is "gpu" exactly when the query found a
    device; and the key is the pair (0, 1).  A query that raises ends the
    run before the working directory is changed, and a failing [os.chdir]
    ends it before the version is tested. *)
Theorem setup_outcomes env :
  match setup env with
  | Ok (platform, key) =>
      exists n suffix,
        gpu_devices env = Returns n /\ chdir env wd = Returns tt /\
        numpyro_version env = "0.13.0" ++ suffix /\
        platform = (if (0 <? n)%nat then "gpu" else "cpu") /\
        key = (0, 1)%Z
  | Raise e =>
      (exists what, gpu_devices env = Throws what /\ e = Foreign what) \/
      (exists n what,
         gpu_devices env = Returns n /\ chdir env wd = Throws what /\ e = Foreign what) \/
      (exists n,
         gpu_devices env = Returns n /\ chdir env wd = Returns tt /\
         (forall suffix, numpyro_version env <> "0.13.0" ++ suffix) /\
         e = AssertionError)
  end.
Proof.
  unfold setup, assert_version.
  destruct (gpu_devices env) as [n | what]; cbn [external mbind result_bind].
  2:{ left. by exists what. }
  destruct (chdir env wd) as [[] | what]; cbn [external mbind result_bind].
  2:{ right. left. by exists n, what. }
  destruct (startswith (numpyro_version env) "0.13.0") eqn:Hv; cbn [mbind result_bind].
  - apply startswith_iff in Hv as [suffix Hv]. by exists n, suffix.
  - right. right. exists n. repeat split; try done.
    intros suffix Hs.
    assert (startswith (numpyro_version env) "0.13.0" = true) as Hv'
      by (apply startswith_iff; by exists suffix).
    by rewrite Hv in Hv'.
Qed.

(** X3.  Lines 47-59: loading ends with the loader's exception, or with a
    [KeyError] for the first of the four scaling entries, in the order
    lines 58-59 read them, that the dictionary lacks; otherwise it returns
    the two wheat columns and the four entries as the dictionary has
    them. *)
Theorem load_outcomes env :
  match load env with
  | Ok (Soil, Yield, sc) =>
      exists data,
        getData env = Returns data /\
        Soil = wheat_column bodenzahl_scaled (dfL_train data) /\
        Yield = wheat_column yield_scaled (dfL_train data) /\
        map (fun k => scale_train data !! k) scale_keys = map Some (scale_values sc)
  | Raise e =>
      (exists what, getData env = Throws what /\ e = Foreign what) \/
      (exists data before k after,
         getData env = Returns data /\
         scale_keys = (before ++ k :: after)%list /\
         Forall (fun k' => is_Some (scale_train data !! k')) before /\
         scale_train data !! k = None /\ e = KeyError k)
  end.
Proof.
  unfold load. destruct (getData env) as [data | what]; cbn [external mbind result_bind].
  2:{ left. by exists what. }
  pose proof (read_scale_spec (scale_train data)) as Hspec.
  destruct (read_scale (scale_train data)) as [sc | e]; cbn [mbind result_bind].
  - by exists data.
  - right. destruct Hspec as (before & k & after & Hkeys & -> & Hk & Hbefore).
    by exists data, before, k, after.
Qed.

(* ===================================================================== *)
(** ** Runs of a model with its sites conditioned *)
(* ===================================================================== *)

Lemma get_trace_unseeded (E1 E2 : Engine) rng_key data m tr :
  get_trace (H := E1) None data m = Ok tr ->
  get_trace (H := E2) rng_key data m = Ok tr.
Proof.
  revert rng_key tr. induction m as [| e | name fn obs k IH]; intros rng_key tr; [done | done |].
  cbn [get_trace].
  destruct (match data !! name with Some v => Some v | None => obs end) as [v |]; [| done].
  intros (rest & Hrest & <-%Ok_inj)%bind_Ok.
  by rewrite (IH v rng_key rest Hrest).
Qed.

Lemma get_trace_unseeded_sites `{Engine} data m tr :
  get_trace None data m = Ok tr ->
  Forall (fun s => match data !! site_name s with
                   | Some v => site_value s = v
                   | None => site_is_observed s = true
                   end) tr.
Proof.
  revert tr. induction m as [| e | name fn obs k IH]; intros tr.
  - intros <-%Ok_inj. constructor.
  - done.
  - cbn [get_trace]. destruct (data !! name) as [d |] eqn:Hd.
    + intros (rest & Hrest & <-%Ok_inj)%bind_Ok. constructor; [| by eapply IH].
      cbn [site_name site_value]. by rewrite Hd.
    + destruct obs as [y |]; [| done].
      intros (rest & Hrest & <-%Ok_inj)%bind_Ok. constructor; [| by eapply IH].
      cbn [site_name site_value site_is_observed]. by rewrite Hd.
Qed.

(** X4.  A run of a model that succeeds without a seed draws nothing: each
    of its sites is either given a value by the substitution or observed,
    and the same trace results under any seed and with any engine. *)
Theorem conditioned_run_ignores_seed (E1 E2 : Engine) rng_key data m tr :
  get_trace (H := E1) None data m = Ok tr ->
  get_trace (H := E2) rng_key data m = Ok tr /\
  Forall (fun s => match data !! site_name s with
                   | Some v => site_value s = v
                   | None => site_is_observed s = true
                   end) tr.
Proof.
  intros Htr. split; [exact (get_trace_unseeded E1 E2 _ _ _ _ Htr) |].
  exact (get_trace_unseeded_sites (H := E1) _ _ _ Htr).
Qed.

Section Potential.

Context `{Engine}.

(** X5.  What the NUTS kernel evaluates for [model_sigma_b] with the
    keyword arguments of line 121: at latent values [beta = b] and
    [sigma = s] the trace has the two priors at these values and the site
    [Yield], observed, holding the yield data, with distribution
    [Normal(Soil * b, s)]. *)
Theorem potential_conditions_on_yield (Soil Yield : list Q) (sigma_b : Z) (b : Q) (s : tensor)
    (z : gmap string tensor) :
  z !! "beta" = Some (Scalar b) -> z !! "sigma" = Some s -> z !! "Yield" = None ->
  potential {| nuts_model := def_model_sigma_b |} (mcmc_kwargs Soil Yield sigma_b) z
  = Ok [ Build_Site "beta" (Normal (Scalar 0) (Scalar (inject_Z sigma_b))) (Scalar b) false;
         Build_Site "sigma" (Exponential (Scalar 1)) s false;
         Build_Site "Yield" (Normal (Vector (map (fun x => x * b)%Q Soil)) s)
           (Vector Yield) true ].
Proof.
  intros Hb Hs Hy. unfold potential. cbn [nuts_model].
  rewrite fn_call_mcmc_kwargs. cbn [mbind result_bind].
  unfold model_sigma_b. cbn [get_trace]. rewrite Hb. cbn [get_trace]. rewrite Hs.
  rewrite tmul_vector_scalar. cbn [get_trace]. rewrite Hy. by cbn.
Qed.

End Potential.

(* ===================================================================== *)
(** ** The driver with [model] not rebound *)
(* ===================================================================== *)

Lemma check_keywords_unexpected params kwargs name :
  is_Some (kwargs !! name) -> name ∉ params ->
  check_keywords params kwargs = Raise TypeError.
Proof.
  intros Hk Hp. unfold check_keywords. case_decide as Hdom; [| done].
  destruct Hp. apply (elem_of_list_to_set (C := gset string)), Hdom.
  by apply elem_of_dom.
Qed.

Lemma fn_call_unexpected_sigma_b f kwargs :
  f = def_model \/ f = def_model_matrix ->
  is_Some (kwargs !! "sigma_b") -> fn_call f kwargs = Raise TypeError.
Proof.
  intros [-> | ->] Hk; cbn [fn_call def_model def_model_matrix];
    rewrite (check_keywords_unexpected _ kwargs "sigma_b"); try done.
  - by rewrite !elem_of_cons, elem_of_nil; intros [[=] | [[=] | []]].
  - by rewrite !elem_of_cons, elem_of_nil; intros [[=] | [[=] | []]].
Qed.

Section Rebinding.

Context `{Engine}.

Lemma Predictive_call_raise p key kwargs e :
  fn_call (pred_model p) kwargs = Raise e ->
  (0 < pred_num_samples p)%nat ->
  Predictive_call p key kwargs = Raise e.
Proof.
  intros Hf Hn. unfold Predictive_call.
  set (keys := if (1 <? pred_num_samples p)%nat then _ else _).
  assert (length keys = pred_num_samples p) as Hkeys.
  { unfold keys. destruct (Nat.ltb_spec 1 (pred_num_samples p)) as [Hlt | Hle].
    - apply split_length.
    - simpl. lia. }
  destruct keys as [|k0 keys]; [simpl in Hkeys; lia |].
  destruct (pred_num_samples p) as [|n]; [lia |].
  cbn [firstn mapR]. rewrite Hf. done.
Qed.

(** X6.  Line 100 is needed.  The loop passes [sigma_b] by keyword, which
    the functions of lines 65 and 72 do not accept: with [model] still
    bound to the function of line 65, or bound to [model_matrix], the first
    prior predictive call ends the driver with a [TypeError]. *)
Theorem driver_needs_rebinding f_model_sigma_b f_model_trunc key (Soil Yield : tensor) :
  driver (after_defs def_model def_model_matrix f_model_sigma_b f_model_trunc)
    key Soil Yield = Raise TypeError /\
  forall f globals,
    f = def_model \/ f = def_model_matrix ->
    globals !! "model" = Some f ->
    driver globals key Soil Yield = Raise TypeError.
Proof.
  assert (forall f globals,
            f = def_model \/ f = def_model_matrix -> globals !! "model" = Some f ->
            driver globals key Soil Yield = Raise TypeError) as Hgen.
  { intros f globals Hf Hmodel. unfold driver, prior_widths. cbn [foldR].
    unfold driver_body. cbn [rng_key].
    destruct (Threefry.split2 key) as [key1 sub1].
    destruct (Threefry.split2 key1) as [key2 sub2].
    unfold read_name. rewrite Hmodel. cbn [from_option mbind result_bind].
    rewrite (Predictive_call_raise _ _ _ TypeError); [done | | cbn; unfold nPriorSamples; lia].
    cbn [pred_model]. apply fn_call_unexpected_sigma_b; [done |].
    by rewrite lookup_insert_eq. }
  split; [| exact Hgen].
  apply (Hgen def_model); [by left |].
  unfold after_defs, bind_name. by rewrite !lookup_insert_ne, lookup_insert_eq by done.
Qed.

End Rebinding.

(* ===================================================================== *)
(** ** Prior predictive draws, run by run *)
(* ===================================================================== *)

Lemma stack_lookup (zs : list (gmap string tensor)) m name arr :
  stack zs = Ok m -> m !! name = Some arr ->
  arr = omap (fun z : gmap string tensor => z !! name) zs.
Proof.
  unfold stack. destruct zs as [|z0 zs']; [by intros <-%Ok_inj |].
  destruct (forallb _ _); [| done]. intros <-%Ok_inj.
  rewrite map_lookup_imap. destruct (z0 !! name); simpl; [| done]. by intros [= <-].
Qed.

Lemma omap_fmap_Some {A B C} (g : A -> B) (f : B -> option C) (h : A -> C) (l : list A) :
  (forall x, f (g x) = Some (h x)) -> omap f (map g l) = map h l.
Proof.
  intros Hf. induction l as [|x l IH]; csimpl; [done |]. by rewrite Hf, IH.
Qed.

Section PriorDraws.

Context `{Engine}.

Definition beta_draw (prior : Dist) (key : Key) : tensor :=
  dist_sample prior (Threefry.split2 key).2.

Definition sigma_draw (rate : Q) (key : Key) : tensor :=
  dist_sample (Exponential (Scalar rate)) (Threefry.split2 (Threefry.split2 key).1).2.

Definition response_key (key : Key) : Key :=
  (Threefry.split2 (Threefry.split2 (Threefry.split2 key).1).1).2.

Lemma linear_sites_draws key prior rate likelihood Soil :
  linear_sites key prior rate likelihood Soil None
  = let fn := likelihood (Vector (map (fun x => x * item (beta_draw prior key))%Q Soil))
                (sigma_draw rate key) in
    [ Build_Site "beta" prior (beta_draw prior key) false;
      Build_Site "sigma" (Exponential (Scalar rate)) (sigma_draw rate key) false;
      Build_Site "Yield" fn (dist_sample fn (response_key key)) false ].
Proof.
  unfold linear_sites, beta_draw, sigma_draw, response_key.
  destruct (Threefry.split2 key) as [key1 sub1]. cbn [fst snd].
  by destruct (Threefry.split2 key1) as [key2 sub2].
Qed.

(** The keys of the runs of a prior predictive call. *)
Definition run_keys (n : nat) (key : Key) : list Key :=
  firstn n (if (1 <? n)%nat then Threefry.split key n else [key]).

Lemma run_keys_length n key : (0 < n)%nat -> length (run_keys n key) = n.
Proof.
  intros Hn. unfold run_keys. destruct (Nat.ltb_spec 1 n).
  - rewrite length_firstn, split_length. lia.
  - assert (n = 1%nat) as -> by lia. done.
Qed.

Lemma Predictive_call_draws n key (Soil : list Q) (sigma_b : Z) :
  (0 < n)%nat ->
  let prior_beta := Normal (Scalar 0) (Scalar (inject_Z sigma_b)) in
  let yield_draw k :=
    dist_sample
      (Normal (Vector (map (fun x => x * item (beta_draw prior_beta k))%Q Soil))
         (sigma_draw 1 k)) (response_key k) in
  exists prior,
    Predictive_call {| pred_model := def_model_sigma_b; pred_num_samples := n |}
      key (prior_kwargs Soil sigma_b) = Ok prior /\
    prior !! "beta" = Some (map (beta_draw prior_beta) (run_keys n key)) /\
    prior !! "sigma" = Some (map (sigma_draw 1) (run_keys n key)) /\
    prior !! "Yield" = Some (map yield_draw (run_keys n key)).
Proof.
  intros Hn prior_beta yield_draw.
  destruct (Predictive_call_model_sigma_b n key Soil sigma_b Hn)
    as (prior & Hprior & Hdom & Hlook).
  exists prior. split; [done |].
  unfold Predictive_call in Hprior. cbn [pred_model pred_num_samples] in Hprior.
  change (firstn n _) with (run_keys n key) in Hprior.
  rewrite (mapR_Ok _ (fun k => linear_sites k prior_beta 1 Normal Soil None)) in Hprior.
  2:{ intros k _. rewrite fn_call_prior_kwargs. cbn [mbind result_bind].
      apply get_trace_model_sigma_b. }
  cbn [mbind result_bind] in Hprior. rewrite map_map in Hprior.
  assert (forall name draw,
            (forall k, trace_values (linear_sites k prior_beta 1 Normal Soil None) !! name
                       = Some (draw k)) ->
            name ∈ all_sites ->
            prior !! name = Some (map draw (run_keys n key))) as Hsite.
  { intros name draw Hdraw Hname.
    destruct (Hlook name Hname) as (arr & Harr & _). rewrite Harr. f_equal.
    rewrite (stack_lookup _ _ _ _ Hprior Harr).
    by apply (omap_fmap_Some _ (fun z : gmap string tensor => z !! name)). }
  split; [| split].
  - apply Hsite; [| by apply (bool_decide_unpack _); vm_compute].
    intros k. rewrite linear_sites_draws. unfold trace_values.
    cbn [map site_name site_value list_to_map foldr]. by rewrite lookup_insert_eq.
  - apply Hsite; [| by apply (bool_decide_unpack _); vm_compute].
    intros k. rewrite linear_sites_draws. unfold trace_values.
    cbn [map site_name site_value list_to_map foldr].
    by rewrite lookup_insert_ne, lookup_insert_eq by done.
  - apply Hsite; [| by apply (bool_decide_unpack _); vm_compute].
    intros k. rewrite linear_sites_draws. unfold trace_values.
    cbn [map site_name site_value list_to_map foldr].
    by rewrite !lookup_insert_ne, lookup_insert_eq by done.
Qed.

End PriorDraws.

(* ===================================================================== *)
(** ** The lines of the fan *)
(* ===================================================================== *)

(** The line lines 183-187 draw for a draw of [beta] with the one entry [b]. *)
Definition fan_line (sc : Scale) (b : Q) : Line :=
  {| line_x := map (soil_natural sc) x_range_scaled;
     line_y := Matrix (map (fun x => [(yield_natural sc (dot [x] [b]) / 10)%Q])
                         x_range_scaled) |}.

Lemma reshape_column_single t b : flatten t = [b] -> reshape_column t = Matrix [[b]].
Proof. unfold flatten, reshape_column. by intros ->. Qed.

Lemma regression_line_single sc Soil beta i beta_i b :
  beta !! i = Some beta_i -> flatten beta_i = [b] ->
  regression_line sc Soil beta i = Ok (fan_line sc b).
Proof.
  intros Hi Hb. unfold regression_line. rewrite Hi.
  cbn -[x_plot matmul x_range_scaled reshape_column].
  rewrite x_plot_grid, (reshape_column_single _ _ Hb), matmul_column.
  cbn -[x_range_scaled dot]. unfold x_range, fan_line. by rewrite !map_map.
Qed.

Lemma x_range_scaled_cons : exists x0 rest, x_range_scaled = x0 :: rest.
Proof. by eexists _, _. Qed.

Lemma regression_line_mismatch sc Soil beta i beta_i :
  beta !! i = Some beta_i -> length (flatten beta_i) <> 1%nat ->
  exists e, regression_line sc Soil beta i = Raise e.
Proof.
  intros Hi Hlen. unfold regression_line. rewrite Hi.
  cbn -[x_plot matmul x_range_scaled reshape_column].
  rewrite x_plot_grid. destruct x_range_scaled_cons as (x0 & rest & ->).
  unfold reshape_column. fold (flatten beta_i).
  cbn [matmul map forallb length]. rewrite length_map.
  destruct (Nat.eqb_spec 1 (length (flatten beta_i))) as [Heq | _]; [by destruct Hlen |].
  cbn. by eexists.
Qed.

Lemma flatten_column (g : Q -> Q) (l : list Q) :
  flatten (Matrix (map (fun x => [g x]) l)) = map g l.
Proof. unfold flatten. cbn [to_rows]. induction l; simpl; [done | by f_equal]. Qed.

Lemma Forall2_fmap_same {A B C} (R : B -> C -> Prop) (f : A -> B) (g : A -> C) (l : list A) :
  (forall x, R (f x) (g x)) -> Forall2 R (map f l) (map g l).
Proof. intros HR. induction l; simpl; constructor; auto. Qed.

(** In natural units a line of the fan passes through the point of means,
    with slope [b * yield_std / (10 * soil_std)]. *)
Definition on_line_through_means (sc : Scale) (b x y : Q) : Prop :=
  (y == Winterweizen_yield_mean sc / 10
        + b * Winterweizen_yield_std sc / (10 * bodenzahl_std sc)
          * (x - bodenzahl_mean sc))%Q.

Lemma fan_line_through_means sc b :
  ~ (bodenzahl_std sc == 0)%Q ->
  length (line_x (fan_line sc b)) = 100%nat /\
  length (flatten (line_y (fan_line sc b))) = 100%nat /\
  Forall2 (on_line_through_means sc b)
    (line_x (fan_line sc b)) (flatten (line_y (fan_line sc b))).
Proof.
  intros Hstd. unfold fan_line. cbn [line_x line_y]. rewrite flatten_column.
  split; [by rewrite length_map |]. split; [by rewrite length_map |].
  apply Forall2_fmap_same. intros x.
  unfold on_line_through_means, soil_natural, yield_natural, destandardize, dot.
  cbn [zip_with fold_right]. by field.
Qed.

(** X7.  One line of the fan (lines 183-187) for a draw of [beta] that
    holds one number [b]: 100 points, each on the straight line through
    the point of means (soil mean, yield mean / 10) with slope
    [b * yield_std / (10 * soil_std)].  A draw that holds no or several
    numbers does not multiply with the one-column design matrix, and the
    statement raises. *)
Theorem regression_line_through_means sc Soil beta i beta_i :
  ~ (bodenzahl_std sc == 0)%Q ->
  beta !! i = Some beta_i ->
  match flatten beta_i with
  | [b] =>
      exists l,
        regression_line sc Soil beta i = Ok l /\
        length (line_x l) = 100%nat /\ length (flatten (line_y l)) = 100%nat /\
        Forall2 (on_line_through_means sc b) (line_x l) (flatten (line_y l))
  | _ => exists e, regression_line sc Soil beta i = Raise e
  end.
Proof.
  intros Hstd Hi. destruct (flatten beta_i) as [|b [|b' bs]] eqn:Hb.
  - apply (regression_line_mismatch _ _ _ _ beta_i); [done | by rewrite Hb].
  - exists (fan_line sc b). split; [by apply (regression_line_single _ _ _ _ beta_i) |].
    by apply fan_line_through_means.
  - apply (regression_line_mismatch _ _ _ _ beta_i); [done | by rewrite Hb].
Qed.

Lemma regression_lines_x_plot sc Soil Soil' beta :
  regression_lines sc Soil beta = regression_lines sc Soil' beta.
Proof.
  unfold regression_lines. apply mapR_ext_in. intros i _.
  unfold regression_line. by rewrite !x_plot_grid.
Qed.

Lemma x_plot_soil Soil Soil' : x_plot Soil = x_plot Soil'.
Proof. by rewrite !x_plot_grid. Qed.

(** Two runs of the loop body on different soil data, compared. *)
Definition same_but_rug (sc : Scale) (Soil : list Q) (r r' : result Column) : Prop :=
  match r, r' with
  | Ok col, Ok col' =>
      fig2_top col = fig2_top col' /\ fig3_top col = fig3_top col' /\
      plot (fig2_bottom col) = plot (fig2_bottom col') /\
      plot (fig3_bottom col) = plot (fig3_bottom col') /\
      rugplot (fig2_bottom col) = [map (soil_natural sc) Soil] /\
      rugplot (fig3_bottom col) = [map (soil_natural sc) Soil]
  | Raise e, Raise e' => e = e'
  | _, _ => False
  end.

Lemma plot_column_soil sc Soil Soil' res :
  same_but_rug sc Soil (plot_column sc Soil res) (plot_column sc Soil' res).
Proof.
  unfold same_but_rug, plot_column.
  pose proof (regression_lines_x_plot sc Soil Soil') as Hlines. revert Hlines.
  generalize (regression_lines sc Soil) (regression_lines sc Soil').
  intros lines lines' Hlines.
  destruct (lookup_key (prior_samples res) "Yield") as [prior_Yield | e];
    cbn [mbind result_bind]; [| done].
  destruct (lookup_key (prior_samples res) "beta") as [prior_beta | e];
    cbn [mbind result_bind]; [| done].
  rewrite (Hlines prior_beta).
  destruct (lines' prior_beta) as [prior_lines | e]; cbn [mbind result_bind]; [| done].
  destruct (lookup_key (post_samples res) "beta") as [post_beta | e];
    cbn [mbind result_bind]; [| done].
  rewrite (Hlines post_beta).
  destruct (lines' post_beta) as [post_lines | e]; cbn [mbind result_bind]; [| done].
  done.
Qed.

(** X8.  The mean of [Soil] computed at lines 178 and 225 is overwritten
    at lines 180 and 227: the design matrix, the regression lines and the
    histograms are the same for any two soil data sets, and so is the
    exception when the loop body raises; of what a column draws, only the
    rug depends on [Soil]. *)
Theorem fan_independent_of_soil sc Soil Soil' res :
  x_plot Soil = x_plot Soil' /\
  (forall beta, regression_lines sc Soil beta = regression_lines sc Soil' beta) /\
  same_but_rug sc Soil (plot_column sc Soil res) (plot_column sc Soil' res).
Proof.
  split; [apply x_plot_soil |]. split; [apply regression_lines_x_plot |].
  apply plot_column_soil.
Qed.

(* ===================================================================== *)
(** ** One column of the figures *)
(* ===================================================================== *)

(** The draw of [beta] at index [i] as a number. *)
Definition draw_at (beta : list tensor) (i : nat) : Q := item (nth i beta (Scalar 0)).

Lemma fan_indices_bound i : i ∈ fan_indices -> (1 <= i < 300)%nat.
Proof. unfold fan_indices. rewrite list_elem_of_In, in_seq. lia. Qed.

Lemma single_entry t : length (flatten t) = 1%nat -> flatten t = [item t].
Proof. unfold item. destruct (flatten t) as [|b [|b' l]]; by try done. Qed.

Lemma regression_lines_single sc Soil beta :
  (300 <= length beta)%nat ->
  (forall i t, i ∈ fan_indices -> beta !! i = Some t -> length (flatten t) = 1%nat) ->
  regression_lines sc Soil beta
  = Ok (map (fun i => fan_line sc (draw_at beta i)) fan_indices).
Proof.
  intros Hlen Hone. unfold regression_lines. apply mapR_Ok. intros i Hi.
  apply fan_indices_bound in Hi as Hlt.
  destruct (lookup_lt_is_Some_2 beta i) as [t Ht]; [lia |].
  apply (regression_line_single _ _ _ _ t); [done |].
  unfold draw_at. rewrite (nth_lookup_Some _ _ _ _ Ht).
  apply single_entry. by eapply Hone.
Qed.

Lemma rank_0_single t : rank t = 0%nat -> length (flatten t) = 1%nat.
Proof. by destruct t. Qed.


(* ===================================================================== *)
(** ** The prior collections of the driver *)
(* ===================================================================== *)

Section PriorFan.

Context `{Engine}.

Lemma beta_draw_scalar (sigma_b : Q) k :
  exists b, beta_draw (Normal (Scalar 0) (Scalar sigma_b)) k = Scalar b.
Proof. apply rank_0_scalar. unfold beta_draw. by apply dist_sample_scalar. Qed.

Lemma sigma_draw_positive k :
  exists s, sigma_draw 1 k = Scalar s /\ (0 < s)%Q.
Proof.
  destruct (rank_0_scalar (sigma_draw 1 k)) as [s Hs].
  { unfold sigma_draw. by apply dist_sample_scalar. }
  exists s. split; [done |].
  assert (positive (sigma_draw 1 k)) as Hpos.
  { unfold sigma_draw. apply (dist_sample_support (Exponential (Scalar 1))).
    simpl. unfold positive, flatten. simpl. by repeat constructor. }
  rewrite Hs in Hpos. unfold positive, flatten in Hpos. simpl in Hpos.
  by apply Forall_cons in Hpos as [? _].
Qed.

(** X10.  The entries at one index of the three arrays of a prior
    predictive collection come from one run of the model: [beta_i] is one
    number, [sigma_i] is one positive number, and [Yield_i] was drawn from
    [Normal(Soil * beta_i, sigma_i)]. *)
Theorem prior_draws_joint n key (Soil : list Q) (sigma_b : Z) :
  (0 < n)%nat ->
  exists prior betas sigmas yields,
    Predictive_call {| pred_model := def_model_sigma_b; pred_num_samples := n |}
      key (prior_kwargs Soil sigma_b) = Ok prior /\
    prior !! "beta" = Some betas /\ prior !! "sigma" = Some sigmas /\
    prior !! "Yield" = Some yields /\
    length betas = n /\ length sigmas = n /\ length yields = n /\
    forall i beta_i sigma_i yield_i,
      betas !! i = Some beta_i -> sigmas !! i = Some sigma_i ->
      yields !! i = Some yield_i ->
      exists (b s : Q) (k : Key),
        beta_i = Scalar b /\ sigma_i = Scalar s /\ (0 < s)%Q /\
        yield_i = dist_sample
                    (Normal (Vector (map (fun x => x * b)%Q Soil)) (Scalar s)) k.
Proof.
  intros Hn.
  destruct (Predictive_call_draws n key Soil sigma_b Hn)
    as (prior & Hprior & Hbeta & Hsigma & Hyield).
  eexists prior, _, _, _. split; [exact Hprior |].
  split; [exact Hbeta |]. split; [exact Hsigma |]. split; [exact Hyield |].
  rewrite !length_map, run_keys_length by done.
  split; [done |]. split; [done |]. split; [done |].
  intros i beta_i sigma_i yield_i.
  rewrite !list_lookup_fmap.
  destruct (run_keys n key !! i) as [k |]; [| done]. cbn [fmap option_fmap option_map].
  intros [= <-] [= <-] [= <-].
  destruct (beta_draw_scalar (inject_Z sigma_b) k) as [b Hb].
  destruct (sigma_draw_positive k) as (s & Hs & Hpos).
  exists b, s, (response_key k). rewrite Hb, Hs. by repeat split.
Qed.

Lemma prior_beta_single n key (Soil : list Q) (sigma_b : Z) prior :
  (0 < n)%nat ->
  Predictive_call {| pred_model := def_model_sigma_b; pred_num_samples := n |}
    key (prior_kwargs Soil sigma_b) = Ok prior ->
  exists betas yields,
    prior !! "beta" = Some betas /\ prior !! "Yield" = Some yields /\
    length betas = n /\ Forall (fun t => length (flatten t) = 1%nat) betas.
Proof.
  intros Hn Hprior.
  destruct (Predictive_call_draws n key Soil sigma_b Hn)
    as (prior' & Hprior' & Hbeta & _ & Hyield).
  rewrite Hprior in Hprior'. apply Ok_inj in Hprior' as <-.
  eexists _, _. split; [exact Hbeta |]. split; [exact Hyield |].
  split; [by rewrite length_map, run_keys_length |].
  apply Forall_map, Forall_forall. intros k _.
  destruct (beta_draw_scalar (inject_Z sigma_b) k) as [b ->]. done.
Qed.

(** X11.  The prior fan of figure 2 is always computed: in both results
    of the driver the prior collection of [beta] holds 1000 numbers, every
    index of [range(1,300)] is in range, and the lines are those of the
    draws 1 to 299. *)
Theorem prior_fan_always_drawn key (Soil Yield : list Q) sc :
  exists st,
    sampling def_model def_model_matrix def_model_sigma_b def_model_trunc
      key Soil Yield sc = Ok st /\
    length (lstRes st) = 2%nat /\
    Forall (fun res =>
              exists betas,
                prior_samples res !! "beta" = Some betas /\
                length betas = 1000%nat /\
                Forall (fun t => rank t = 0%nat) betas /\
                regression_lines sc Soil betas
                = Ok (map (fun i => fan_line sc (draw_at betas i)) fan_indices))
      (lstRes st).
Proof.
  destruct (sampling_spec def_model def_model_matrix def_model_trunc key Soil Yield sc)
    as (prior1 & states1 & post1 & prior5 & states5 & post5 &
        Hp1 & _ & _ & Hp5 & _ & _ & _ & _ & _ & _ & Hst).
  eexists. split; [exact Hst |]. split; [done |].
  assert (forall k sigma_b prior,
            Predictive_call the_predictive k (prior_kwargs Soil sigma_b) = Ok prior ->
            exists betas,
              prior !! "beta" = Some betas /\ length betas = 1000%nat /\
              Forall (fun t => rank t = 0%nat) betas /\
              regression_lines sc Soil betas
              = Ok (map (fun i => fan_line sc (draw_at betas i)) fan_indices)) as Hfan.
  { intros k sigma_b prior Hprior.
    destruct (Predictive_call_draws 1000 k Soil sigma_b ltac:(lia))
      as (prior' & Hprior' & Hbeta & _).
    change (Predictive_call the_predictive k (prior_kwargs Soil sigma_b) = Ok prior')
      in Hprior'.
    rewrite Hprior in Hprior'. apply Ok_inj in Hprior' as <-.
    eexists. split; [exact Hbeta |].
    assert (Forall (fun t => rank t = 0%nat)
              (map (beta_draw (Normal (Scalar 0) (Scalar (inject_Z sigma_b))))
                 (run_keys 1000 k))) as Hrank.
    { apply Forall_map, Forall_forall. intros k' _.
      by destruct (beta_draw_scalar (inject_Z sigma_b) k') as [b ->]. }
    split; [by rewrite length_map, run_keys_length by lia |]. split; [done |].
    apply regression_lines_single.
    - rewrite length_map, run_keys_length by lia. lia.
    - intros i t _ Ht. apply rank_0_single.
      rewrite Forall_forall in Hrank. apply Hrank. by eapply list_elem_of_lookup_2. }
  cbn [sampling_outcome lstRes].
  constructor; [exact (Hfan _ _ _ Hp1) |]. constructor; [exact (Hfan _ _ _ Hp5) |].
  constructor.
Qed.

End PriorFan.

(* ===================================================================== *)
(** ** How a run can fail *)
(* ===================================================================== *)

Lemma Raise_inj {A} (e e' : Exn) : @Raise A e = Raise e' -> e = e'.
Proof. by intros [=]. Qed.

Lemma external_Raise {A} (x : External A) e :
  external x = Raise e -> exists what, x = Throws what /\ e = Foreign what.
Proof. destruct x as [a | what]; [done |]. intros [= <-]. by exists what. Qed.

Lemma setup_Raise env e :
  setup env = Raise e ->
  (exists what, e = Foreign what) \/
  (e = AssertionError /\ forall suffix, numpyro_version env <> "0.13.0" ++ suffix).
Proof.
  unfold setup, assert_version.
  intros [(what & _ & ->)%external_Raise | (n & _ & Hr)]%bind_Raise; [left; by eexists |].
  apply bind_Raise in Hr as [(what & _ & ->)%external_Raise | (? & _ & Hr)];
    [left; by eexists |].
  destruct (startswith (numpyro_version env) "0.13.0") eqn:Hv; [done |].
  cbn [mbind result_bind] in Hr. injection Hr as <-. right. split; [done |].
  intros suffix Hs.
  assert (startswith (numpyro_version env) "0.13.0" = true) as Hv'
    by (apply startswith_iff; by exists suffix).
  by rewrite Hv in Hv'.
Qed.

Lemma load_Raise env e :
  load env = Raise e ->
  (exists what, e = Foreign what) \/
  (exists data k,
     getData env = Returns data /\ k ∈ scale_keys /\ scale_train data !! k = None /\
     e = KeyError k).
Proof.
  unfold load. destruct (getData env) as [data | what]; cbn [external mbind result_bind].
  2:{ intros [= <-]. left. by eexists. }
  intros Hr. right. exists data.
  pose proof (read_scale_spec (scale_train data)) as Hspec.
  destruct (read_scale (scale_train data)) as [sc | e'] eqn:Hsc; [done |].
  cbn [mbind result_bind] in Hr. injection Hr as <-.
  destruct Hspec as (before & k & after & Hkeys & -> & Hk & _).
  exists k. split; [done |]. split; [| done].
  rewrite Hkeys. apply elem_of_app. right. by left.
Qed.

Section FailureModes.

Context `{Engine}.

(** The posterior fan of a result fails with [e]: one of the draws of
    [beta] it reads is not one number, and line 231 raises [e] on it. *)
Definition posterior_fan_fails (sc : Scale) (Soil : list Q) (res : Res) (e : Exn) : Prop :=
  exists post_beta i t,
    post_samples res !! "beta" = Some post_beta /\ length post_beta = 1600%nat /\
    i ∈ fan_indices /\ post_beta !! i = Some t /\ length (flatten t) <> 1%nat /\
    regression_line sc Soil post_beta i = Raise e.

Lemma plot_column_Raise sc (Soil : list Q) key sigma_b prior post e :
  Predictive_call the_predictive key (prior_kwargs Soil sigma_b) = Ok prior ->
  posterior_collection post ->
  plot_column sc Soil (Build_Res post prior sigma_b) = Raise e ->
  posterior_fan_fails sc Soil (Build_Res post prior sigma_b) e.
Proof.
  intros Hprior [_ Hpost] Hr.
  destruct (prior_beta_single 1000 key Soil sigma_b prior ltac:(lia) Hprior)
    as (betas & yields & Hbeta & Hyield & Hlen & Hone).
  destruct (Hpost "beta") as (post_beta & Hpost_beta & Hpost_len).
  { by apply (bool_decide_unpack _); vm_compute. }
  unfold plot_column, lookup_key in Hr. cbn [prior_samples post_samples] in Hr.
  rewrite Hyield, Hbeta, Hpost_beta in Hr. cbn [from_option mbind result_bind] in Hr.
  rewrite (regression_lines_single sc Soil betas) in Hr.
  2:{ lia. }
  2:{ intros i t _ Ht. rewrite Forall_forall in Hone. apply Hone.
      by eapply list_elem_of_lookup_2. }
  cbn [mbind result_bind] in Hr.
  destruct (regression_lines sc Soil post_beta) as [lines | e'] eqn:Hlines; [done |].
  cbn [mbind result_bind] in Hr. apply Raise_inj in Hr as ->.
  apply mapR_Raise in Hlines as (i & Hi & Hline).
  apply fan_indices_bound in Hi as Hlt.
  destruct (lookup_lt_is_Some_2 post_beta i) as [t Ht]; [lia |].
  exists post_beta, i, t. cbn [post_samples].
  do 4 (split; [done |]). split; [| done].
  intros Hsingle.
  by rewrite (regression_line_single sc Soil post_beta i t (item t) Ht
                (single_entry t Hsingle)) in Hline.
Qed.


End FailureModes.

(* ===================================================================== *)
(** ** The order of the posterior draws *)
(* ===================================================================== *)

Lemma omap_lookup_index (zs : list (gmap string tensor)) (name : string) i :
  Forall (fun z => name ∈ dom z) zs ->
  omap (fun z : gmap string tensor => z !! name) zs !! i
  = zs !! i ≫= (fun z => z !! name).
Proof.
  intros Hzs. revert i. induction Hzs as [|z zs Hz _ IH]; intros i; [done |].
  apply elem_of_dom in Hz as [v Hv]. csimpl. rewrite Hv. csimpl.
  destruct i as [|i]; csimpl; [done | apply IH].
Qed.

Section Chains.

Context `{Engine}.

(** X13.  [get_samples] lists the draws chain by chain: the entries 0 to
    799 of each posterior array are the draws of the first chain (run with
    the first key of the split), the entries 800 to 1599 those of the
    second.  The posterior fan reads the indices 1 to 299: draws of the
    first chain only. *)
Theorem posterior_draws_chain_major key (Soil Yield : list Q) (sigma_b : Z) :
  exists k1 k2 chain1 chain2 post,
    Threefry.split key 2 = [k1; k2] /\
    single_chain_mcmc the_mcmc (mcmc_kwargs Soil Yield sigma_b) k1 = Ok chain1 /\
    single_chain_mcmc the_mcmc (mcmc_kwargs Soil Yield sigma_b) k2 = Ok chain2 /\
    MCMC_run the_mcmc key (mcmc_kwargs Soil Yield sigma_b) = Ok [chain1; chain2] /\
    length chain1 = 800%nat /\ length chain2 = 800%nat /\
    get_samples [chain1; chain2] = Ok post /\
    (forall name arr i,
       post !! name = Some arr -> (i < 800)%nat ->
       arr !! i = chain1 !! i ≫= (fun z => z !! name) /\
       arr !! (800 + i)%nat = chain2 !! i ≫= (fun z => z !! name)) /\
    Forall (fun i => (i < 800)%nat) fan_indices.
Proof.
  pose proof (split_length key 2) as Hkeys.
  destruct (Threefry.split key 2) as [|k1 [|k2 [|k3 ks]]] eqn:Hsplit; try done.
  destruct (single_chain_mcmc_model_sigma_b 800 1000 2 k1 Soil Yield sigma_b)
    as (chain1 & Hc1 & Hlen1 & Hdom1).
  destruct (single_chain_mcmc_model_sigma_b 800 1000 2 k2 Soil Yield sigma_b)
    as (chain2 & Hc2 & Hlen2 & Hdom2).
  change (single_chain_mcmc the_mcmc (mcmc_kwargs Soil Yield sigma_b) k1 = Ok chain1)
    in Hc1.
  change (single_chain_mcmc the_mcmc (mcmc_kwargs Soil Yield sigma_b) k2 = Ok chain2)
    in Hc2.
  destruct (stack_spec (chain1 ++ chain2) parameter_sites) as (post & Hpost & Hpdom & _).
  { by apply Forall_app. }
  { destruct chain1; [done | done]. }
  exists k1, k2, chain1, chain2, post. split; [done |].
  split; [done |]. split; [done |]. split.
  { unfold MCMC_run. cbn [num_chains the_mcmc Nat.ltb Nat.leb]. rewrite Hsplit.
    cbn [mapR]. rewrite Hc1, Hc2. done. }
  split; [done |]. split; [done |]. split.
  { unfold get_samples. cbn [concat]. by rewrite app_nil_r. }
  split.
  - intros name arr i Harr Hi.
    assert (name ∈ parameter_sites) as Hname.
    { rewrite <- Hpdom. apply elem_of_dom. by eexists. }
    rewrite (stack_lookup _ _ _ _ Hpost Harr), omap_app.
    assert (forall chain, Forall (fun z : gmap string tensor => dom z = parameter_sites) chain ->
                          Forall (fun z : gmap string tensor => name ∈ dom z) chain) as Hin.
    { intros chain Hchain. eapply Forall_impl; [exact Hchain |]. by intros z ->. }
    split.
    + rewrite lookup_app_l by (rewrite omap_lookup_length by auto; lia).
      by apply omap_lookup_index, Hin.
    + rewrite lookup_app_r by (rewrite omap_lookup_length by auto; lia).
      rewrite omap_lookup_length by auto.
      replace (800 + i - length chain1)%nat with i by lia.
      by apply omap_lookup_index, Hin.
  - apply Forall_forall. intros i Hi%fan_indices_bound. lia.
Qed.

End Chains.

(* ===================================================================== *)
(** ** Evenly spaced points *)
(* ===================================================================== *)

Lemma inject_nat_nonzero n : n <> 0%nat -> ~ (inject_Z (Z.of_nat n) == 0)%Q.
Proof. intros Hn. unfold Qeq. simpl. lia. Qed.

(** The [i]-th of [num] evenly spaced points from [start] to [stop]. *)
Definition grid_point (start stop : Q) (num i : nat) : Q :=
  (start + inject_Z (Z.of_nat i)
           * ((stop - start) / inject_Z (Z.of_nat (num - 1))))%Q.

Lemma linspace_length start stop num : length (linspace start stop num) = num.
Proof.
  unfold linspace. cbv zeta.
  destruct (1 <? num)%nat; [rewrite length_insert |];
    destruct (0 <? num - 1)%nat; try destruct (Qeq_bool _ _);
    by rewrite !length_map, length_seq.
Qed.

Lemma linspace_lookup start stop num i x :
  linspace start stop num !! i = Some x ->
  (i < num)%nat /\ (x == grid_point start stop num i)%Q /\
  ((1 < num)%nat -> i = (num - 1)%nat -> x = stop).
Proof.
  intros Hx.
  assert (i < num)%nat as Hi.
  { rewrite <- (linspace_length start stop num). by eapply lookup_lt_Some. }
  split; [done |]. revert Hx. unfold linspace. cbv zeta.
  destruct (Nat.ltb_spec 1 num) as [Hnum | Hnum].
  - destruct (decide (i = (num - 1)%nat)) as [-> | Hne].
    + rewrite list_lookup_insert_eq.
      2:{ destruct (0 <? num - 1)%nat; try destruct (Qeq_bool _ _);
            rewrite !length_map, length_seq; lia. }
      intros [= <-]. split; [| done]. unfold grid_point.
      field. apply inject_nat_nonzero. lia.
    + rewrite list_lookup_insert_ne by done.
      assert ((0 <? num - 1)%nat = true) as -> by (apply Nat.ltb_lt; lia).
      destruct (Qeq_bool _ _); rewrite !list_lookup_fmap, lookup_seq_lt by done;
        cbn [fmap option_fmap option_map]; intros [= <-];
        (split; [| done]); unfold grid_point; cbn [Nat.add]; unfold Qdiv; ring.
  - assert ((0 <? num - 1)%nat = false) as -> by (apply Nat.ltb_ge; lia).
    rewrite !list_lookup_fmap, lookup_seq_lt by done.
    cbn [fmap option_fmap option_map]. intros [= <-]. split; [| lia].
    assert (i = 0%nat) as -> by lia. unfold grid_point. cbn. unfold Qdiv. ring.
Qed.

(** X14.  [np.linspace(start, stop, num)] as the script calls it at lines
    177 and 224, for any arguments: [num] points, the [i]-th equal to
    [start + i * (stop - start) / (num - 1)]; for [num > 1] the first is
    [start] and the last is exactly [stop]. *)
Theorem linspace_points (start stop : Q) (num : nat) :
  length (linspace start stop num) = num /\
  Forall2 Qeq (linspace start stop num) (map (grid_point start stop num) (seq 0 num)) /\
  ((1 < num)%nat ->
   last (linspace start stop num) = Some stop /\
   (grid_point start stop num 0 == start)%Q /\
   (grid_point start stop num (num - 1) == stop)%Q).
Proof.
  split; [apply linspace_length |]. split.
  - apply Forall2_same_length_lookup_2.
    + by rewrite linspace_length, length_map, length_seq.
    + intros i x y Hx. apply linspace_lookup in Hx as (Hi & Hx & _).
      rewrite list_lookup_fmap, lookup_seq_lt by done.
      cbn [fmap option_fmap option_map Nat.add]. by intros [= <-].
  - intros Hnum. split; [| split].
    + rewrite last_lookup, linspace_length.
      destruct (lookup_lt_is_Some_2 (linspace start stop num) (pred num)) as [x Hx];
        [rewrite linspace_length; lia |].
      rewrite Hx. f_equal.
      apply linspace_lookup in Hx as (_ & _ & Hlast). apply Hlast; lia.
    + unfold grid_point. cbn. unfold Qdiv. ring.
    + unfold grid_point. field. apply inject_nat_nonzero. lia.
Qed.

(* ===================================================================== *)
(** ** [model_matrix] with one regressor *)
(* ===================================================================== *)

(** A one-dimensional array as a design matrix with one column. *)
Definition column (xs : list Q) : tensor := Matrix (map (fun x => [x]) xs).

Lemma matmul_column_vector (xs : list Q) (b : Q) :
  matmul (column xs) (Vector [b]) = Some (Vector (map (fun x => dot [x] [b]) xs)).
Proof.
  unfold column. cbn [matmul length].
  assert (forallb (fun r : list Q => Nat.eqb (length r) 1) (map (fun x => [x]) xs) = true)
    as ->.
  { apply forallb_forall. intros r Hr. apply in_map_iff in Hr as (x & <- & _). done. }
  by rewrite map_map.
Qed.

Section MatrixModel.

Context `{Engine}.

(** X15.  [model_matrix] reads [X.shape[1]]: on an array that is not
    two-dimensional, such as the script's [Soil], it raises an
    [IndexError] before any site is visited.  On the one-column matrix of
    [Soil] its response has the location [X @ beta], entry by entry the
    [Soil * beta] of [model]; but its prior on [sigma] is [Exponential(4)]
    where [model] has [Exponential(1)], and its [beta] is an array of one
    entry. *)
Theorem model_matrix_one_regressor rng_key (x0 : Q) (xs : list Q) (b : Q) (s y : tensor) :
  let Soil := x0 :: xs in
  (forall X Y data, rank X <> 2%nat ->
     get_trace rng_key data (model_matrix X Y) = Raise IndexError) /\
  exists mu mu',
    get_trace rng_key (<["beta" := Vector [b]]> (<["sigma" := s]> ∅))
      (model_matrix (column Soil) (Some y))
    = Ok [ Build_Site "beta" (Expand (Normal (Scalar 0) (Scalar 1)) [1%nat])
             (Vector [b]) false;
           Build_Site "sigma" (Exponential (Scalar 4)) s false;
           Build_Site "Y" (Normal (Vector mu') s) y true ] /\
    get_trace rng_key (<["beta" := Scalar b]> (<["sigma" := s]> ∅))
      (model (Vector Soil) (Some y))
    = Ok [ Build_Site "beta" (Normal (Scalar 0) (Scalar 1)) (Scalar b) false;
           Build_Site "sigma" (Exponential (Scalar 1)) s false;
           Build_Site "Yield" (Normal (Vector mu) s) y true ] /\
    Forall2 Qeq mu' mu.
Proof.
  intros Soil. split.
  { intros X Y data HX. by destruct X. }
  exists (map (fun x => x * b)%Q Soil), (map (fun x => dot [x] [b]) Soil).
  split; [| split].
  - change (column Soil) with (Matrix ([x0] :: map (fun x => [x]) xs)).
    unfold model_matrix. cbn [get_trace ncols length].
    rewrite lookup_insert_eq. cbn [get_trace].
    rewrite lookup_insert_ne, lookup_insert_eq by done.
    change (Matrix ([x0] :: map (fun x => [x]) xs)) with (column Soil).
    rewrite matmul_column_vector. cbn [get_trace].
    rewrite !lookup_insert_ne, lookup_empty by done. by cbn.
  - unfold model. cbn [get_trace].
    rewrite lookup_insert_eq. cbn [get_trace].
    rewrite lookup_insert_ne, lookup_insert_eq by done.
    rewrite tmul_vector_scalar. cbn [get_trace].
    rewrite !lookup_insert_ne, lookup_empty by done. by cbn.
  - apply Forall2_fmap_same. intros x. apply dot_singleton.
Qed.

End MatrixModel.

(* ===================================================================== *)
(** ** Engines that keep the shapes of the latent values *)
(* ===================================================================== *)

(** Every value of a dictionary of latent values is 0-dimensional. *)
Definition scalar_values (z : gmap string tensor) : Prop :=
  map_Forall (fun _ v => rank v = 0%nat) z.

(** An engine that keeps the shapes of the latent values: the initial value
    of a site with 0-dimensional parameters is 0-dimensional, and a
    transition from 0-dimensional values gives 0-dimensional values. *)
Definition shape_preserving (E : Engine) : Prop :=
  (forall d k, scalar_params d = true -> rank (init_value d k) = 0%nat) /\
  (forall pot warm a km kt z,
     scalar_values z -> scalar_values (nuts_move pot warm a km kt z).1).

Lemma omap_lookup_Forall (P : tensor -> Prop) (zs : list (gmap string tensor)) name :
  Forall (map_Forall (fun _ v => P v)) zs ->
  Forall P (omap (fun z : gmap string tensor => z !! name) zs).
Proof.
  induction 1 as [|z zs Hz _ IH]; csimpl; [constructor |].
  destruct (z !! name) as [v |] eqn:Hv; csimpl; [| done].
  constructor; [by eapply Hz | done].
Qed.

Section Shapes.

Context `{Engine}.

Hypothesis Hshape : shape_preserving H.

Lemma nuts_init_scalar_values key Soil Yield sigma_b st :
  nuts_init {| nuts_model := def_model_sigma_b |} key (mcmc_kwargs Soil Yield sigma_b)
  = Ok st -> scalar_values (hmc_z st).
Proof.
  unfold nuts_init. cbn [nuts_model].
  destruct (Threefry.split2 key) as [key' key_init].
  rewrite fn_call_mcmc_kwargs. cbn [mbind result_bind].
  rewrite get_trace_model_sigma_b. cbn [mbind result_bind].
  intros <-%Ok_inj. cbn [hmc_z]. unfold linear_sites.
  destruct (Threefry.split2 key_init) as [key1 sub1].
  destruct (Threefry.split2 key1) as [key2 sub2].
  unfold latent_sites. rewrite !filter_cons, filter_nil.
  cbn [site_is_observed]. repeat case_decide; try done.
  cbn [map site_name site_fn list_to_map foldr].
  destruct Hshape as [Hinit _]. unfold scalar_values.
  apply map_Forall_insert_2; [by apply Hinit |].
  apply map_Forall_insert_2; [by apply Hinit |].
  apply map_Forall_empty.
Qed.

Lemma nuts_sample_scalar_values k warmup kwargs st :
  scalar_values (hmc_z st) -> scalar_values (hmc_z (nuts_sample k warmup kwargs st)).
Proof.
  intros Hst. unfold nuts_sample.
  destruct (Threefry.split (hmc_rng_key st) 3) as [|a [|b [|c [|d l]]]]; try done.
  destruct (nuts_move _ _ _ _ _ _) as [z a'] eqn:Hmove. cbn [hmc_z].
  destruct Hshape as [_ Hmove'].
  specialize (Hmove' (potential k kwargs) (hmc_i st <? warmup)%nat (hmc_adapt st)
                b c (hmc_z st) Hst).
  by rewrite Hmove in Hmove'.
Qed.

Lemma MCMC_run_scalar_values key Soil Yield sigma_b states :
  MCMC_run the_mcmc key (mcmc_kwargs Soil Yield sigma_b) = Ok states ->
  Forall scalar_values (concat states).
Proof.
  unfold MCMC_run. intros Hstates. apply Forall_concat.
  revert states Hstates. generalize (if (1 <? num_chains the_mcmc)%nat
                                     then Threefry.split key (num_chains the_mcmc)
                                     else [key]).
  intros keys. induction keys as [|k keys IH]; intros states; cbn [mapR].
  { intros <-%Ok_inj. constructor. }
  intros (chain & Hchain & (chains & Hchains & <-%Ok_inj)%bind_Ok)%bind_Ok.
  constructor; [| by apply IH].
  unfold single_chain_mcmc in Hchain.
  apply bind_Ok in Hchain as (init & Hinit & <-%Ok_inj).
  rewrite Forall_map.
  apply (fori_collect_Forall (fun st => scalar_values (hmc_z st))).
  - intros st. apply nuts_sample_scalar_values.
  - by eapply nuts_init_scalar_values.
Qed.

Lemma posterior_beta_single key Soil Yield sigma_b states post :
  MCMC_run the_mcmc key (mcmc_kwargs Soil Yield sigma_b) = Ok states ->
  get_samples states = Ok post -> posterior_collection post ->
  exists post_beta,
    post !! "beta" = Some post_beta /\ length post_beta = 1600%nat /\
    Forall (fun t => length (flatten t) = 1%nat) post_beta.
Proof.
  intros Hstates Hpost [_ Hlook].
  destruct (Hlook "beta") as (post_beta & Hbeta & Hlen).
  { by apply (bool_decide_unpack _); vm_compute. }
  exists post_beta. split; [done |]. split; [done |].
  unfold get_samples in Hpost. rewrite (stack_lookup _ _ _ _ Hpost Hbeta).
  eapply Forall_impl; [| intros t; apply rank_0_single].
  apply (omap_lookup_Forall (fun v => rank v = 0%nat)).
  by eapply MCMC_run_scalar_values.
Qed.

End Shapes.

(* ===================================================================== *)
(** ** A complete run *)
(* ===================================================================== *)

(** What one column of the two figures holds after a complete run. *)
Definition complete_column (sc : Scale) (Soil : list Q) (sigma_b : Z) (col : Column)
  : Prop :=
  length (plot (fig2_bottom col)) = 299%nat /\
  length (plot (fig3_bottom col)) = 299%nat /\
  Forall (fun l => length (line_x l) = 100%nat /\ length (flatten (line_y l)) = 100%nat)
    (plot (fig2_bottom col) ++ plot (fig3_bottom col)) /\
  rugplot (fig2_bottom col) = [map (soil_natural sc) Soil] /\
  rugplot (fig3_bottom col) = [map (soil_natural sc) Soil] /\
  ylim (fig2_bottom col)
  = (if Z.eqb sigma_b 1 then Some (0, 15)%Q else Some (-20, 40)%Q).

Lemma fan_line_points sc b :
  length (line_x (fan_line sc b)) = 100%nat /\
  length (flatten (line_y (fan_line sc b))) = 100%nat.
Proof.
  unfold fan_line. cbn [line_x line_y]. by rewrite flatten_column, !length_map.
Qed.

Section Success.

Context `{Engine}.

Lemma plot_column_complete sc (Soil Yield : list Q) key key' (width : Z) prior states post :
  shape_preserving H ->
  Predictive_call the_predictive key (prior_kwargs Soil width) = Ok prior ->
  MCMC_run the_mcmc key' (mcmc_kwargs Soil Yield width) = Ok states ->
  get_samples states = Ok post -> posterior_collection post ->
  exists col,
    plot_column sc Soil (Build_Res post prior width) = Ok col /\
    complete_column sc Soil width col.
Proof.
  intros Hshape Hprior Hstates Hpost Hcoll.
  destruct (prior_beta_single 1000 key Soil width prior ltac:(lia) Hprior)
    as (betas & yields & Hbeta & Hyield & Hlen & Hone).
  destruct (posterior_beta_single Hshape key' Soil Yield width states post
              Hstates Hpost Hcoll) as (post_beta & Hpost_beta & Hpost_len & Hpost_one).
  assert (forall beta, (300 <= length beta)%nat ->
            Forall (fun t => length (flatten t) = 1%nat) beta ->
            regression_lines sc Soil beta
            = Ok (map (fun i => fan_line sc (draw_at beta i)) fan_indices)) as Hfan.
  { intros beta Hb Hall. apply regression_lines_single; [done |].
    intros i t _ Ht. rewrite Forall_forall in Hall. apply Hall.
    by eapply list_elem_of_lookup_2. }
  unfold plot_column, lookup_key. cbn [prior_samples post_samples sigma_b].
  rewrite Hyield, Hbeta, Hpost_beta. cbn [from_option mbind result_bind].
  rewrite !Hfan by (done || lia). cbn [mbind result_bind].
  eexists. split; [reflexivity |]. unfold complete_column.
  cbn [fig2_bottom fig3_bottom plot rugplot ylim].
  split; [done |]. split; [done |]. split; [| done].
  apply Forall_app. split; apply Forall_map, Forall_forall; intros i _;
    apply fan_line_points.
Qed.


End Success.

(* ===================================================================== *)
(** ** The properties above on the reference engine *)
(* ===================================================================== *)

Lemma load_wheat_rows_witness :
  load toy_env = Ok (toy_Soil, toy_Yield, toy_scale) /\
  exists data,
    getData toy_env = Returns data /\
    read_scale (scale_train data) = Ok toy_scale /\
    length toy_Soil = length toy_Yield /\
    zip toy_Soil toy_Yield
    = map (fun r => (bodenzahl_scaled r, yield_scaled r))
        (filter (fun r => crop r = "Winterweizen") (dfL_train data)).
Proof.
  assert (load toy_env = Ok (toy_Soil, toy_Yield, toy_scale)) as Hload by by vm_compute.
  split; [exact Hload |]. exact (load_wheat_rows toy_env _ _ _ Hload).
Defined.

Definition toy_latent : gmap string tensor :=
  {[ "beta" := Scalar (1 # 2); "sigma" := Scalar 2 ]}.

Lemma conditioned_run_ignores_seed_witness :
  exists tr,
    get_trace (H := reference_engine) None toy_latent
      (model_sigma_b (Vector toy_Soil) (Scalar 5) (Some (Vector toy_Yield))) = Ok tr /\
    get_trace (H := reference_engine) (Some toy_key) toy_latent
      (model_sigma_b (Vector toy_Soil) (Scalar 5) (Some (Vector toy_Yield))) = Ok tr /\
    Forall (fun s => match toy_latent !! site_name s with
                     | Some v => site_value s = v
                     | None => site_is_observed s = true
                     end) tr.
Proof.
  eexists. split; [by vm_compute |].
  apply (conditioned_run_ignores_seed reference_engine reference_engine).
  by vm_compute.
Defined.

Lemma potential_conditions_on_yield_witness :
  potential (H := reference_engine) {| nuts_model := def_model_sigma_b |}
    (mcmc_kwargs toy_Soil toy_Yield 5) toy_latent
  = Ok [ Build_Site "beta" (Normal (Scalar 0) (Scalar (inject_Z 5))) (Scalar (1 # 2)) false;
         Build_Site "sigma" (Exponential (Scalar 1)) (Scalar 2) false;
         Build_Site "Yield"
           (Normal (Vector (map (fun x => x * (1 # 2))%Q toy_Soil)) (Scalar 2))
           (Vector toy_Yield) true ].
Proof.
  apply (potential_conditions_on_yield (H := reference_engine) toy_Soil toy_Yield 5 (1 # 2)
           (Scalar 2) toy_latent); by vm_compute.
Defined.

Lemma prior_draws_joint_witness :
  exists prior betas sigmas yields,
    Predictive_call (H := reference_engine)
      {| pred_model := def_model_sigma_b; pred_num_samples := 3 |}
      toy_key (prior_kwargs toy_Soil 5) = Ok prior /\
    prior !! "beta" = Some betas /\ prior !! "sigma" = Some sigmas /\
    prior !! "Yield" = Some yields /\
    length betas = 3%nat /\ length sigmas = 3%nat /\ length yields = 3%nat /\
    forall i beta_i sigma_i yield_i,
      betas !! i = Some beta_i -> sigmas !! i = Some sigma_i ->
      yields !! i = Some yield_i ->
      exists (b s : Q) (k : Key),
        beta_i = Scalar b /\ sigma_i = Scalar s /\ (0 < s)%Q /\
        yield_i = dist_sample (Engine := reference_engine)
                    (Normal (Vector (map (fun x => x * b)%Q toy_Soil)) (Scalar s)) k.
Proof.
  apply (prior_draws_joint (H := reference_engine) 3 toy_key toy_Soil 5). lia.
Defined.

Lemma regression_line_through_means_witness :
  exists l,
    regression_line toy_scale toy_Soil [Scalar 0; Vector [1 # 3]%Q] 1 = Ok l /\
    length (line_x l) = 100%nat /\ length (flatten (line_y l)) = 100%nat /\
    Forall2 (on_line_through_means toy_scale (1 # 3)) (line_x l) (flatten (line_y l)).
Proof.
  refine (regression_line_through_means toy_scale toy_Soil
            [Scalar 0; Vector [1 # 3]%Q] 1 (Vector [1 # 3]%Q) _ _);
    [by vm_compute | reflexivity].
Defined.

(** A result with 300 draws of [beta] in each collection. *)
Definition toy_draws : list tensor :=
  map (fun i => Scalar (inject_Z (Z.of_nat i) / 300)) (seq 0 300).

Definition toy_res : Res :=
  {| post_samples := {[ "beta" := toy_draws ]};
     prior_samples := {[ "beta" := toy_draws; "Yield" := [Vector toy_Yield] ]};
     sigma_b := 5 |}.


(** The scaling dictionary without the soil rating's standard deviation. *)
Definition missing_key_env : Env := {|
  gpu_devices := Returns 0%nat;
  chdir _ := Returns tt;
  numpyro_version := "0.13.0";
  getData := Returns {|
    dfL_train := [ Build_Row "Winterweizen" (1 # 2) (3 # 4) ];
    scale_train := list_to_map [("bodenzahl_mean", 50%Q);
                                ("Winterweizen_yield_mean", 70%Q);
                                ("Winterweizen_yield_std", 12%Q)] |};
  savefig _ := Returns tt
|}.


Lemma reference_engine_shape_preserving : shape_preserving reference_engine.
Proof.
  split.
  - intros d k Hd. by apply anchor_scalar.
  - intros pot warm a km kt z Hz. cbn [nuts_move reference_engine].
    unfold Reference.move. destruct (pot z); cbn [fst]; [| done].
    unfold scalar_values. apply map_Forall_fmap. by intros name v _.
Qed.

Definition toy_data : Data :=
  match getData toy_env with
  | Returns data => data
  | Throws _ => {| dfL_train := []; scale_train := ∅ |}
  end.


(* ===================================================================== *)
(** ** The truncated model under the prior predictive call *)
(* ===================================================================== *)

Lemma fn_call_trunc_prior_kwargs lowtrunc Soil sigma_b :
  fn_call (def_model_trunc lowtrunc) (prior_kwargs Soil sigma_b)
  = Ok (model_trunc lowtrunc (Vector Soil) (Scalar (inject_Z sigma_b)) None).
Proof.
  cbn [fn_call def_model_trunc]. rewrite check_keywords_intro.
  - unfold required, optional, prior_kwargs.
    by rewrite !lookup_insert_eq, !lookup_insert_ne, lookup_insert_eq, lookup_empty by done.
  - unfold prior_kwargs. rewrite !dom_insert_L, dom_empty_L.
    apply (bool_decide_unpack _). by vm_compute.
Qed.

(** Above the truncation point a yield is positive in natural units. *)
Lemma above_lowtrunc_positive sc y :
  (0 < Winterweizen_yield_std sc)%Q -> (lowtrunc_scale sc < y)%Q ->
  (0 < yield_natural sc y / 10)%Q.
Proof.
  intros Hstd Hy.
  assert (~ Winterweizen_yield_std sc == 0)%Q as Hne.
  { intros Heq. rewrite Heq in Hstd. by apply Qlt_irrefl in Hstd. }
  assert (yield_natural sc y / 10
          == (y - lowtrunc_scale sc) * (Winterweizen_yield_std sc / 10))%Q as ->.
  { unfold yield_natural, lowtrunc_scale, destandardize. by field. }
  apply Qmult_lt_0_compat; [lra |]. apply Qlt_shift_div_l; [done | lra].
Qed.

Section TruncatedPrior.

Context `{Engine}.

Lemma Predictive_call_linear f n key kwargs prior rate likelihood (Soil : list Q) :
  fn_call f kwargs = Ok (linear_model prior rate likelihood (Vector Soil) None) ->
  scalar_params prior = true -> (0 < n)%nat ->
  exists coll,
    Predictive_call {| pred_model := f; pred_num_samples := n |} key kwargs = Ok coll /\
    coll !! "beta" = Some (map (beta_draw prior) (run_keys n key)) /\
    coll !! "sigma" = Some (map (sigma_draw rate) (run_keys n key)) /\
    coll !! "Yield"
    = Some (map (fun k =>
                   dist_sample
                     (likelihood
                        (Vector (map (fun x => x * item (beta_draw prior k))%Q Soil))
                        (sigma_draw rate k)) (response_key k))
              (run_keys n key)).
Proof.
  intros Hf Hprior Hn. unfold Predictive_call. cbn [pred_model pred_num_samples].
  change (firstn n _) with (run_keys n key).
  rewrite (mapR_Ok _ (fun k => linear_sites k prior rate likelihood Soil None)).
  2:{ intros k _. rewrite Hf. cbn [mbind result_bind].
      by rewrite get_trace_linear_model, linear_trace_vector. }
  cbn [mbind result_bind]. rewrite map_map.
  destruct (stack_spec
              (map (fun k => trace_values (linear_sites k prior rate likelihood Soil None))
                 (run_keys n key)) all_sites) as (coll & Hcoll & Hdom & Hlook).
  { rewrite Forall_map. apply Forall_forall. intros k _.
    apply dom_trace_values_linear_sites. }
  { pose proof (run_keys_length n key Hn) as Hlen.
    destruct (run_keys n key); [simpl in Hlen; lia | done]. }
  exists coll. split; [done |].
  assert (forall name draw,
            (forall k, trace_values (linear_sites k prior rate likelihood Soil None) !! name
                       = Some (draw k)) ->
            name ∈ all_sites ->
            coll !! name = Some (map draw (run_keys n key))) as Hsite.
  { intros name draw Hdraw Hname.
    destruct (Hlook name Hname) as (arr & Harr & _). rewrite Harr. f_equal.
    rewrite (stack_lookup _ _ _ _ Hcoll Harr).
    by apply (omap_fmap_Some _ (fun z : gmap string tensor => z !! name)). }
  split; [| split].
  - apply Hsite; [| by apply (bool_decide_unpack _); vm_compute].
    intros k. rewrite linear_sites_draws. unfold trace_values.
    cbn [map site_name site_value list_to_map foldr]. by rewrite lookup_insert_eq.
  - apply Hsite; [| by apply (bool_decide_unpack _); vm_compute].
    intros k. rewrite linear_sites_draws. unfold trace_values.
    cbn [map site_name site_value list_to_map foldr].
    by rewrite lookup_insert_ne, lookup_insert_eq by done.
  - apply Hsite; [| by apply (bool_decide_unpack _); vm_compute].
    intros k. rewrite linear_sites_draws. unfold trace_values.
    cbn [map site_name site_value list_to_map foldr].
    by rewrite !lookup_insert_ne, lookup_insert_eq by done.
Qed.

(** X17.  The alternative of line 101.  Called as line 112 calls [model],
    [model_trunc] accepts the keyword arguments, and every entry of every
    prior predictive draw of [Yield] lies above the truncation point: what
    lines 163-165 put in the histogram of figure 2, the yield in natural
    units divided by 10, is positive (for a positive yield standard
    deviation). *)
Theorem truncated_prior_yields_positive sc n key (Soil : list Q) (sigma_b : Z) :
  (0 < Winterweizen_yield_std sc)%Q -> (0 < n)%nat ->
  exists coll yields,
    Predictive_call
      {| pred_model := def_model_trunc (lowtrunc_scale sc); pred_num_samples := n |}
      key (prior_kwargs Soil sigma_b) = Ok coll /\
    coll !! "Yield" = Some yields /\ length yields = n /\
    Forall (fun y => lowtrunc_scale sc < y /\ 0 < yield_natural sc y / 10)%Q
      (concat (map flatten yields)).
Proof.
  intros Hstd Hn.
  destruct (Predictive_call_linear (def_model_trunc (lowtrunc_scale sc)) n key
              (prior_kwargs Soil sigma_b) (Normal (Scalar 0) (Scalar (inject_Z sigma_b))) 1
              (fun mu sigma => LeftTruncatedDistribution (StudentT (Scalar 5) mu sigma)
                                 (Scalar (lowtrunc_scale sc))) Soil)
    as (coll & Hcoll & _ & _ & Hyield); [| done | done |].
  { by rewrite fn_call_trunc_prior_kwargs, model_trunc_linear. }
  eexists coll, _. split; [exact Hcoll |]. split; [exact Hyield |].
  split; [by rewrite length_map, run_keys_length |].
  apply Forall_concat. rewrite !Forall_map. apply Forall_forall. intros k _.
  destruct (sigma_draw_positive k) as (s & Hs & Hpos). rewrite Hs.
  eapply Forall_impl.
  - apply greater_than_scalar.
    apply (dist_sample_support (LeftTruncatedDistribution _ _)).
    simpl. split; [| done]. unfold positive, flatten. simpl. by repeat constructor.
  - intros y Hy. split; [done | by apply above_lowtrunc_positive].
Qed.

End TruncatedPrior.

Lemma truncated_prior_yields_positive_witness :
  exists coll yields,
    Predictive_call (H := reference_engine)
      {| pred_model := def_model_trunc (lowtrunc_scale toy_scale); pred_num_samples := 3 |}
      toy_key (prior_kwargs toy_Soil 5) = Ok coll /\
    coll !! "Yield" = Some yields /\ length yields = 3%nat /\
    Forall (fun y => lowtrunc_scale toy_scale < y /\ 0 < yield_natural toy_scale y / 10)%Q
      (concat (map flatten yields)).
Proof.
  apply (truncated_prior_yields_positive (H := reference_engine) toy_scale 3 toy_key
           toy_Soil 5); [reflexivity | lia].
Defined.
